(** * Coupon system: validity, applicability, discounts and the usage ledger

  A shallow embedding of the Go packages [models], [repository] and
  [service] of the coupon system, followed by the properties of the
  specification stated over these definitions.

  Conventions of the embedding:
  - [float64] is the kernel's binary64 type [float]; Go's [<], [*] and [/]
    are [PrimFloat.ltb], [PrimFloat.mul] and [PrimFloat.div].
  - [uuid.UUID] ([[16]byte], compared with [==]) is the number its sixteen
    bytes spell in big-endian order.
  - [time.Time] is an instant, counted in nanoseconds since the Unix epoch;
    [After] and [Before] compare instants.
  - [int] and [int64] are [Z]; the code only compares them.
  - the string types [UsageType] and [DiscountType] stay strings, so that
    a stored coupon may carry any value, as in the database.
  - [time.Now()] and [uuid.New()] become parameters of the functions that
    call them. *)

From Stdlib Require Import ZArith NArith List String Bool Lia Floats Permutation.
Import ListNotations.

Local Open Scope string_scope.
Local Open Scope list_scope.
Local Open Scope Z_scope.

(* ================================================================== *)
(** ** package models *)

Module Models.

Definition UUID := N.
Definition Time := Z.

(** [t.After(u)]: the instant [t] is after [u]. *)
Definition After (t u : Time) : bool := u <? t.

(** [t.Before(u)]: the instant [t] is before [u]. *)
Definition Before (t u : Time) : bool := t <? u.

Definition UsageType := string.
Definition DiscountType := string.

Definition OneTime : UsageType := "one_time".
Definition MultiUse : UsageType := "multi_use".
Definition TimeBased : UsageType := "time_based".

Definition PercentageDiscount : DiscountType := "percentage".
Definition FixedDiscount : DiscountType := "fixed".

Module TimeWindow.
Record t := mk { StartTime : Time; EndTime : Time }.
End TimeWindow.

Module Medicine.
Record t := mk {
  ID : UUID;
  Name : string;
  Category : string;
  Price : float
}.
End Medicine.

Module Category.
Record t := mk { ID : UUID; Name : string }.
End Category.

Module CouponUsage.
Record t := mk {
  ID : UUID;
  CouponID : UUID;
  UserID : UUID;
  OrderID : UUID;
  UsedAt : Time;
  CreatedAt : Time
}.
End CouponUsage.

(** The bookkeeping columns [CreatedAt], [UpdatedAt], [DeletedAt] and the
    back reference [Usages] are read by none of the functions below and are
    left out; the tables of the store hold the rows whose [deleted_at] is
    null (the repository never deletes). *)
Module Coupon.
Record t := mk {
  ID : UUID;
  Code : string;
  ExpiryDate : Time;
  UsageType : Models.UsageType;
  DiscountType : Models.DiscountType;
  DiscountValue : float;
  MinOrderValue : float;
  MaxUsagePerUser : Z;
  ValidTimeWindow : option TimeWindow.t;
  TermsAndConditions : string;
  IsActive : bool;
  ApplicableMedicines : list Medicine.t;
  ApplicableCategories : list Category.t
}.

(** [func (c *Coupon) IsValid(orderTotal float64, currentTime time.Time) bool] *)
Definition IsValid (c : t) (orderTotal : float) (currentTime : Time) : bool :=
  if negb (IsActive c) then false
  else if After currentTime (ExpiryDate c) then false
  else if (orderTotal <? MinOrderValue c)%float then false
  else
    match ValidTimeWindow c with
    | Some w =>
        if Before currentTime (TimeWindow.StartTime w)
           || After currentTime (TimeWindow.EndTime w)
        then false
        else true
    | None => true
    end.

(** [func (c *Coupon) CalculateDiscount(orderTotal float64) float64] *)
Definition CalculateDiscount (c : t) (orderTotal : float) : float :=
  if String.eqb (DiscountType c) PercentageDiscount
  then (orderTotal * (DiscountValue c / 100))%float
  else DiscountValue c.

(** [func (c *Coupon) BeforeCreate(tx *gorm.DB) error]; [fresh] is the
    value [uuid.New()] would return. *)
Definition BeforeCreate (fresh : UUID) (c : t) : t :=
  if N.eqb (ID c) 0%N
  then mk fresh (Code c) (ExpiryDate c) (UsageType c) (DiscountType c)
          (DiscountValue c) (MinOrderValue c) (MaxUsagePerUser c)
          (ValidTimeWindow c) (TermsAndConditions c) (IsActive c)
          (ApplicableMedicines c) (ApplicableCategories c)
  else c.
End Coupon.

End Models.

Import Models.

(* ================================================================== *)
(** ** package repository *)

Module Repository.

(** Go's [error] values that reach the callers. *)
Inductive error :=
| ErrRecordNotFound            (* gorm.ErrRecordNotFound *)
| ErrNew (msg : string)        (* errors.New(msg) *)
| ErrDriver (msg : string).    (* an error reported by the database driver *)

Inductive result (A : Type) :=
| Ok (a : A)
| Err (e : error).
Arguments Ok {A} a.
Arguments Err {A} e.

(** The store behind [*gorm.DB]: the two tables the code reads and writes,
    and a script of the outcomes of the coming round trips to the database
    ([Some msg]: the driver fails with [msg]; [None], or an exhausted
    script: the statement runs).  The script stands for everything the
    process cannot control: lost connections, cancelled contexts,
    constraint violations reported by the server. *)
Record DB := mkDB {
  coupons : list Coupon.t;
  coupon_usages : list CouponUsage.t;
  faults : list (option string)
}.

Definition with_faults (db : DB) (fs : list (option string)) : DB :=
  mkDB (coupons db) (coupon_usages db) fs.

Definition with_tables (db from : DB) : DB :=
  mkDB (coupons from) (coupon_usages from) (faults db).

(** Computations over the store that may fail. *)
Definition M (A : Type) : Type := DB -> result A * DB.

Definition ret {A} (a : A) : M A := fun db => (Ok a, db).

Definition fail {A} (e : error) : M A := fun db => (Err e, db).

Definition bind {A B} (m : M A) (k : A -> M B) : M B :=
  fun db =>
    match m db with
    | (Ok a, db') => k a db'
    | (Err e, db') => (Err e, db')
    end.

Notation "x <- m ;; k" := (bind m (fun x => k))
  (at level 61, m at next level, right associativity).

(** One round trip: the head of the script decides its outcome. *)
Definition roundtrip : M unit :=
  fun db =>
    match faults db with
    | Some msg :: rest => (Err (ErrDriver msg), with_faults db rest)
    | None :: rest => (Ok tt, with_faults db rest)
    | [] => (Ok tt, db)
    end.

(** [ORDER BY id LIMIT 1]: the row with the least primary key. *)
Fixpoint least_id (rows : list Coupon.t) : option Coupon.t :=
  match rows with
  | [] => None
  | c :: rest =>
      match least_id rest with
      | Some d => if (Coupon.ID d <? Coupon.ID c)%N then Some d else Some c
      | None => Some c
      end
  end.

(** [db.Where(cond).First(&coupon)] on the coupons table: one statement. *)
Definition First (cond : Coupon.t -> bool) : M Coupon.t :=
  _ <- roundtrip ;;
  fun db =>
    match least_id (filter cond (coupons db)) with
    | Some c => (Ok c, db)
    | None => (Err ErrRecordNotFound, db)
    end.

(** [db.Where(cond).Find(&coupons)]. *)
Definition Find (cond : Coupon.t -> bool) : M (list Coupon.t) :=
  _ <- roundtrip ;;
  fun db => (Ok (filter cond (coupons db)), db).

(** [db.Model(&models.CouponUsage{}).Where(cond).Count(&count)]. *)
Definition Count (cond : CouponUsage.t -> bool) : M Z :=
  _ <- roundtrip ;;
  fun db => (Ok (Z.of_nat (List.length (filter cond (coupon_usages db)))), db).

(** [db.Create(usage)]: one more row in [coupon_usages]. *)
Definition CreateUsage (usage : CouponUsage.t) : M unit :=
  _ <- roundtrip ;;
  fun db => (Ok tt, mkDB (coupons db) (coupon_usages db ++ [usage]) (faults db)).

(** [Preload(name)] of a many-to-many relation, for rows already read:
    one statement on the join table and, when it holds rows for them
    ([related] is their number), one on the related table.  What the
    preloads read is what the stored coupons carry in their lists. *)
Definition Preload (related : nat) : M unit :=
  _ <- roundtrip ;;
  if (related =? 0)%nat then ret tt else roundtrip.

(** [Preload("ApplicableMedicines").Preload("ApplicableCategories")] after
    the query returned [rows]: nothing for no row, else the two preloads,
    which gorm runs in the order of their names. *)
Definition Preloads (rows : list Coupon.t) : M unit :=
  match rows with
  | [] => ret tt
  | _ :: _ =>
      _ <- Preload (List.length (flat_map Coupon.ApplicableCategories rows)) ;;
      Preload (List.length (flat_map Coupon.ApplicableMedicines rows))
  end.

(** [db.Preload(...).Preload(...).Where(cond).First(&coupon)]: the
    preloads run once the row is read. *)
Definition FirstPreloaded (cond : Coupon.t -> bool) : M Coupon.t :=
  coupon <- First cond ;;
  _ <- Preloads [coupon] ;;
  ret coupon.

(** [db.Preload(...).Preload(...).Where(cond).Find(&coupons)]. *)
Definition FindPreloaded (cond : Coupon.t -> bool) : M (list Coupon.t) :=
  rows <- Find cond ;;
  _ <- Preloads rows ;;
  ret rows.

(** A [timestamptz] keeps whole microseconds. *)
Definition microseconds (t : Time) : Time := 1000 * (t / 1000).

Section Upsert.
Context {X : Type} (id : X -> UUID).

(** [INSERT ... ON CONFLICT DO NOTHING] of [xs] into a table keyed by
    [id]: for each element, the row the table holds under its identifier
    once the statement has run (the row that was there, else the element). *)
Fixpoint upserted (table : list X) (xs : list X) : list X :=
  match xs with
  | [] => []
  | x :: rest =>
      match find (fun y => N.eqb (id y) (id x)) table with
      | Some y => y :: upserted table rest
      | None => x :: upserted (table ++ [x]) rest
      end
  end.

(** The join table keeps one row per identifier. *)
Fixpoint one_per_id (seen : list UUID) (xs : list X) : list X :=
  match xs with
  | [] => []
  | x :: rest =>
      if existsb (N.eqb (id x)) seen then one_per_id seen rest
      else x :: one_per_id (id x :: seen) rest
  end.

End Upsert.

(** The row a later query reads for a coupon that [Create] stored beside
    [rows].  The times keep whole microseconds.  The medicines and the
    categories live in tables of their own, shared by the coupons and
    written by [Create] only, with [ON CONFLICT DO NOTHING]: an identifier
    that a stored coupon already carries keeps the row stored for it, and
    the join table keeps one row per identifier.  The database does not
    fix the order in which a relation is read back; the lists keep the
    order of the request, and the matcher does not depend on it. *)
Definition stored_row (rows : list Coupon.t) (c : Coupon.t) : Coupon.t :=
  Coupon.mk (Coupon.ID c) (Coupon.Code c)
    (microseconds (Coupon.ExpiryDate c))
    (Coupon.UsageType c) (Coupon.DiscountType c)
    (Coupon.DiscountValue c) (Coupon.MinOrderValue c) (Coupon.MaxUsagePerUser c)
    (option_map (fun w => TimeWindow.mk (microseconds (TimeWindow.StartTime w))
                                        (microseconds (TimeWindow.EndTime w)))
                (Coupon.ValidTimeWindow c))
    (Coupon.TermsAndConditions c) (Coupon.IsActive c)
    (one_per_id Medicine.ID []
       (upserted Medicine.ID (flat_map Coupon.ApplicableMedicines rows)
                 (Coupon.ApplicableMedicines c)))
    (one_per_id Category.ID []
       (upserted Category.ID (flat_map Coupon.ApplicableCategories rows)
                 (Coupon.ApplicableCategories c))).

(** The column [is_active] has [default:true]: a zero value is replaced by
    the default, in the statement and in the struct. *)
Definition with_defaults (c : Coupon.t) : Coupon.t :=
  if Coupon.IsActive c then c
  else Coupon.mk (Coupon.ID c) (Coupon.Code c) (Coupon.ExpiryDate c) (Coupon.UsageType c)
         (Coupon.DiscountType c) (Coupon.DiscountValue c) (Coupon.MinOrderValue c)
         (Coupon.MaxUsagePerUser c) (Coupon.ValidTimeWindow c)
         (Coupon.TermsAndConditions c) true
         (Coupon.ApplicableMedicines c) (Coupon.ApplicableCategories c).

(** The statements of an association: the related rows, then the join
    rows; none for an empty relation. *)
Definition SaveAssociation (related : nat) : M unit :=
  if (related =? 0)%nat then ret tt else (_ <- roundtrip ;; roundtrip).

(** [db.Create(coupon)]: the [BeforeCreate] hook and the defaults, then,
    in the transaction gorm opens for a write, the row of [coupons] and the
    two associations, in the order of the fields.  The struct the caller
    holds is [c]; the tables gain the row [stored_row] makes of it, when
    every statement succeeded, and nothing otherwise.  A violation of the
    primary key or of the unique index on [code] is an outcome of the
    INSERT that the script carries. *)
Definition CreateCoupon (fresh : UUID) (coupon : Coupon.t) : M Coupon.t :=
  let c := with_defaults (Coupon.BeforeCreate fresh coupon) in
  _ <- roundtrip ;;                                                      (* BEGIN *)
  _ <- roundtrip ;;                                                      (* INSERT INTO coupons *)
  _ <- SaveAssociation (List.length (Coupon.ApplicableMedicines c)) ;;
  _ <- SaveAssociation (List.length (Coupon.ApplicableCategories c)) ;;
  _ <- roundtrip ;;                                                      (* COMMIT *)
  fun db =>
    (Ok c, mkDB (coupons db ++ [stored_row (coupons db) c]) (coupon_usages db) (faults db)).

(** [db.Transaction(fc)]: BEGIN, the body, then COMMIT when the body
    returned nil and ROLLBACK otherwise; a failed COMMIT leaves the tables
    as they were. *)
Definition Transaction (fc : M unit) : M unit :=
  fun db =>
    match roundtrip db with
    | (Err e, db1) => (Err e, db1)
    | (Ok _, db1) =>
        match fc db1 with
        | (Err e, db2) => (Err e, with_tables db2 db1)
        | (Ok _, db2) =>
            match roundtrip db2 with
            | (Err e, db3) => (Err e, with_tables db3 db1)
            | (Ok _, db3) => (Ok tt, db3)
            end
        end
    end.

(** PostgreSQL's [<=] on [double precision]: NaN equals itself and is
    above every other value; elsewhere the IEEE order. *)
Definition float8_le (x y : float) : bool :=
  if is_nan x then is_nan y
  else if is_nan y then true
  else (x <=? y)%float.

(** [func isApplicableToCoupon(coupon models.Coupon, cartItems []models.Medicine) bool] *)
Definition isApplicableToCoupon (coupon : Coupon.t) (cartItems : list Medicine.t) : bool :=
  if (List.length (Coupon.ApplicableMedicines coupon) =? 0)%nat
     && (List.length (Coupon.ApplicableCategories coupon) =? 0)%nat
  then true
  else
    existsb
      (fun item =>
         existsb (fun medicine => N.eqb (Medicine.ID item) (Medicine.ID medicine))
                 (Coupon.ApplicableMedicines coupon)
         || existsb (fun category => String.eqb (Medicine.Category item) (Category.Name category))
                    (Coupon.ApplicableCategories coupon))
      cartItems.

(** [func (r *CouponRepository) Create(ctx, coupon *models.Coupon) error] *)
Definition Create (fresh : UUID) (coupon : Coupon.t) : M Coupon.t :=
  CreateCoupon fresh coupon.

(** [func (r *CouponRepository) GetByCode(ctx, code string)], returning a coupon pointer (nil when absent) and an error *)
Definition GetByCode (code : string) : M (option Coupon.t) :=
  fun db =>
    match FirstPreloaded
            (fun c => String.eqb (Coupon.Code c) code && Coupon.IsActive c) db with
    | (Ok coupon, db') => (Ok (Some coupon), db')
    | (Err ErrRecordNotFound, db') => (Ok None, db')
    | (Err e, db') => (Err e, db')
    end.

(** [func (r *CouponRepository) GetApplicableCoupons(ctx, cartItems, orderTotal)];
    [now] is the value of [time.Now()]. *)
Definition GetApplicableCoupons (now : Time) (cartItems : list Medicine.t)
           (orderTotal : float) : M (list Coupon.t) :=
  coupons <- FindPreloaded (fun c => Coupon.IsActive c
                                     && (now <? Coupon.ExpiryDate c)
                                     && float8_le (Coupon.MinOrderValue c) orderTotal) ;;
  ret (filter (fun coupon => isApplicableToCoupon coupon cartItems) coupons).

Definition same_pair (couponID userID : UUID) (u : CouponUsage.t) : bool :=
  N.eqb (CouponUsage.CouponID u) couponID && N.eqb (CouponUsage.UserID u) userID.

(** [func (r *CouponRepository) GetUserCouponUsage(ctx, couponID, userID uuid.UUID) (int, error)] *)
Definition GetUserCouponUsage (couponID userID : UUID) : M Z :=
  Count (same_pair couponID userID).

Definition AlreadyUsed : error := ErrNew "one-time coupon already used".
Definition LimitExceeded : error := ErrNew "coupon usage limit exceeded".

(** [func (r *CouponRepository) RecordCouponUsage(ctx, usage *models.CouponUsage) error] *)
Definition RecordCouponUsage (usage : CouponUsage.t) : M unit :=
  Transaction (
    coupon <- First (fun c => N.eqb (Coupon.ID c) (CouponUsage.CouponID usage)
                              && Coupon.IsActive c) ;;
    _ <- (if String.eqb (Coupon.UsageType coupon) OneTime then
            count <- Count (same_pair (CouponUsage.CouponID usage) (CouponUsage.UserID usage)) ;;
            if count >? 0 then fail AlreadyUsed else ret tt
          else ret tt) ;;
    _ <- (if String.eqb (Coupon.UsageType coupon) MultiUse then
            count <- Count (same_pair (CouponUsage.CouponID usage) (CouponUsage.UserID usage)) ;;
            if count >=? Coupon.MaxUsagePerUser coupon then fail LimitExceeded else ret tt
          else ret tt) ;;
    CreateUsage usage).

End Repository.

(* ================================================================== *)
(** ** package service *)

Module Service.
Import Repository.

Module CreateCouponInput.
Record t := mk {
  Code : string;
  ExpiryDate : Time;
  UsageType : Models.UsageType;
  DiscountType : Models.DiscountType;
  DiscountValue : float;
  MinOrderValue : float;
  MaxUsagePerUser : Z;
  ValidTimeWindow : option TimeWindow.t;
  TermsAndConditions : string;
  ApplicableMedicines : list Medicine.t;
  ApplicableCategories : list Category.t
}.
End CreateCouponInput.

(** [func (s *CouponService) CreateCoupon(ctx, input CreateCouponInput)], returning the coupon and an error;
    [id] and [fresh] are the values of the two possible [uuid.New()] calls
    (the service's and the hook's). *)
Definition CreateCoupon (id fresh : UUID) (input : CreateCouponInput.t) : M Coupon.t :=
  let coupon :=
    Coupon.mk id
      (CreateCouponInput.Code input)
      (CreateCouponInput.ExpiryDate input)
      (CreateCouponInput.UsageType input)
      (CreateCouponInput.DiscountType input)
      (CreateCouponInput.DiscountValue input)
      (CreateCouponInput.MinOrderValue input)
      (CreateCouponInput.MaxUsagePerUser input)
      (CreateCouponInput.ValidTimeWindow input)
      (CreateCouponInput.TermsAndConditions input)
      true
      (CreateCouponInput.ApplicableMedicines input)
      (CreateCouponInput.ApplicableCategories input) in
  Repository.Create fresh coupon.

Module ValidateCouponInput.
Record t := mk {
  Code : string;
  CartItems : list Medicine.t;
  OrderTotal : float;
  UserID : UUID;
  Timestamp : Time
}.
End ValidateCouponInput.

Module ValidateCouponOutput.
Record t := mk {
  IsValid : bool;
  ItemsDiscount : float;
  ChargesDiscount : float;
  Message : string
}.
End ValidateCouponOutput.

(** [&ValidateCouponOutput{IsValid: false, Message: msg}] *)
Definition declined (msg : string) : ValidateCouponOutput.t :=
  ValidateCouponOutput.mk false 0%float 0%float msg.

(** [func isApplicableToCoupon(coupon models.Coupon, cartItems []models.Medicine) bool],
    the service's copy. *)
Definition isApplicableToCoupon (coupon : Coupon.t) (cartItems : list Medicine.t) : bool :=
  if (List.length (Coupon.ApplicableMedicines coupon) =? 0)%nat
     && (List.length (Coupon.ApplicableCategories coupon) =? 0)%nat
  then true
  else
    existsb
      (fun item =>
         existsb (fun medicine => N.eqb (Medicine.ID item) (Medicine.ID medicine))
                 (Coupon.ApplicableMedicines coupon)
         || existsb (fun category => String.eqb (Medicine.Category item) (Category.Name category))
                    (Coupon.ApplicableCategories coupon))
      cartItems.

(** [func (s *CouponService) ValidateCoupon(ctx, input ValidateCouponInput)], returning the output and an error *)
Definition ValidateCoupon (input : ValidateCouponInput.t) : M ValidateCouponOutput.t :=
  found <- GetByCode (ValidateCouponInput.Code input) ;;
  match found with
  | None => ret (declined "coupon not found")
  | Some coupon =>
      if negb (Coupon.IsValid coupon (ValidateCouponInput.OrderTotal input)
                              (ValidateCouponInput.Timestamp input))
      then ret (declined "coupon is not valid for this order")
      else if negb (isApplicableToCoupon coupon (ValidateCouponInput.CartItems input))
      then ret (declined "coupon is not applicable to any items in cart")
      else
        usageCount <- GetUserCouponUsage (Coupon.ID coupon) (ValidateCouponInput.UserID input) ;;
        if String.eqb (Coupon.UsageType coupon) OneTime && (usageCount >? 0)
        then ret (declined "one-time coupon already used")
        else if String.eqb (Coupon.UsageType coupon) MultiUse
                && (usageCount >=? Coupon.MaxUsagePerUser coupon)
        then ret (declined "coupon usage limit exceeded")
        else
          let discount := Coupon.CalculateDiscount coupon (ValidateCouponInput.OrderTotal input) in
          ret (ValidateCouponOutput.mk true discount 0%float "coupon applied successfully")
  end.

(** [func (s *CouponService) GetApplicableCoupons(ctx, cartItems, orderTotal)] *)
Definition GetApplicableCoupons (now : Time) (cartItems : list Medicine.t)
           (orderTotal : float) : M (list Coupon.t) :=
  Repository.GetApplicableCoupons now cartItems orderTotal.

(** [func (s *CouponService) RecordCouponUsage(ctx, couponID, userID, orderID uuid.UUID) error];
    [id] is the value of [uuid.New()], [now1] and [now2] those of the two
    [time.Now()] calls. *)
Definition RecordCouponUsage (id : UUID) (now1 now2 : Time)
           (couponID userID orderID : UUID) : M unit :=
  let usage := CouponUsage.mk id couponID userID orderID now1 now2 in
  Repository.RecordCouponUsage usage.

End Service.

(* ================================================================== *)
(** ** package api *)

Module Api.
Import Repository.

(** [err.Error()]. *)
Definition Error (e : error) : string :=
  match e with
  | ErrRecordNotFound => "record not found"
  | ErrNew msg => msg
  | ErrDriver msg => msg
  end.

Module CreateCouponRequest.
Record t := mk {
  Code : string;
  ExpiryDate : Time;
  UsageType : string;
  DiscountType : string;
  DiscountValue : float;
  MinOrderValue : float;
  MaxUsagePerUser : Z;
  ValidTimeWindow : option TimeWindow.t;
  TermsAndConditions : string;
  ApplicableMedicines : list Medicine.t;
  ApplicableCategories : list Category.t
}.
End CreateCouponRequest.

Module GetApplicableCouponsRequest.
Record t := mk { CartItems : list Medicine.t; OrderTotal : float }.
End GetApplicableCouponsRequest.

Module ValidateCouponRequest.
Record t := mk {
  CouponCode : string;
  CartItems : list Medicine.t;
  OrderTotal : float
}.
End ValidateCouponRequest.

(** What [c.ShouldBindJSON(&req)] returned: an error, or nil with [req]
    filled from the body. *)
Inductive bound (R : Type) :=
| BindError (msg : string)
| Bound (req : R).
Arguments BindError {R} msg.
Arguments Bound {R} req.

(** A value kept under a key of the request context ([any]): a
    [uuid.UUID], or a value of another dynamic type. *)
Inductive any :=
| AnyUUID (u : UUID)
| AnyOther (s : string).

(** The keys of the request context, [map[string]any]. *)
Definition Keys := string -> option any.

(** The JSON values the handlers write. *)
Inductive body :=
| NoBody
| ErrorResponse (Error : string)
| CouponBody (coupon : Coupon.t)
| ApplicableCoupons (applicable_coupons : list Coupon.t)
| ValidateBody (output : Service.ValidateCouponOutput.t).

Record response := mkResponse { code : Z; json : body }.

Definition StatusOK := 200.
Definition StatusCreated := 201.
Definition StatusBadRequest := 400.
Definition StatusUnauthorized := 401.
Definition StatusInternalServerError := 500.

(** A handler writes its response, or panics. *)
Inductive outcome :=
| Wrote (r : response)
| Panicked.

Definition Handler := DB -> outcome * DB.

(** [func (h *Handler) CreateCoupon(c *gin.Context)]; [id] and [fresh] are
    the values of the [uuid.New()] calls below it. *)
Definition CreateCoupon (id fresh : UUID) (bind : bound CreateCouponRequest.t) : Handler :=
  fun db =>
    match bind with
    | BindError msg => (Wrote (mkResponse StatusBadRequest (ErrorResponse msg)), db)
    | Bound req =>
        let input :=
          Service.CreateCouponInput.mk
            (CreateCouponRequest.Code req)
            (CreateCouponRequest.ExpiryDate req)
            (CreateCouponRequest.UsageType req)
            (CreateCouponRequest.DiscountType req)
            (CreateCouponRequest.DiscountValue req)
            (CreateCouponRequest.MinOrderValue req)
            (CreateCouponRequest.MaxUsagePerUser req)
            (CreateCouponRequest.ValidTimeWindow req)
            (CreateCouponRequest.TermsAndConditions req)
            (CreateCouponRequest.ApplicableMedicines req)
            (CreateCouponRequest.ApplicableCategories req) in
        match Service.CreateCoupon id fresh input db with
        | (Err err, db') =>
            (Wrote (mkResponse StatusInternalServerError (ErrorResponse (Error err))), db')
        | (Ok coupon, db') => (Wrote (mkResponse StatusCreated (CouponBody coupon)), db')
        end
    end.

(** [func (h *Handler) GetApplicableCoupons(c *gin.Context)]; [now] is the
    value of [time.Now()] in the repository. *)
Definition GetApplicableCoupons (now : Time)
           (bind : bound GetApplicableCouponsRequest.t) : Handler :=
  fun db =>
    match bind with
    | BindError msg => (Wrote (mkResponse StatusBadRequest (ErrorResponse msg)), db)
    | Bound req =>
        match Service.GetApplicableCoupons now
                (GetApplicableCouponsRequest.CartItems req)
                (GetApplicableCouponsRequest.OrderTotal req) db with
        | (Err err, db') =>
            (Wrote (mkResponse StatusInternalServerError (ErrorResponse (Error err))), db')
        | (Ok coupons, db') => (Wrote (mkResponse StatusOK (ApplicableCoupons coupons)), db')
        end
    end.

(** [func (h *Handler) ValidateCoupon(c *gin.Context)]; [keys] are the keys
    of the context when the handler runs, [now] the value of [time.Now()]. *)
Definition ValidateCoupon (keys : Keys) (now : Time)
           (bind : bound ValidateCouponRequest.t) : Handler :=
  fun db =>
    match bind with
    | BindError msg => (Wrote (mkResponse StatusBadRequest (ErrorResponse msg)), db)
    | Bound req =>
        match keys "user_id" with
        | None =>
            (Wrote (mkResponse StatusUnauthorized (ErrorResponse "user not authenticated")), db)
        | Some (AnyOther _) => (Panicked, db)       (* userID.(uuid.UUID) *)
        | Some (AnyUUID userID) =>
            let input :=
              Service.ValidateCouponInput.mk
                (ValidateCouponRequest.CouponCode req)
                (ValidateCouponRequest.CartItems req)
                (ValidateCouponRequest.OrderTotal req)
                userID
                now in
            match Service.ValidateCoupon input db with
            | (Err err, db') =>
                (Wrote (mkResponse StatusInternalServerError (ErrorResponse (Error err))), db')
            | (Ok result, db') => (Wrote (mkResponse StatusOK (ValidateBody result)), db')
            end
        end
    end.

End Api.

(* ================================================================== *)
(** ** package main: the routes *)

Module Main.
Import Repository.

Inductive endpoint :=
| AdminCreateCoupon       (* admin.POST("/coupons", handler.CreateCoupon) *)
| CouponsApplicable       (* coupons.GET("/applicable", handler.GetApplicableCoupons) *)
| CouponsValidate.        (* coupons.POST("/validate", handler.ValidateCoupon) *)

(** The routes [setupRouter] registers; [None] for a method and path it
    registers no handler for. *)
Definition setupRouter (method path : string) : option endpoint :=
  if String.eqb method "POST" && String.eqb path "/admin/coupons" then Some AdminCreateCoupon
  else if String.eqb method "GET" && String.eqb path "/coupons/applicable"
  then Some CouponsApplicable
  else if String.eqb method "POST" && String.eqb path "/coupons/validate"
  then Some CouponsValidate
  else None.

(** [gin.Recovery()]: a panic of the handler becomes a 500 without body. *)
Definition Recovery (h : Api.Handler) : Api.Handler :=
  fun db =>
    match h db with
    | (Api.Panicked, db') =>
        (Api.Wrote (Api.mkResponse Api.StatusInternalServerError Api.NoBody), db')
    | written => written
    end.

(** What the process hands to a request besides the store: the decoders
    of the three request types applied to the body, and the values the
    calls of [uuid.New()] and [time.Now()] return while it is served. *)
Record runtime := mkRuntime {
  bindCreate : string -> Api.bound Api.CreateCouponRequest.t;
  bindApplicable : string -> Api.bound Api.GetApplicableCouponsRequest.t;
  bindValidate : string -> Api.bound Api.ValidateCouponRequest.t;
  newUUID : UUID;
  hookUUID : UUID;
  now : Time
}.

Record request := mkRequest { method : string; path : string; payload : string }.

(** The context keys a handler finds: the router installs [gin.Default()]
    with [gin.Recovery()] and [gin.Logger()] once more, and none of them
    stores a key. *)
Definition no_keys : Api.Keys := fun _ => None.

(** The router built by [setupRouter] serving one request: [None] when no
    handler of the application runs. *)
Definition serve (rt : runtime) (req : request) : DB -> option Api.outcome * DB :=
  fun db =>
    match setupRouter (method req) (path req) with
    | None => (None, db)
    | Some ep =>
        let h :=
          match ep with
          | AdminCreateCoupon =>
              Api.CreateCoupon (newUUID rt) (hookUUID rt) (bindCreate rt (payload req))
          | CouponsApplicable =>
              Api.GetApplicableCoupons (now rt) (bindApplicable rt (payload req))
          | CouponsValidate =>
              Api.ValidateCoupon no_keys (now rt) (bindValidate rt (payload req))
          end in
        let '(o, db') := Recovery h db in (Some o, db')
    end.

End Main.

(* ================================================================== *)
(** ** Concurrent calls of [RecordCouponUsage]

  The body passed to [db.Transaction] is a sequence of round trips, and
  the server runs the round trips of different connections in any order.
  [Transaction] is called without options, so the transaction runs at the
  server's default isolation level, READ COMMITTED for PostgreSQL: every
  statement reads the rows committed when it runs, and the row a
  transaction inserts becomes visible to the others when it commits.
  The code takes no lock and the table has no unique index on
  [(coupon_id, user_id)].  No round trip fails in this model. *)

Module Interleaving.
Import Repository.

(** Where a call stands: the round trip it sends next, with the local
    variable [coupon] once it is set, or the error it returned. *)
Inductive pc :=
| AtBegin
| AtFirst
| AtCountOneTime (coupon : Coupon.t)
| AtCountMultiUse (coupon : Coupon.t)
| AtCreate
| AtCommit
| Returned (r : result unit).

Record call := mkCall { usage : CouponUsage.t; at_pc : pc }.

Record system := mkSystem {
  coupons : list Coupon.t;
  committed : list CouponUsage.t;
  calls : list call
}.

(** The test [coupon.UsageType == models.MultiUse] and what follows it. *)
Definition from_multi_use_test (coupon : Coupon.t) : pc :=
  if String.eqb (Coupon.UsageType coupon) MultiUse then AtCountMultiUse coupon
  else AtCreate.

(** The test [coupon.UsageType == models.OneTime] and what follows it. *)
Definition from_one_time_test (coupon : Coupon.t) : pc :=
  if String.eqb (Coupon.UsageType coupon) OneTime then AtCountOneTime coupon
  else from_multi_use_test coupon.

Definition count_pair (usage : CouponUsage.t) (rows : list CouponUsage.t) : Z :=
  Z.of_nat (List.length
              (filter (same_pair (CouponUsage.CouponID usage) (CouponUsage.UserID usage)) rows)).

(** One round trip of one call, against the committed rows. *)
Definition step (coupons : list Coupon.t) (rows : list CouponUsage.t) (c : call)
  : call * list CouponUsage.t :=
  let u := usage c in
  match at_pc c with
  | AtBegin => (mkCall u AtFirst, rows)
  | AtFirst =>
      match least_id (filter (fun k => N.eqb (Coupon.ID k) (CouponUsage.CouponID u)
                                       && Coupon.IsActive k) coupons) with
      | Some coupon => (mkCall u (from_one_time_test coupon), rows)
      | None => (mkCall u (Returned (Err ErrRecordNotFound)), rows)
      end
  | AtCountOneTime coupon =>
      if count_pair u rows >? 0 then (mkCall u (Returned (Err AlreadyUsed)), rows)
      else (mkCall u (from_multi_use_test coupon), rows)
  | AtCountMultiUse coupon =>
      if count_pair u rows >=? Coupon.MaxUsagePerUser coupon
      then (mkCall u (Returned (Err LimitExceeded)), rows)
      else (mkCall u AtCreate, rows)
  | AtCreate => (mkCall u AtCommit, rows)
  | AtCommit => (mkCall u (Returned (Ok tt)), rows ++ [u])
  | Returned r => (c, rows)
  end.

(** The call number [i] makes its next round trip. *)
Fixpoint step_nth (coupons : list Coupon.t) (rows : list CouponUsage.t)
         (cs : list call) (i : nat) : list call * list CouponUsage.t :=
  match cs, i with
  | [], _ => ([], rows)
  | c :: rest, O => let '(c', rows') := step coupons rows c in (c' :: rest, rows')
  | c :: rest, S j => let '(rest', rows') := step_nth coupons rows rest j in (c :: rest', rows')
  end.

Definition schedule := list nat.

Fixpoint run (s : schedule) (sys : system) : system :=
  match s with
  | [] => sys
  | i :: s' =>
      let '(cs, rows) := step_nth (coupons sys) (committed sys) (calls sys) i in
      run s' (mkSystem (coupons sys) rows cs)
  end.

Definition start (coupons : list Coupon.t) (rows : list CouponUsage.t)
           (usages : list CouponUsage.t) : system :=
  mkSystem coupons rows (map (fun u => mkCall u AtBegin) usages).

Definition outcomes (sys : system) : list pc := map at_pc (calls sys).

(** The schedule in which call [i] runs alone from BEGIN to COMMIT. *)
Definition alone (i : nat) : schedule := repeat i 5.

(** One round: every call makes one round trip, in the order of the list. *)
Fixpoint step_all (coupons : list Coupon.t) (rows : list CouponUsage.t)
         (cs : list call) : list call * list CouponUsage.t :=
  match cs with
  | [] => ([], rows)
  | c :: rest =>
      let '(c', rows1) := step coupons rows c in
      let '(rest', rows2) := step_all coupons rows1 rest in
      (c' :: rest', rows2)
  end.

(** The schedule of [rounds] rounds of [n] calls. *)
Definition round_robin (n rounds : nat) : schedule :=
  List.concat (repeat (seq 0 n) rounds).

End Interleaving.

(* ================================================================== *)
(** ** Sample data *)

Module Sample.
Import Repository.

Definition painkiller : Category.t := Category.mk 11%N "painkiller".

Definition med_123 : Medicine.t := Medicine.mk 123%N "Paracetamol" "painkiller" 100%float.
Definition med_456 : Medicine.t := Medicine.mk 456%N "Cough syrup" "cold" 80%float.

(** The coupon of the README: multi-use, 20 percent, minimum order 100,
    at most 5 uses per user. *)
Definition SAVE20_input : Service.CreateCouponInput.t :=
  Service.CreateCouponInput.mk "SAVE20" 2000 MultiUse PercentageDiscount
    20%float 100%float 5 None "" [] [].

Definition SAVE20 : Coupon.t :=
  Coupon.mk 1%N "SAVE20" 2000 MultiUse PercentageDiscount 20%float 100%float 5
            None "" true [] [].

Definition ONCE : Coupon.t :=
  Coupon.mk 2%N "ONCE" 2000 OneTime FixedDiscount 50%float 0%float 1
            None "" true [] [].

Definition HAPPYHOUR : Coupon.t :=
  Coupon.mk 3%N "HAPPYHOUR" 2000 TimeBased FixedDiscount 50%float 0%float 1
            (Some (TimeWindow.mk 1000 1500)) "" true [] [painkiller].

Definition empty : DB := mkDB [] [] [].

Definition store : DB := mkDB [SAVE20; ONCE; HAPPYHOUR] [] [].

Definition alice : UUID := 7%N.
Definition bob : UUID := 8%N.

Definition redeem (id coupon user : UUID) : CouponUsage.t :=
  CouponUsage.mk id coupon user (id + 1000)%N 1200 1200.

End Sample.

(* ================================================================== *)
(** ** Vocabulary of the properties *)

Section Vocabulary.
Import Repository Service.

(** Rule 4 of the specification: inside the window when one is set, both
    ends included. *)
Definition within_window (c : Coupon.t) (now : Time) : Prop :=
  forall w, Coupon.ValidTimeWindow c = Some w ->
            TimeWindow.StartTime w <= now <= TimeWindow.EndTime w.

(** The four rules as the specification words them, rule 3 being
    [orderTotal >= MinOrderValue]. *)
Definition valid_as_specified (c : Coupon.t) (orderTotal : float) (now : Time) : Prop :=
  Coupon.IsActive c = true
  /\ now <= Coupon.ExpiryDate c
  /\ (Coupon.MinOrderValue c <=? orderTotal)%float = true
  /\ within_window c now.

(** The four rules as the code tests them, rule 3 being the failure of
    [orderTotal < MinOrderValue]. *)
Definition valid_as_tested (c : Coupon.t) (orderTotal : float) (now : Time) : Prop :=
  Coupon.IsActive c = true
  /\ now <= Coupon.ExpiryDate c
  /\ (orderTotal <? Coupon.MinOrderValue c)%float = false
  /\ within_window c now.

(** A coupon without restriction: both lists are empty. *)
Definition unrestricted (coupon : Coupon.t) : Prop :=
  Coupon.ApplicableMedicines coupon = [] /\ Coupon.ApplicableCategories coupon = [].

(** Some cart item is an eligible medicine or falls in an eligible
    category. *)
Definition some_item_matches (coupon : Coupon.t) (cartItems : list Medicine.t) : Prop :=
  exists item, In item cartItems
    /\ ((exists medicine, In medicine (Coupon.ApplicableMedicines coupon)
                          /\ Medicine.ID item = Medicine.ID medicine)
        \/ (exists category, In category (Coupon.ApplicableCategories coupon)
                             /\ Medicine.Category item = Category.Name category)).

(** No round trip of the coming ones fails. *)
Definition healthy (db : DB) : Prop := faults db = [].

(** Two stores hold the same rows. *)
Definition same_tables (a b : DB) : Prop :=
  coupons a = coupons b /\ coupon_usages a = coupon_usages b.

(** A computation that leaves the rows as they are, whatever it returns. *)
Definition read_only {A} (m : M A) : Prop :=
  forall db, same_tables (snd (m db)) db.

(** The active coupon a redemption looks up by identifier. *)
Definition active_by_id (db : DB) (id : UUID) : option Coupon.t :=
  least_id (filter (fun c => N.eqb (Coupon.ID c) id && Coupon.IsActive c) (coupons db)).

(** The active coupon a validation looks up by code. *)
Definition active_by_code (db : DB) (code : string) : option Coupon.t :=
  least_id (filter (fun c => String.eqb (Coupon.Code c) code && Coupon.IsActive c)
                   (coupons db)).

(** The number of usage records of a (coupon, user) pair. *)
Definition usage_count (db : DB) (couponID userID : UUID) : Z :=
  Z.of_nat (List.length (filter (same_pair couponID userID) (coupon_usages db))).

(** A driver error comes out of the script. *)
Definition scripted (db : DB) (e : error) : Prop :=
  exists msg, e = ErrDriver msg /\ In (Some msg) (faults db).

(** A computation that either returns nil and has added the row [usage]
    and nothing else, or returns an error and has left the rows alone. *)
Definition appends (usage : CouponUsage.t) (m : M unit) : Prop :=
  forall db,
    match m db with
    | (Ok _, db') =>
        coupons db' = coupons db /\ coupon_usages db' = coupon_usages db ++ [usage]
    | (Err _, db') => same_tables db' db
    end.

(** The store after a successful redemption. *)
Definition recorded (db : DB) (usage : CouponUsage.t) : DB :=
  mkDB (coupons db) (coupon_usages db ++ [usage]) (faults db).

Definition accepted (discount : float) : ValidateCouponOutput.t :=
  ValidateCouponOutput.mk true discount 0%float "coupon applied successfully".

(** The messages of the declined outcomes. *)
Definition not_found := declined "coupon not found".
Definition invalid := declined "coupon is not valid for this order".
Definition inapplicable := declined "coupon is not applicable to any items in cart".
Definition already_used := declined "one-time coupon already used".
Definition limit_exceeded := declined "coupon usage limit exceeded".

(** A computation whose errors are errors of the driver. *)
Definition driver_errors_only {A} (m : M A) : Prop :=
  forall db,
    match m db with
    | (Ok _, db') => exists skipped, faults db = skipped ++ faults db'
    | (Err e, _) => scripted db e
    end.

(** The store without its inactive coupons. *)
Definition without_inactive (db : DB) : DB :=
  mkDB (filter Coupon.IsActive (coupons db)) (coupon_usages db) (faults db).

(** A computation that cannot tell a store from the same store without
    its inactive coupons. *)
Definition blind_to_inactive {A} (m : M A) : Prop :=
  forall db,
    fst (m (without_inactive db)) = fst (m db)
    /\ snd (m (without_inactive db)) = without_inactive (snd (m db)).

(** Validate, redeem, validate twice more: the README's coupon on a fresh
    store. *)
Definition SAVE20_scenario :=
  let '(_, db1) := CreateCoupon 1%N 99%N Sample.SAVE20_input Sample.empty in
  let order := ValidateCouponInput.mk "SAVE20" [Sample.med_123] 700 Sample.alice 1200 in
  let '(v1, db2) := ValidateCoupon order db1 in
  let '(r, db3) := RecordCouponUsage 500%N 1200 1200 1%N Sample.alice 900%N db2 in
  let '(v2, db4) := ValidateCoupon order db3 in
  let '(v3, db5) := ValidateCoupon order db4 in
  (v1, r, v2, v3, usage_count db5 1%N Sample.alice).

(** Redemptions made one after the other. *)
Fixpoint redeem_each (usages : list CouponUsage.t) (db : DB)
  : list (result unit) * DB :=
  match usages with
  | [] => ([], db)
  | usage :: rest =>
      let '(r, db1) := Repository.RecordCouponUsage usage db in
      let '(rs, db2) := redeem_each rest db1 in
      (r :: rs, db2)
  end.

(** Three redemptions of a time-based coupon whose [MaxUsagePerUser] is 1,
    by one user, on a store where that user has already redeemed it. *)
Definition busy_store : DB :=
  mkDB [Sample.SAVE20; Sample.ONCE; Sample.HAPPYHOUR]
       [Sample.redeem 40%N 3%N Sample.alice] [].

Definition three_more : list CouponUsage.t :=
  [Sample.redeem 41%N 3%N Sample.alice; Sample.redeem 42%N 3%N Sample.alice;
   Sample.redeem 43%N 3%N Sample.alice].

(** The rows the query of [GetApplicableCoupons] selects. *)
Definition candidate (now : Time) (orderTotal : float) (c : Coupon.t) : bool :=
  Coupon.IsActive c && (now <? Coupon.ExpiryDate c)
  && float8_le (Coupon.MinOrderValue c) orderTotal.

(** Two redemptions of the one-time coupon [ONCE] by the same user, for
    two orders, on a ledger without a record of the pair. *)
Definition first_attempt : CouponUsage.t := Sample.redeem 41%N 2%N Sample.alice.
Definition second_attempt : CouponUsage.t := Sample.redeem 42%N 2%N Sample.alice.

Definition two_attempts : Interleaving.system :=
  Interleaving.start [Sample.ONCE] [] [first_attempt; second_attempt].

(** The two calls take turns, one round trip each. *)
Definition turn_by_turn : Interleaving.schedule := [0; 1; 0; 1; 0; 1; 0; 1; 0; 1]%nat.

End Vocabulary.

(* ================================================================== *)
(** ** Vocabulary of the further properties *)

Section FurtherVocabulary.
Import Repository Service.

(** The store with the same rows and a script without failure. *)
Definition healed (db : DB) : DB := with_faults db [].

(** A computation whose answers do not depend on the script: when it
    returns a value, it returns the same value, with the same rows, on the
    healed store. *)
Definition fault_insensitive {A} (m : M A) : Prop :=
  forall db a db', m db = (Ok a, db') -> m (healed db) = (Ok a, healed db').

(** The primary key of the coupons table. *)
Definition unique_ids (db : DB) : Prop := NoDup (map Coupon.ID (coupons db)).

(** The most records a (coupon, user) pair may reach by redemptions made
    one after the other; [None] when there is no bound. *)
Definition usage_bound (c : Coupon.t) : option Z :=
  if String.eqb (Coupon.UsageType c) OneTime then Some 1
  else if String.eqb (Coupon.UsageType c) MultiUse
  then Some (Z.max 0 (Coupon.MaxUsagePerUser c))
  else None.

(** Every pair of the ledger is within the bound of its coupon. *)
Definition within_limits (db : DB) : Prop :=
  forall c userID bound,
    In c (coupons db) -> usage_bound c = Some bound ->
    usage_count db (Coupon.ID c) userID <= bound.

(** The rows of a table that match a code and are active. *)
Definition matches_code (code : string) (c : Coupon.t) : bool :=
  String.eqb (Coupon.Code c) code && Coupon.IsActive c.

(** The input of a validation made of a request, as the handler builds it. *)
Definition validation_of (req : Api.ValidateCouponRequest.t) (userID : UUID) (now : Time)
  : ValidateCouponInput.t :=
  ValidateCouponInput.mk
    (Api.ValidateCouponRequest.CouponCode req)
    (Api.ValidateCouponRequest.CartItems req)
    (Api.ValidateCouponRequest.OrderTotal req)
    userID now.

(** [m] stores [c]: when it returns, it returns [c], the coupons table
    has gained the row made of [c] and the ledger is as it was; when it
    fails, it fails with an error of the driver and the tables are as they
    were. *)
Definition stores (c : Coupon.t) (m : M Coupon.t) : Prop :=
  forall db,
    match m db with
    | (Ok c', db') =>
        c' = c
        /\ coupons db' = coupons db ++ [Repository.stored_row (coupons db) c]
        /\ coupon_usages db' = coupon_usages db
    | (Err e, db') => same_tables db' db /\ scripted db e
    end.

(** A creation on a store that holds a medicine under the identifier the
    request uses for another one, with an expiry date between two
    microseconds. *)
Definition relabelled_input : CreateCouponInput.t :=
  CreateCouponInput.mk "FLU10" 2500 MultiUse PercentageDiscount 10%float 0%float 3
    None "" [Medicine.mk 123%N "Aspirin" "painkiller" 4%float] [].

Definition pharmacy : DB :=
  mkDB [Coupon.mk 5%N "PARA5" 9000 MultiUse FixedDiscount 5%float 0%float 2 None "" true
          [Medicine.mk 123%N "Paracetamol" "fever" 2%float] []] [] [].

End FurtherVocabulary.

(* ================================================================== *)
(** * Properties *)

(** ** Facts on binary64 comparisons *)

Section FloatOrder.

Lemma is_nan_Prim2SF (x : float) :
  is_nan x = false -> Prim2SF x <> S754_nan.
Proof.
  unfold is_nan. rewrite eqb_spec. intros H E. rewrite E in H. discriminate H.
Qed.

(** Away from NaN, [x < y] is the negation of [y <= x]. *)
Lemma ltb_negb_leb (x y : float) :
  is_nan x = false -> is_nan y = false ->
  (x <? y)%float = negb (y <=? x)%float.
Proof.
  intros Hx Hy. apply is_nan_Prim2SF in Hx. apply is_nan_Prim2SF in Hy.
  rewrite ltb_spec, leb_spec. unfold SFltb, SFleb, SFcompare.
  destruct (Prim2SF x) as [sx|sx| |sx mx ex]; try congruence;
    destruct (Prim2SF y) as [sy|sy| |sy my ey]; try congruence;
    try (destruct sx; try destruct sy; reflexivity);
    try (destruct sy; reflexivity).
  destruct sx, sy; try reflexivity;
    rewrite (Z.compare_antisym ex ey); destruct (ex ?= ey); simpl; try reflexivity;
    change (PosDef.Pos.compare_cont Eq my mx) with (Pos.compare my mx);
    change (PosDef.Pos.compare_cont Eq mx my) with (Pos.compare mx my);
    rewrite (Pos.compare_antisym mx my); destruct (mx ?= my)%positive; reflexivity.
Qed.

(** A NaN is below nothing. *)
Lemma ltb_nan_l (x y : float) : is_nan x = true -> (x <? y)%float = false.
Proof.
  unfold is_nan. rewrite eqb_spec, ltb_spec. unfold SFeqb, SFltb, SFcompare.
  destruct (Prim2SF x) as [sx|sx| |sx mx ex]; try reflexivity.
  - destruct sx; discriminate.
  - destruct sx; discriminate.
  - destruct sx; rewrite Z.compare_refl, Pos.compare_refl; discriminate.
Qed.

End FloatOrder.

(** ** The validity predicate *)

Section Validity.

Lemma IsValid_tested (c : Coupon.t) (orderTotal : float) (now : Time) :
  Coupon.IsValid c orderTotal now = true <-> valid_as_tested c orderTotal now.
Proof.
  unfold Coupon.IsValid, valid_as_tested, within_window, After, Before.
  destruct (Coupon.IsActive c); simpl.
  2: { split; [discriminate | intros [H _]; discriminate H]. }
  destruct (Z.ltb_spec (Coupon.ExpiryDate c) now) as [He|He].
  { split; [discriminate | intros (_ & H & _); lia]. }
  destruct (orderTotal <? Coupon.MinOrderValue c)%float.
  { split; [discriminate | intros (_ & _ & H & _); discriminate H]. }
  destruct (Coupon.ValidTimeWindow c) as [w|].
  - destruct (Z.ltb_spec now (TimeWindow.StartTime w)) as [Hs|Hs]; simpl.
    { split; [discriminate | intros (_ & _ & _ & H)]. specialize (H w eq_refl). lia. }
    destruct (Z.ltb_spec (TimeWindow.EndTime w) now) as [Hn|Hn].
    { split; [discriminate | intros (_ & _ & _ & H)]. specialize (H w eq_refl). lia. }
    split; [intros _ | reflexivity].
    split; [reflexivity | split; [assumption | split; [reflexivity |]]].
    intros w' E; injection E as <-; lia.
  - split; [intros _ | reflexivity].
    split; [reflexivity | split; [assumption | split; [reflexivity |]]].
    intros w' E; discriminate E.
Qed.

Lemma tested_specified (c : Coupon.t) (orderTotal : float) (now : Time) :
  is_nan orderTotal = false -> is_nan (Coupon.MinOrderValue c) = false ->
  (valid_as_tested c orderTotal now <-> valid_as_specified c orderTotal now).
Proof.
  intros Ht Hm. unfold valid_as_tested, valid_as_specified.
  rewrite (ltb_negb_leb _ _ Ht Hm).
  destruct (Coupon.MinOrderValue c <=? orderTotal)%float; simpl; intuition congruence.
Qed.

(** C3, with rule 3 as the code tests it: [IsValid] returns true exactly
    when the coupon is active, [now] is not after the expiry date (the
    expiry instant itself is still valid), [orderTotal < MinOrderValue]
    does not hold, and [now] lies in the time window when one is set, both
    ends included.  When
    neither amount is NaN the third condition is
    [orderTotal >= MinOrderValue], and the predicate is the one of the
    specification; a NaN order total passes the third condition.  An
    inactive coupon is never valid.  The result is a function of the
    coupon, the order total and the time alone. *)
Theorem IsValid_characterised (c : Coupon.t) (orderTotal : float) (now : Time) :
  (Coupon.IsValid c orderTotal now = true <-> valid_as_tested c orderTotal now)
  /\ (is_nan orderTotal = false -> is_nan (Coupon.MinOrderValue c) = false ->
      (Coupon.IsValid c orderTotal now = true <-> valid_as_specified c orderTotal now))
  /\ (Coupon.IsValid c orderTotal (Coupon.ExpiryDate c) = true
      <-> Coupon.IsActive c = true
          /\ (orderTotal <? Coupon.MinOrderValue c)%float = false
          /\ within_window c (Coupon.ExpiryDate c))
  /\ (is_nan orderTotal = true ->
      (Coupon.IsValid c orderTotal now = true
       <-> Coupon.IsActive c = true /\ now <= Coupon.ExpiryDate c /\ within_window c now))
  /\ (Coupon.IsActive c = false ->
      forall orderTotal' now', Coupon.IsValid c orderTotal' now' = false).
Proof.
  split; [apply IsValid_tested |].
  split.
  { intros Ht Hm. rewrite IsValid_tested. apply tested_specified; assumption. }
  split.
  { rewrite IsValid_tested. unfold valid_as_tested.
    pose proof (Z.le_refl (Coupon.ExpiryDate c)). tauto. }
  split.
  { intros Hn. rewrite IsValid_tested. unfold valid_as_tested.
    rewrite (ltb_nan_l _ _ Hn). tauto. }
  intros Hi t' n'. unfold Coupon.IsValid. rewrite Hi. reflexivity.
Qed.

(** C3, as stated, fails on a NaN order total: the test
    [orderTotal < MinOrderValue] is false there, so the coupon is valid,
    while [orderTotal >= MinOrderValue] is false as well. *)
Lemma IsValid_nan_order_total :
  Coupon.IsValid Sample.ONCE nan 1200 = true
  /\ ~ valid_as_specified Sample.ONCE nan 1200.
Proof.
  split; [reflexivity |].
  intros (_ & _ & H & _). vm_compute in H. discriminate H.
Qed.

(** At the expiry instant, and at both ends of the window, a coupon is
    valid; one nanosecond later it is not. *)
Example IsValid_boundaries :
  Coupon.IsValid Sample.ONCE 10%float 2000 = true
  /\ Coupon.IsValid Sample.ONCE 10%float 2001 = false
  /\ Coupon.IsValid Sample.HAPPYHOUR 10%float 1000 = true
  /\ Coupon.IsValid Sample.HAPPYHOUR 10%float 1500 = true
  /\ Coupon.IsValid Sample.HAPPYHOUR 10%float 999 = false
  /\ Coupon.IsValid Sample.HAPPYHOUR 10%float 1501 = false
  /\ Coupon.IsValid Sample.SAVE20 100%float 1200 = true
  /\ Coupon.IsValid Sample.SAVE20 99.5%float 1200 = false.
Proof. repeat split; reflexivity. Qed.

End Validity.

(** ** The discount *)

Section Discount.

(** C5: a percentage coupon yields [orderTotal * (DiscountValue / 100)]
    in binary64 arithmetic, a fixed coupon yields [DiscountValue] whatever
    the order total (also when it exceeds the total); 20 percent of 700 is
    140 and a fixed 50 on 700 is 50. *)
Theorem CalculateDiscount_by_type (c : Coupon.t) (orderTotal : float) :
  (Coupon.DiscountType c = PercentageDiscount ->
   Coupon.CalculateDiscount c orderTotal
   = (orderTotal * (Coupon.DiscountValue c / 100))%float)
  /\ (Coupon.DiscountType c = FixedDiscount ->
      Coupon.CalculateDiscount c orderTotal = Coupon.DiscountValue c)
  /\ (Coupon.DiscountType c = PercentageDiscount -> Coupon.DiscountValue c = 20%float ->
      Coupon.CalculateDiscount c 700 = 140%float)
  /\ (Coupon.DiscountType c = FixedDiscount -> Coupon.DiscountValue c = 50%float ->
      Coupon.CalculateDiscount c 700 = 50%float
      /\ Coupon.CalculateDiscount c 30 = 50%float).
Proof.
  unfold Coupon.CalculateDiscount.
  split; [| split; [| split]].
  - intros ->. reflexivity.
  - intros ->. reflexivity.
  - intros -> ->. vm_compute. reflexivity.
  - intros -> ->. split; reflexivity.
Qed.

Example CalculateDiscount_samples :
  Coupon.CalculateDiscount Sample.SAVE20 700 = 140%float
  /\ Coupon.CalculateDiscount Sample.ONCE 700 = 50%float
  /\ Coupon.CalculateDiscount Sample.ONCE 30 = 50%float.
Proof. repeat split; vm_compute; reflexivity. Qed.

End Discount.

(** ** The applicability matcher *)

Section Matcher.

(** The repository and the service carry the same matcher. *)
Lemma isApplicableToCoupon_copies (coupon : Coupon.t) (cartItems : list Medicine.t) :
  Repository.isApplicableToCoupon coupon cartItems
  = Service.isApplicableToCoupon coupon cartItems.
Proof. reflexivity. Qed.

Lemma unrestricted_applicable (coupon : Coupon.t) (cartItems : list Medicine.t) :
  unrestricted coupon -> Service.isApplicableToCoupon coupon cartItems = true.
Proof.
  intros [Hm Hc]. unfold Service.isApplicableToCoupon. rewrite Hm, Hc. reflexivity.
Qed.

Lemma restricted_scan (coupon : Coupon.t) (cartItems : list Medicine.t) :
  ~ unrestricted coupon ->
  Service.isApplicableToCoupon coupon cartItems
  = existsb
      (fun item =>
         existsb (fun medicine => N.eqb (Medicine.ID item) (Medicine.ID medicine))
                 (Coupon.ApplicableMedicines coupon)
         || existsb (fun category => String.eqb (Medicine.Category item) (Category.Name category))
                    (Coupon.ApplicableCategories coupon))
      cartItems.
Proof.
  intros Hr. unfold Service.isApplicableToCoupon, unrestricted in *.
  destruct (Coupon.ApplicableMedicines coupon) as [|m ms]; [| reflexivity].
  destruct (Coupon.ApplicableCategories coupon) as [|k ks]; [| reflexivity].
  exfalso. apply Hr. split; reflexivity.
Qed.

Lemma restricted_applicable_iff (coupon : Coupon.t) (cartItems : list Medicine.t) :
  ~ unrestricted coupon ->
  (Service.isApplicableToCoupon coupon cartItems = true
   <-> some_item_matches coupon cartItems).
Proof.
  intros Hr. rewrite (restricted_scan _ _ Hr). unfold some_item_matches.
  rewrite existsb_exists. split.
  - intros (item & Hin & H). exists item. split; [exact Hin |].
    apply orb_true_iff in H. destruct H as [H|H]; apply existsb_exists in H.
    + left. destruct H as (m & Hm & E). exists m. split; [exact Hm |].
      apply N.eqb_eq. exact E.
    + right. destruct H as (k & Hk & E). exists k. split; [exact Hk |].
      apply String.eqb_eq. exact E.
  - intros (item & Hin & H). exists item. split; [exact Hin |].
    apply orb_true_iff. destruct H as [(m & Hm & E)|(k & Hk & E)].
    + left. apply existsb_exists. exists m. split; [exact Hm |].
      apply N.eqb_eq. exact E.
    + right. apply existsb_exists. exists k. split; [exact Hk |].
      apply String.eqb_eq. exact E.
Qed.

(** C4: the matcher accepts every cart when the coupon has neither
    eligible medicines nor eligible categories; otherwise it accepts a cart
    exactly when one of its items has the identifier of an eligible
    medicine or the category name of an eligible category, names being
    compared as they are: another case or a surrounding blank is another
    name. *)
Theorem isApplicableToCoupon_characterised (coupon : Coupon.t) (cartItems : list Medicine.t) :
  (unrestricted coupon -> Service.isApplicableToCoupon coupon cartItems = true)
  /\ (~ unrestricted coupon ->
      (Service.isApplicableToCoupon coupon cartItems = true
       <-> some_item_matches coupon cartItems))
  /\ Service.isApplicableToCoupon Sample.HAPPYHOUR
       [Medicine.mk 1%N "a" "painkiller" 1%float] = true
  /\ Service.isApplicableToCoupon Sample.HAPPYHOUR
       [Medicine.mk 1%N "a" "Painkiller" 1%float;
        Medicine.mk 2%N "b" "painkiller " 1%float;
        Medicine.mk 3%N "c" " painkiller" 1%float] = false.
Proof.
  split; [apply unrestricted_applicable |].
  split; [apply restricted_applicable_iff |].
  split; reflexivity.
Qed.

(** C10: an unrestricted coupon is applicable to the empty cart too, and
    a restricted coupon is never applicable to the empty cart; so for both
    copies of the matcher. *)
Theorem isApplicableToCoupon_empty_cart (coupon : Coupon.t) :
  (unrestricted coupon ->
   Service.isApplicableToCoupon coupon [] = true
   /\ Repository.isApplicableToCoupon coupon [] = true)
  /\ (~ unrestricted coupon ->
      Service.isApplicableToCoupon coupon [] = false
      /\ Repository.isApplicableToCoupon coupon [] = false).
Proof.
  split; intros H.
  - split; [| rewrite isApplicableToCoupon_copies];
      apply unrestricted_applicable; exact H.
  - split; [| rewrite isApplicableToCoupon_copies];
      rewrite (restricted_scan _ _ H); reflexivity.
Qed.

Example isApplicableToCoupon_samples :
  Service.isApplicableToCoupon Sample.SAVE20 [] = true
  /\ Service.isApplicableToCoupon Sample.HAPPYHOUR [] = false
  /\ Service.isApplicableToCoupon Sample.HAPPYHOUR [Sample.med_456; Sample.med_123] = true
  /\ Service.isApplicableToCoupon Sample.HAPPYHOUR [Sample.med_456] = false.
Proof. repeat split; reflexivity. Qed.

End Matcher.

(** ** Reading and writing the store *)

Section Store.
Import Repository.

Lemma same_tables_refl (db : DB) : same_tables db db.
Proof. split; reflexivity. Qed.

Lemma same_tables_trans (a b c : DB) :
  same_tables a b -> same_tables b c -> same_tables a c.
Proof. intros [H1 H2] [H3 H4]. split; congruence. Qed.

Lemma read_only_ret {A} (a : A) : read_only (ret a).
Proof. intros db. apply same_tables_refl. Qed.

Lemma read_only_fail {A} (e : error) : read_only (@fail A e).
Proof. intros db. apply same_tables_refl. Qed.

Lemma read_only_roundtrip : read_only roundtrip.
Proof.
  intros [cs us fs]. unfold roundtrip. simpl.
  destruct fs as [|[msg|] rest]; split; reflexivity.
Qed.

Lemma read_only_bind {A B} (m : M A) (k : A -> M B) :
  read_only m -> (forall a, read_only (k a)) -> read_only (bind m k).
Proof.
  intros Hm Hk db. unfold bind. specialize (Hm db).
  destruct (m db) as [[a|e] db1]; simpl in *.
  - eapply same_tables_trans; [apply Hk | exact Hm].
  - exact Hm.
Qed.

Lemma read_only_First (cond : Coupon.t -> bool) : read_only (First cond).
Proof.
  apply read_only_bind; [apply read_only_roundtrip |].
  intros _ db. destruct (least_id _); apply same_tables_refl.
Qed.

Lemma read_only_Find (cond : Coupon.t -> bool) : read_only (Find cond).
Proof.
  apply read_only_bind; [apply read_only_roundtrip |].
  intros _ db. apply same_tables_refl.
Qed.

Lemma read_only_Count (cond : CouponUsage.t -> bool) : read_only (Count cond).
Proof.
  apply read_only_bind; [apply read_only_roundtrip |].
  intros _ db. apply same_tables_refl.
Qed.

Lemma read_only_Preload (related : nat) : read_only (Preload related).
Proof.
  apply read_only_bind; [apply read_only_roundtrip | intros _].
  destruct (related =? 0)%nat; [apply read_only_ret | apply read_only_roundtrip].
Qed.

Lemma read_only_Preloads (rows : list Coupon.t) : read_only (Preloads rows).
Proof.
  destruct rows as [|r rows]; [apply read_only_ret |].
  apply read_only_bind; [apply read_only_Preload | intros _; apply read_only_Preload].
Qed.

Lemma read_only_FirstPreloaded (cond : Coupon.t -> bool) : read_only (FirstPreloaded cond).
Proof.
  apply read_only_bind; [apply read_only_First | intros coupon].
  apply read_only_bind; [apply read_only_Preloads | intros _; apply read_only_ret].
Qed.

Lemma read_only_FindPreloaded (cond : Coupon.t -> bool) : read_only (FindPreloaded cond).
Proof.
  apply read_only_bind; [apply read_only_Find | intros rows].
  apply read_only_bind; [apply read_only_Preloads | intros _; apply read_only_ret].
Qed.

Lemma read_only_GetByCode (code : string) : read_only (GetByCode code).
Proof.
  intros db. unfold GetByCode.
  pose proof (read_only_FirstPreloaded
                (fun c => String.eqb (Coupon.Code c) code && Coupon.IsActive c) db) as H.
  destruct (FirstPreloaded _ db) as [[c|[]] db1]; exact H.
Qed.

(** On a healthy store a round trip succeeds and leaves the store as it is. *)
Lemma roundtrip_healthy (db : DB) : healthy db -> roundtrip db = (Ok tt, db).
Proof. unfold healthy, roundtrip. intros ->. reflexivity. Qed.

Lemma First_healthy (cond : Coupon.t -> bool) (db : DB) :
  healthy db ->
  First cond db = match least_id (filter cond (coupons db)) with
                  | Some c => (Ok c, db)
                  | None => (Err ErrRecordNotFound, db)
                  end.
Proof. intros H. unfold First, bind. rewrite (roundtrip_healthy _ H). reflexivity. Qed.

Lemma Count_healthy (cond : CouponUsage.t -> bool) (db : DB) :
  healthy db ->
  Count cond db = (Ok (Z.of_nat (List.length (filter cond (coupon_usages db)))), db).
Proof. intros H. unfold Count, bind. rewrite (roundtrip_healthy _ H). reflexivity. Qed.

Lemma Find_healthy (cond : Coupon.t -> bool) (db : DB) :
  healthy db -> Find cond db = (Ok (filter cond (coupons db)), db).
Proof. intros H. unfold Find, bind. rewrite (roundtrip_healthy _ H). reflexivity. Qed.

Lemma Preload_healthy (related : nat) (db : DB) :
  healthy db -> Preload related db = (Ok tt, db).
Proof.
  intros H. unfold Preload, bind. rewrite (roundtrip_healthy _ H).
  destruct (related =? 0)%nat; [reflexivity | apply roundtrip_healthy; exact H].
Qed.

Lemma Preloads_healthy (rows : list Coupon.t) (db : DB) :
  healthy db -> Preloads rows db = (Ok tt, db).
Proof.
  intros H. destruct rows as [|r rows]; [reflexivity |].
  unfold Preloads, bind. rewrite (Preload_healthy _ _ H). apply Preload_healthy. exact H.
Qed.

Lemma FirstPreloaded_healthy (cond : Coupon.t -> bool) (db : DB) :
  healthy db ->
  FirstPreloaded cond db = match least_id (filter cond (coupons db)) with
                           | Some c => (Ok c, db)
                           | None => (Err ErrRecordNotFound, db)
                           end.
Proof.
  intros H. unfold FirstPreloaded, bind. rewrite (First_healthy _ _ H).
  destruct (least_id _) as [c|]; [| reflexivity].
  rewrite (Preloads_healthy _ _ H). reflexivity.
Qed.

Lemma FindPreloaded_healthy (cond : Coupon.t -> bool) (db : DB) :
  healthy db -> FindPreloaded cond db = (Ok (filter cond (coupons db)), db).
Proof.
  intros H. unfold FindPreloaded, bind. rewrite (Find_healthy _ _ H).
  rewrite (Preloads_healthy _ _ H). reflexivity.
Qed.

Lemma GetByCode_healthy (code : string) (db : DB) :
  healthy db -> GetByCode code db = (Ok (active_by_code db code), db).
Proof.
  intros H. unfold GetByCode. rewrite (FirstPreloaded_healthy _ _ H). unfold active_by_code.
  destruct (least_id _); reflexivity.
Qed.

Lemma roundtrip_script (db : DB) :
  match roundtrip db with
  | (Ok _, db') => exists skipped, faults db = skipped ++ faults db'
  | (Err e, db') => scripted db e
  end.
Proof.
  destruct db as [cs us fs]. unfold roundtrip, scripted. simpl.
  destruct fs as [|[msg|] rest]; simpl.
  - exists []. reflexivity.
  - exists msg. split; [reflexivity | left; reflexivity].
  - exists [None]. reflexivity.
Qed.

Lemma scripted_later (db db' : DB) (skipped : list (option string)) (e : error) :
  faults db = skipped ++ faults db' -> scripted db' e -> scripted db e.
Proof.
  intros E (msg & -> & Hin). exists msg. split; [reflexivity |].
  rewrite E. apply in_or_app. right. exact Hin.
Qed.

End Store.

(** ** The usage ledger: [RecordCouponUsage] *)

Section Ledger.
Import Repository.

Lemma appends_CreateUsage (usage : CouponUsage.t) : appends usage (CreateUsage usage).
Proof.
  intros [cs us fs]. unfold CreateUsage, bind, roundtrip. simpl.
  destruct fs as [|[msg|] rest]; simpl; split; reflexivity.
Qed.

Lemma appends_bind {A} (usage : CouponUsage.t) (m : M A) (k : A -> M unit) :
  read_only m -> (forall a, appends usage (k a)) -> appends usage (bind m k).
Proof.
  intros Hm Hk db. unfold bind. specialize (Hm db).
  destruct (m db) as [[a|e] db1]; simpl in Hm; [| exact Hm].
  specialize (Hk a db1). destruct Hm as [Hc Hu].
  destruct (k a db1) as [[[]|e] db2].
  - rewrite <- Hc, <- Hu. exact Hk.
  - eapply same_tables_trans; [exact Hk | split; assumption].
Qed.

Lemma appends_Transaction (usage : CouponUsage.t) (fc : M unit) :
  appends usage fc -> appends usage (Transaction fc).
Proof.
  intros Hfc db. unfold Transaction.
  pose proof (read_only_roundtrip db) as Hb.
  destruct (roundtrip db) as [[[]|e] db1]; simpl in Hb; [| exact Hb].
  specialize (Hfc db1).
  destruct (fc db1) as [[[]|e] db2].
  - pose proof (read_only_roundtrip db2) as Hc.
    destruct (roundtrip db2) as [[[]|e] db3]; simpl in Hc.
    + destruct Hb as [Hb1 Hb2], Hc as [Hc1 Hc2], Hfc as [Hf1 Hf2].
      split; congruence.
    + unfold with_tables. simpl. exact Hb.
  - unfold with_tables. simpl. exact Hb.
Qed.

(** Whatever the script, a failed redemption leaves the ledger as it was
    and a successful one adds its record and nothing else. *)
Lemma RecordCouponUsage_appends (usage : CouponUsage.t) :
  appends usage (RecordCouponUsage usage).
Proof.
  unfold RecordCouponUsage. apply appends_Transaction.
  apply appends_bind; [apply read_only_First | intros coupon].
  apply appends_bind.
  { destruct (String.eqb _ OneTime); [| apply read_only_ret].
    apply read_only_bind; [apply read_only_Count | intros count].
    destruct (count >? 0); [apply read_only_fail | apply read_only_ret]. }
  intros _. apply appends_bind.
  { destruct (String.eqb _ MultiUse); [| apply read_only_ret].
    apply read_only_bind; [apply read_only_Count | intros count].
    destruct (count >=? _); [apply read_only_fail | apply read_only_ret]. }
  intros _. apply appends_CreateUsage.
Qed.

(** The decision of a redemption on a healthy store. *)
Lemma RecordCouponUsage_healthy (usage : CouponUsage.t) (db : DB) :
  healthy db ->
  RecordCouponUsage usage db =
  match active_by_id db (CouponUsage.CouponID usage) with
  | None => (Err ErrRecordNotFound, db)
  | Some coupon =>
      let n := usage_count db (CouponUsage.CouponID usage) (CouponUsage.UserID usage) in
      if String.eqb (Coupon.UsageType coupon) OneTime && (n >? 0)
      then (Err AlreadyUsed, db)
      else if String.eqb (Coupon.UsageType coupon) MultiUse
              && (n >=? Coupon.MaxUsagePerUser coupon)
      then (Err LimitExceeded, db)
      else (Ok tt, recorded db usage)
  end.
Proof.
  destruct db as [cs us fs]. unfold healthy. simpl. intros ->.
  unfold RecordCouponUsage, Transaction, active_by_id, usage_count, recorded.
  unfold bind, First, Count, CreateUsage, bind, roundtrip, with_tables, ret, fail. simpl.
  destruct (least_id _) as [coupon|]; [| reflexivity].
  destruct (String.eqb (Coupon.UsageType coupon) OneTime); simpl.
  - destruct (_ >? 0); simpl; [reflexivity |].
    destruct (String.eqb (Coupon.UsageType coupon) MultiUse); simpl; [| reflexivity].
    destruct (_ >=? _); reflexivity.
  - destruct (String.eqb (Coupon.UsageType coupon) MultiUse); simpl; [| reflexivity].
    destruct (_ >=? _); reflexivity.
Qed.

Lemma one_time_not_multi_use (coupon : Coupon.t) :
  Coupon.UsageType coupon = OneTime ->
  String.eqb (Coupon.UsageType coupon) MultiUse = false.
Proof. intros ->. reflexivity. Qed.

Lemma multi_use_not_one_time (coupon : Coupon.t) :
  Coupon.UsageType coupon = MultiUse ->
  String.eqb (Coupon.UsageType coupon) OneTime = false.
Proof. intros ->. reflexivity. Qed.

Lemma inactive_not_found (db : DB) (id : UUID) :
  (forall c, In c (coupons db) -> Coupon.ID c = id -> Coupon.IsActive c = false) ->
  active_by_id db id = None.
Proof.
  intros H. unfold active_by_id.
  replace (filter _ (coupons db)) with (@nil Coupon.t); [reflexivity |].
  symmetry. induction (coupons db) as [|c cs IH]; [reflexivity |]. simpl.
  destruct (N.eqb_spec (Coupon.ID c) id) as [E|E]; simpl.
  - rewrite (H c (or_introl eq_refl) E). apply IH.
    intros c' Hin. apply H. right. exact Hin.
  - apply IH. intros c' Hin. apply H. right. exact Hin.
Qed.

(** C1: a redemption looks the coupon up again inside its transaction and
    fails when no active coupon has the identifier; for a one-time coupon
    it fails with [AlreadyUsed] exactly when the pair has a usage record;
    for a multi-use coupon it fails with [LimitExceeded] exactly when the
    pair has [MaxUsagePerUser] records or more; in every other case it
    succeeds.  A success adds the one record, a failure of any kind adds
    none.  The decisions are those of a store whose round trips succeed. *)
Theorem RecordCouponUsage_outcomes (usage : CouponUsage.t) (db : DB) :
  let r := fst (RecordCouponUsage usage db) in
  let db' := snd (RecordCouponUsage usage db) in
  let n := usage_count db (CouponUsage.CouponID usage) (CouponUsage.UserID usage) in
  (forall e, r = Err e -> same_tables db' db)
  /\ (r = Ok tt ->
      coupons db' = coupons db /\ coupon_usages db' = coupon_usages db ++ [usage])
  /\ (healthy db ->
      (active_by_id db (CouponUsage.CouponID usage) = None -> r = Err ErrRecordNotFound)
      /\ ((forall c, In c (coupons db) -> Coupon.ID c = CouponUsage.CouponID usage ->
                     Coupon.IsActive c = false) -> r = Err ErrRecordNotFound)
      /\ (forall coupon, active_by_id db (CouponUsage.CouponID usage) = Some coupon ->
          (Coupon.UsageType coupon = OneTime ->
           (r = Err AlreadyUsed <-> n > 0) /\ (r = Ok tt <-> ~ n > 0))
          /\ (Coupon.UsageType coupon = MultiUse ->
              (r = Err LimitExceeded <-> n >= Coupon.MaxUsagePerUser coupon)
              /\ (r = Ok tt <-> ~ n >= Coupon.MaxUsagePerUser coupon))
          /\ (Coupon.UsageType coupon <> OneTime -> Coupon.UsageType coupon <> MultiUse ->
              r = Ok tt))).
Proof.
  intros r db' n.
  pose proof (RecordCouponUsage_appends usage db) as Hframe.
  subst r db'. split; [| split].
  - intros e He. destruct (RecordCouponUsage usage db) as [[[]|e'] d]; simpl in *.
    + discriminate He.
    + exact Hframe.
  - intros Hok. destruct (RecordCouponUsage usage db) as [[[]|e'] d]; simpl in *.
    + exact Hframe.
    + discriminate Hok.
  - intros Hh. rewrite (RecordCouponUsage_healthy _ _ Hh). fold n.
    split; [| split].
    + intros ->. reflexivity.
    + intros Hin. rewrite (inactive_not_found _ _ Hin). reflexivity.
    + intros coupon ->. cbv zeta. fold n. split; [| split].
      * intros Hone. rewrite (one_time_not_multi_use _ Hone), Hone. simpl.
        destruct (Z.gtb_spec n 0) as [Hn|Hn]; simpl.
        -- split; split; intros H; try reflexivity; try discriminate H; try lia.
        -- split; split; intros H; try reflexivity; try discriminate H; try lia.
      * intros Hmulti. rewrite (multi_use_not_one_time _ Hmulti), Hmulti. simpl.
        destruct (Z.geb_spec n (Coupon.MaxUsagePerUser coupon)) as [Hn|Hn]; simpl.
        -- split; split; intros H; try reflexivity; try discriminate H; try lia.
        -- split; split; intros H; try reflexivity; try discriminate H; try lia.
      * intros H1 H2.
        apply String.eqb_neq in H1. apply String.eqb_neq in H2.
        rewrite H1, H2. reflexivity.
Qed.

(** The ledger on samples: a one-time coupon is redeemed once per user, a
    coupon absent or inactive is not found, and a driver error in the
    middle of the transaction leaves the ledger as it was. *)
Example RecordCouponUsage_samples :
  let once := Sample.redeem 41%N 2%N Sample.alice in
  let again := Sample.redeem 42%N 2%N Sample.alice in
  let other := Sample.redeem 43%N 2%N Sample.bob in
  fst (redeem_each [once; again; other] Sample.store)
  = [Ok tt; Err AlreadyUsed; Ok tt]
  /\ coupon_usages (snd (redeem_each [once; again; other] Sample.store)) = [once; other]
  /\ fst (RecordCouponUsage (Sample.redeem 44%N 9%N Sample.alice) Sample.store)
     = Err ErrRecordNotFound
  /\ RecordCouponUsage once (mkDB [Sample.ONCE] [] [None; None; Some "connection reset"])
     = (Err (ErrDriver "connection reset"), mkDB [Sample.ONCE] [] [])
  /\ RecordCouponUsage once (mkDB [Sample.ONCE] [] [None; None; None; None; Some "commit failed"])
     = (Err (ErrDriver "commit failed"), mkDB [Sample.ONCE] [] []).
Proof. repeat split; vm_compute; reflexivity. Qed.

(** A multi-use coupon limited to two uses per user: the third redemption
    of a user fails, another user still redeems. *)
Example RecordCouponUsage_limit_two :
  let TWICE := Coupon.mk 4%N "TWICE" 2000 MultiUse FixedDiscount 10%float 0%float 2
                         None "" true [] [] in
  fst (redeem_each [Sample.redeem 51%N 4%N Sample.alice; Sample.redeem 52%N 4%N Sample.alice;
                    Sample.redeem 53%N 4%N Sample.alice; Sample.redeem 54%N 4%N Sample.bob]
                   (mkDB [TWICE] [] []))
  = [Ok tt; Ok tt; Err LimitExceeded; Ok tt].
Proof. vm_compute. reflexivity. Qed.

End Ledger.

(** ** The validation orchestrator: [ValidateCoupon] *)

Section Validation.
Import Repository Service.

Lemma read_only_ValidateCoupon (input : ValidateCouponInput.t) :
  read_only (ValidateCoupon input).
Proof.
  unfold ValidateCoupon.
  apply read_only_bind; [apply read_only_GetByCode | intros [coupon|]].
  2: apply read_only_ret.
  destruct (negb (Coupon.IsValid _ _ _)); [apply read_only_ret |].
  destruct (negb (isApplicableToCoupon _ _)); [apply read_only_ret |].
  apply read_only_bind; [apply read_only_Count | intros usageCount].
  destruct (_ && _); [apply read_only_ret |].
  destruct (_ && _); apply read_only_ret.
Qed.

(** The decision of a validation on a healthy store. *)
Lemma ValidateCoupon_healthy (input : ValidateCouponInput.t) (db : DB) :
  healthy db ->
  ValidateCoupon input db =
  (Ok match active_by_code db (ValidateCouponInput.Code input) with
      | None => not_found
      | Some coupon =>
          let n := usage_count db (Coupon.ID coupon) (ValidateCouponInput.UserID input) in
          if negb (Coupon.IsValid coupon (ValidateCouponInput.OrderTotal input)
                                  (ValidateCouponInput.Timestamp input))
          then invalid
          else if negb (isApplicableToCoupon coupon (ValidateCouponInput.CartItems input))
          then inapplicable
          else if String.eqb (Coupon.UsageType coupon) OneTime && (n >? 0)
          then already_used
          else if String.eqb (Coupon.UsageType coupon) MultiUse
                  && (n >=? Coupon.MaxUsagePerUser coupon)
          then limit_exceeded
          else accepted (Coupon.CalculateDiscount coupon (ValidateCouponInput.OrderTotal input))
      end, db).
Proof.
  intros Hh. unfold ValidateCoupon. unfold bind at 1.
  rewrite (GetByCode_healthy _ _ Hh).
  destruct (active_by_code db _) as [coupon|]; [| reflexivity].
  destruct (negb (Coupon.IsValid _ _ _)); [reflexivity |].
  destruct (negb (isApplicableToCoupon _ _)); [reflexivity |].
  unfold bind, GetUserCouponUsage. rewrite (Count_healthy _ _ Hh).
  cbv zeta. unfold usage_count.
  destruct (_ && _); [reflexivity |].
  destruct (_ && _); reflexivity.
Qed.

Lemma driver_errors_only_ret {A} (a : A) : driver_errors_only (ret a).
Proof. intros db. exists []. reflexivity. Qed.

Lemma driver_errors_only_bind {A B} (m : M A) (k : A -> M B) :
  driver_errors_only m -> (forall a, driver_errors_only (k a)) ->
  driver_errors_only (bind m k).
Proof.
  intros Hm Hk db. unfold bind. specialize (Hm db).
  destruct (m db) as [[a|e] db1]; [| exact Hm].
  destruct Hm as [skipped E]. specialize (Hk a db1).
  destruct (k a db1) as [[b|e] db2].
  - destruct Hk as [skipped' E']. exists (skipped ++ skipped').
    rewrite E, E', app_assoc. reflexivity.
  - eapply scripted_later; [exact E | exact Hk].
Qed.

Lemma driver_errors_only_Count (cond : CouponUsage.t -> bool) :
  driver_errors_only (Count cond).
Proof.
  apply driver_errors_only_bind; [exact roundtrip_script |].
  intros _ db. exists []. reflexivity.
Qed.

Lemma driver_errors_only_Preload (related : nat) : driver_errors_only (Preload related).
Proof.
  apply driver_errors_only_bind; [exact roundtrip_script | intros _].
  destruct (related =? 0)%nat; [apply driver_errors_only_ret | exact roundtrip_script].
Qed.

Lemma driver_errors_only_Preloads (rows : list Coupon.t) :
  driver_errors_only (Preloads rows).
Proof.
  destruct rows as [|r rows]; [apply driver_errors_only_ret |].
  apply driver_errors_only_bind;
    [apply driver_errors_only_Preload | intros _; apply driver_errors_only_Preload].
Qed.

Lemma driver_errors_only_FindPreloaded (cond : Coupon.t -> bool) :
  driver_errors_only (FindPreloaded cond).
Proof.
  apply driver_errors_only_bind.
  { apply driver_errors_only_bind; [exact roundtrip_script |].
    intros _ db. exists []. reflexivity. }
  intros rows. apply driver_errors_only_bind;
    [apply driver_errors_only_Preloads | intros _; apply driver_errors_only_ret].
Qed.

(** The lookup fails with "record not found" or with an error of the
    driver. *)
Lemma FirstPreloaded_errors (cond : Coupon.t -> bool) (db : DB) :
  match FirstPreloaded cond db with
  | (Ok _, db') => exists skipped, faults db = skipped ++ faults db'
  | (Err ErrRecordNotFound, db') => exists skipped, faults db = skipped ++ faults db'
  | (Err e, _) => scripted db e
  end.
Proof.
  unfold FirstPreloaded, First. unfold bind at 1 2.
  pose proof (roundtrip_script db) as H.
  destruct (roundtrip db) as [[[]|e] db1].
  2: { destruct H as (msg & -> & Hin). exists msg. split; [reflexivity | exact Hin]. }
  destruct H as [skipped E].
  destruct (least_id _) as [c|]; [| exists skipped; exact E].
  unfold bind.
  pose proof (driver_errors_only_Preloads [c] db1) as Hp.
  destruct (Preloads [c] db1) as [[[]|e] db2].
  - destruct Hp as [skipped' E']. exists (skipped ++ skipped').
    rewrite E, E', app_assoc. reflexivity.
  - pose proof (scripted_later _ _ _ _ E Hp) as Hs.
    destruct Hs as (msg & -> & Hin). exists msg. split; [reflexivity | exact Hin].
Qed.

Lemma driver_errors_only_GetByCode (code : string) : driver_errors_only (GetByCode code).
Proof.
  intros db. unfold GetByCode.
  pose proof (FirstPreloaded_errors
                (fun c => String.eqb (Coupon.Code c) code && Coupon.IsActive c) db) as H.
  destruct (FirstPreloaded _ db) as [[c|e] db1]; [exact H |].
  destruct e; exact H.
Qed.

(** An error of [ValidateCoupon] is an error of the driver. *)
Lemma driver_errors_only_ValidateCoupon (input : ValidateCouponInput.t) :
  driver_errors_only (ValidateCoupon input).
Proof.
  unfold ValidateCoupon.
  apply driver_errors_only_bind;
    [apply driver_errors_only_GetByCode | intros [coupon|]].
  2: apply driver_errors_only_ret.
  destruct (negb (Coupon.IsValid _ _ _)); [apply driver_errors_only_ret |].
  destruct (negb (isApplicableToCoupon _ _)); [apply driver_errors_only_ret |].
  apply driver_errors_only_bind; [apply driver_errors_only_Count | intros usageCount].
  destruct (_ && _); [apply driver_errors_only_ret |].
  destruct (_ && _); apply driver_errors_only_ret.
Qed.

Lemma filter_active_twice (cond : Coupon.t -> bool) (cs : list Coupon.t) :
  filter (fun c => cond c && Coupon.IsActive c) (filter Coupon.IsActive cs)
  = filter (fun c => cond c && Coupon.IsActive c) cs.
Proof.
  induction cs as [|c cs IH]; [reflexivity |]. simpl.
  destruct (Coupon.IsActive c) eqn:Ha; simpl.
  - rewrite Ha, IH. reflexivity.
  - rewrite andb_false_r. exact IH.
Qed.

Lemma blind_ret {A} (a : A) : blind_to_inactive (ret a).
Proof. intros db. split; reflexivity. Qed.

Lemma blind_roundtrip : blind_to_inactive roundtrip.
Proof.
  intros [cs us fs]. unfold roundtrip, without_inactive. simpl.
  destruct fs as [|[msg|] rest]; split; reflexivity.
Qed.

Lemma blind_bind {A B} (m : M A) (k : A -> M B) :
  blind_to_inactive m -> (forall a, blind_to_inactive (k a)) ->
  blind_to_inactive (bind m k).
Proof.
  intros Hm Hk db. unfold bind. destruct (Hm db) as [H1 H2].
  destruct (m (without_inactive db)) as [r1 d1], (m db) as [r2 d2].
  simpl in H1, H2. subst r1 d1.
  destruct r2 as [a|e]; [apply Hk | split; reflexivity].
Qed.

Lemma blind_Count (cond : CouponUsage.t -> bool) : blind_to_inactive (Count cond).
Proof.
  apply blind_bind; [apply blind_roundtrip |].
  intros _ db. split; reflexivity.
Qed.

Lemma blind_First (cond : Coupon.t -> bool) :
  blind_to_inactive (First (fun c => cond c && Coupon.IsActive c)).
Proof.
  apply blind_bind; [apply blind_roundtrip | intros _].
  intros db. unfold without_inactive at 1 2. simpl. rewrite filter_active_twice.
  destruct (least_id _); split; reflexivity.
Qed.

Lemma blind_Preload (related : nat) : blind_to_inactive (Preload related).
Proof.
  apply blind_bind; [apply blind_roundtrip | intros _].
  destruct (related =? 0)%nat; [apply blind_ret | apply blind_roundtrip].
Qed.

Lemma blind_Preloads (rows : list Coupon.t) : blind_to_inactive (Preloads rows).
Proof.
  destruct rows as [|r rows]; [apply blind_ret |].
  apply blind_bind; [apply blind_Preload | intros _; apply blind_Preload].
Qed.

Lemma blind_FirstPreloaded (cond : Coupon.t -> bool) :
  blind_to_inactive (FirstPreloaded (fun c => cond c && Coupon.IsActive c)).
Proof.
  apply blind_bind; [apply blind_First | intros coupon].
  apply blind_bind; [apply blind_Preloads | intros _; apply blind_ret].
Qed.

Lemma blind_GetByCode (code : string) : blind_to_inactive (GetByCode code).
Proof.
  intros db. unfold GetByCode.
  destruct (blind_FirstPreloaded (fun c => String.eqb (Coupon.Code c) code) db) as [H1 H2].
  destruct (FirstPreloaded _ (without_inactive db)) as [r1 d1],
           (FirstPreloaded _ db) as [r2 d2].
  simpl in H1, H2. subst r1 d1.
  destruct r2 as [c|e]; [split; reflexivity | destruct e; split; reflexivity].
Qed.

(** Inactive coupons are invisible to a validation: it returns what it
    would return were they absent from the table. *)
Lemma ValidateCoupon_ignores_inactive (input : ValidateCouponInput.t) :
  blind_to_inactive (ValidateCoupon input).
Proof.
  unfold ValidateCoupon.
  apply blind_bind; [apply blind_GetByCode | intros [coupon|]].
  2: apply blind_ret.
  destruct (negb (Coupon.IsValid _ _ _)); [apply blind_ret |].
  destruct (negb (isApplicableToCoupon _ _)); [apply blind_ret |].
  apply blind_bind; [apply blind_Count | intros usageCount].
  destruct (_ && _); [apply blind_ret |].
  destruct (_ && _); apply blind_ret.
Qed.

Lemma inactive_code_not_found (db : DB) (code : string) :
  (forall c, In c (coupons db) -> Coupon.Code c = code -> Coupon.IsActive c = false) ->
  active_by_code db code = None.
Proof.
  intros H. unfold active_by_code.
  replace (filter _ (coupons db)) with (@nil Coupon.t); [reflexivity |].
  symmetry. induction (coupons db) as [|c cs IH]; [reflexivity |]. simpl.
  destruct (String.eqb_spec (Coupon.Code c) code) as [E|E]; simpl.
  - rewrite (H c (or_introl eq_refl) E). apply IH.
    intros c' Hin. apply H. right. exact Hin.
  - apply IH. intros c' Hin. apply H. right. exact Hin.
Qed.

End Validation.

Section Orchestrator.
Import Repository Service.

(** What the lookup returns, under any script. *)
Lemma GetByCode_found (code : string) (db : DB) (found : option Coupon.t) :
  fst (GetByCode code db) = Ok found -> found = active_by_code db code.
Proof.
  unfold GetByCode, FirstPreloaded, First, active_by_code. unfold bind at 1 2.
  pose proof (read_only_roundtrip db) as Hr.
  pose proof (roundtrip_script db) as Hs.
  destruct (roundtrip db) as [[[]|e] db1]; simpl in Hr.
  - destruct Hr as [Hc _]. rewrite Hc.
    destruct (least_id _) as [c|].
    + unfold bind. pose proof (driver_errors_only_Preloads [c] db1) as Hp.
      destruct (Preloads [c] db1) as [[[]|e] db2].
      * intros H. inversion H. reflexivity.
      * destruct Hp as (msg & -> & _). intros H. discriminate H.
    + intros H. inversion H. reflexivity.
  - destruct Hs as (msg & -> & _). intros H. discriminate H.
Qed.

(** The outcomes that are decided once the lookup has returned: the call
    makes no further round trip. *)
Lemma ValidateCoupon_after_lookup (input : ValidateCouponInput.t) (db : DB)
      (found : option Coupon.t) :
  fst (GetByCode (ValidateCouponInput.Code input) db) = Ok found ->
  let after := snd (GetByCode (ValidateCouponInput.Code input) db) in
  (found = None -> ValidateCoupon input db = (Ok not_found, after))
  /\ (forall coupon, found = Some coupon ->
        (Coupon.IsValid coupon (ValidateCouponInput.OrderTotal input)
                        (ValidateCouponInput.Timestamp input) = false ->
         ValidateCoupon input db = (Ok invalid, after))
        /\ (Coupon.IsValid coupon (ValidateCouponInput.OrderTotal input)
                           (ValidateCouponInput.Timestamp input) = true ->
            isApplicableToCoupon coupon (ValidateCouponInput.CartItems input) = false ->
            ValidateCoupon input db = (Ok inapplicable, after))).
Proof.
  intros H after. subst after. unfold ValidateCoupon, bind.
  destruct (GetByCode _ db) as [r db1]. simpl in H. subst r. simpl.
  split.
  - intros ->. reflexivity.
  - intros coupon ->. split.
    + intros ->. reflexivity.
    + intros -> ->. reflexivity.
Qed.

(** A failed lookup is the error of the call. *)
Lemma ValidateCoupon_lookup_failed (input : ValidateCouponInput.t) (db : DB) (e : error) :
  fst (GetByCode (ValidateCouponInput.Code input) db) = Err e ->
  fst (ValidateCoupon input db) = Err e.
Proof.
  intros H. unfold ValidateCoupon, bind.
  destruct (GetByCode _ db) as [r db1]. simpl in H. subst r. reflexivity.
Qed.

(** C6: [ValidateCoupon] looks the coupon up, then tests validity, then
    applicability, then the usage limits, and returns at the first test
    that fails.  An error of the lookup is the error of the call.  Once
    the lookup has returned without error, a missing coupon, an invalid one
    and an inapplicable one are reported at once: the call makes no further
    round trip and the ledger is not read, whatever the rest of the script
    holds.  A coupon that is inactive is not found, and the call returns
    what it would return were the inactive coupons absent.  On a healthy
    store the usage limits decide last.  Every declined outcome is a
    returned output whose [IsValid] is false, whose discounts are zero and
    whose message is one of five; the only errors are errors of the
    database driver. *)
Theorem ValidateCoupon_cascade (input : ValidateCouponInput.t) (db : DB) :
  let r := fst (ValidateCoupon input db) in
  let code := ValidateCouponInput.Code input in
  let total := ValidateCouponInput.OrderTotal input in
  let no := fun msg : string => ValidateCouponOutput.mk false 0%float 0%float msg in
  (forall e, r = Err e -> scripted db e)
  /\ fst (ValidateCoupon input (without_inactive db)) = r
  /\ (forall e, fst (GetByCode code db) = Err e -> r = Err e)
  /\ (forall found, fst (GetByCode code db) = Ok found ->
      let after := snd (GetByCode code db) in
      found = active_by_code db code
      /\ (found = None ->
          ValidateCoupon input db = (Ok (no "coupon not found"), after))
      /\ ((forall c, In c (coupons db) -> Coupon.Code c = code ->
                     Coupon.IsActive c = false) ->
          ValidateCoupon input db = (Ok (no "coupon not found"), after))
      /\ (forall coupon, found = Some coupon ->
          (Coupon.IsValid coupon total (ValidateCouponInput.Timestamp input) = false ->
           ValidateCoupon input db = (Ok (no "coupon is not valid for this order"), after))
          /\ (Coupon.IsValid coupon total (ValidateCouponInput.Timestamp input) = true ->
              isApplicableToCoupon coupon (ValidateCouponInput.CartItems input) = false ->
              ValidateCoupon input db
              = (Ok (no "coupon is not applicable to any items in cart"), after))))
  /\ (healthy db ->
      forall coupon, active_by_code db code = Some coupon ->
      Coupon.IsValid coupon total (ValidateCouponInput.Timestamp input) = true ->
      isApplicableToCoupon coupon (ValidateCouponInput.CartItems input) = true ->
      let n := usage_count db (Coupon.ID coupon) (ValidateCouponInput.UserID input) in
      (Coupon.UsageType coupon = OneTime -> n > 0 ->
       r = Ok (no "one-time coupon already used"))
      /\ (Coupon.UsageType coupon = MultiUse -> n >= Coupon.MaxUsagePerUser coupon ->
          r = Ok (no "coupon usage limit exceeded"))
      /\ ((Coupon.UsageType coupon = OneTime -> n <= 0) ->
          (Coupon.UsageType coupon = MultiUse -> n < Coupon.MaxUsagePerUser coupon) ->
          r = Ok (ValidateCouponOutput.mk true (Coupon.CalculateDiscount coupon total)
                    0%float "coupon applied successfully")))
  /\ (healthy db ->
      exists out, r = Ok out
        /\ (ValidateCouponOutput.IsValid out = false ->
            In out [no "coupon not found"; no "coupon is not valid for this order";
                    no "coupon is not applicable to any items in cart";
                    no "one-time coupon already used";
                    no "coupon usage limit exceeded"])
        /\ (ValidateCouponOutput.IsValid out = true ->
            ValidateCouponOutput.Message out = "coupon applied successfully")).
Proof.
  intros r code total no. subst r code total no.
  split; [| split; [| split; [| split; [| split]]]].
  - intros e He.
    pose proof (driver_errors_only_ValidateCoupon input db) as H.
    destruct (ValidateCoupon input db) as [[out|e'] db1]; simpl in He.
    + discriminate He.
    + injection He as ->. exact H.
  - apply ValidateCoupon_ignores_inactive.
  - intros e He. apply ValidateCoupon_lookup_failed. exact He.
  - intros found Hf after. subst after.
    pose proof (GetByCode_found _ _ _ Hf) as Hfound.
    destruct (ValidateCoupon_after_lookup input db found Hf) as [Hnone Hsome].
    split; [exact Hfound | split; [exact Hnone | split; [| exact Hsome]]].
    intros Hin. apply Hnone. rewrite Hfound. apply inactive_code_not_found. exact Hin.
  - intros Hh coupon Hc Hv Ha n.
    rewrite (ValidateCoupon_healthy _ _ Hh), Hc. cbv zeta. fold n.
    rewrite Hv, Ha. simpl.
    split; [| split].
    + intros Hone Hn. rewrite Hone. simpl.
      destruct (Z.gtb_spec n 0); [reflexivity | lia].
    + intros Hmulti Hn. rewrite Hmulti. simpl.
      destruct (Z.geb_spec n (Coupon.MaxUsagePerUser coupon)); [reflexivity | lia].
    + intros Hone Hmulti.
      destruct (String.eqb_spec (Coupon.UsageType coupon) OneTime) as [E|E]; simpl.
      * specialize (Hone E). destruct (Z.gtb_spec n 0); [lia |].
        rewrite (one_time_not_multi_use _ E). reflexivity.
      * destruct (String.eqb_spec (Coupon.UsageType coupon) MultiUse) as [E'|E']; simpl;
          [| reflexivity].
        specialize (Hmulti E').
        destruct (Z.geb_spec n (Coupon.MaxUsagePerUser coupon)); [lia | reflexivity].
  - intros Hh. rewrite (ValidateCoupon_healthy _ _ Hh). simpl.
    eexists. split; [reflexivity |].
    destruct (active_by_code db _) as [coupon|];
      [| split; [intros _; left; reflexivity | discriminate]].
    cbv zeta.
    destruct (negb (Coupon.IsValid _ _ _));
      [split; [intros _; right; left; reflexivity | discriminate] |].
    destruct (negb (isApplicableToCoupon _ _));
      [split; [intros _; right; right; left; reflexivity | discriminate] |].
    destruct (_ && _);
      [split; [intros _; right; right; right; left; reflexivity | discriminate] |].
    destruct (_ && _);
      [split; [intros _; right; right; right; right; left; reflexivity | discriminate] |].
    simpl. split; [discriminate | reflexivity].
Qed.

(** C7: [ValidateCoupon] leaves both tables as they are, whatever it
    returns; on a healthy store it returns the store it was given, so a
    second call returns what the first did.  For the README's coupon
    (multi-use, 20 percent, at most 5 uses) an order of 700 is accepted
    with a discount of 140 before the redemption and, twice, after it;
    the ledger then holds the one record of the redemption. *)
Theorem ValidateCoupon_writes_nothing (input : ValidateCouponInput.t) (db : DB) :
  same_tables (snd (ValidateCoupon input db)) db
  /\ (healthy db ->
      snd (ValidateCoupon input db) = db
      /\ fst (ValidateCoupon input (snd (ValidateCoupon input db)))
         = fst (ValidateCoupon input db))
  /\ SAVE20_scenario
     = (Ok (accepted 140), Ok tt, Ok (accepted 140), Ok (accepted 140), 1).
Proof.
  split; [apply read_only_ValidateCoupon | split].
  - intros Hh. rewrite (ValidateCoupon_healthy _ _ Hh). simpl.
    split; [reflexivity |]. rewrite (ValidateCoupon_healthy _ _ Hh). reflexivity.
  - vm_compute. reflexivity.
Qed.

(** The orchestrator on samples: a failing lookup is an error, also when
    it is a preload that fails; a failing count is an error only when the
    count is reached. *)
Example ValidateCoupon_samples :
  let order := ValidateCouponInput.mk "ONCE" [Sample.med_123] 700 Sample.alice 1200 in
  let late := ValidateCouponInput.mk "ONCE" [Sample.med_123] 700 Sample.alice 2001 in
  let unknown := ValidateCouponInput.mk "once" [Sample.med_123] 700 Sample.alice 1200 in
  let down := mkDB [Sample.ONCE] [] [None; None; None; Some "connection reset"] in
  let preload_down := mkDB [Sample.ONCE] [] [None; Some "connection reset"] in
  fst (ValidateCoupon order Sample.store) = Ok (accepted 50)
  /\ fst (ValidateCoupon unknown down) = Ok not_found
  /\ fst (ValidateCoupon late down) = Ok invalid
  /\ fst (ValidateCoupon order down) = Err (ErrDriver "connection reset")
  /\ fst (ValidateCoupon unknown preload_down) = Ok not_found
  /\ fst (ValidateCoupon late preload_down) = Err (ErrDriver "connection reset")
  /\ fst (ValidateCoupon order (mkDB [Sample.ONCE] [] [Some "timeout"]))
     = Err (ErrDriver "timeout")
  /\ fst (ValidateCoupon order (mkDB [Sample.ONCE] [Sample.redeem 41%N 2%N Sample.alice] []))
     = Ok already_used.
Proof. repeat split; vm_compute; reflexivity. Qed.

End Orchestrator.

(** ** Coupons without a usage limit *)

Section Unlimited.
Import Repository Service.

Lemma recorded_healthy (db : DB) (usage : CouponUsage.t) :
  healthy db -> healthy (recorded db usage).
Proof. intros H. exact H. Qed.

Lemma recorded_active_by_id (db : DB) (usage : CouponUsage.t) (id : UUID) :
  active_by_id (recorded db usage) id = active_by_id db id.
Proof. reflexivity. Qed.

Lemma redeem_each_unlimited (coupon : Coupon.t) (usages : list CouponUsage.t) :
  Coupon.UsageType coupon <> OneTime ->
  Coupon.UsageType coupon <> MultiUse ->
  forall db,
    healthy db ->
    (forall u, In u usages -> active_by_id db (CouponUsage.CouponID u) = Some coupon) ->
    redeem_each usages db
    = (map (fun _ => Ok tt) usages,
       mkDB (coupons db) (coupon_usages db ++ usages) (faults db)).
Proof.
  intros H1 H2. apply String.eqb_neq in H1. apply String.eqb_neq in H2.
  induction usages as [|u rest IH]; intros db Hh Hall.
  - simpl. rewrite app_nil_r. destruct db; reflexivity.
  - simpl. rewrite (RecordCouponUsage_healthy _ _ Hh).
    rewrite (Hall u (or_introl eq_refl)). cbv zeta. rewrite H1, H2. simpl.
    rewrite (IH (recorded db u) (recorded_healthy _ _ Hh)).
    + unfold recorded. simpl. rewrite <- app_assoc. reflexivity.
    + intros u' Hin. rewrite recorded_active_by_id. apply Hall. right. exact Hin.
Qed.

(** C9: for a time-based coupon no usage limit is enforced.  A validation
    that passes the validity and applicability tests accepts the coupon
    whatever the ledger holds, and any number of redemptions made one
    after the other all succeed and are all recorded, whatever
    [MaxUsagePerUser] is.  (Store healthy, coupon active.) *)
Theorem time_based_unlimited (db : DB) (coupon : Coupon.t)
        (input : ValidateCouponInput.t) (usages : list CouponUsage.t) :
  healthy db ->
  Coupon.UsageType coupon = TimeBased ->
  (active_by_code db (ValidateCouponInput.Code input) = Some coupon ->
   Coupon.IsValid coupon (ValidateCouponInput.OrderTotal input)
                  (ValidateCouponInput.Timestamp input) = true ->
   isApplicableToCoupon coupon (ValidateCouponInput.CartItems input) = true ->
   fst (ValidateCoupon input db)
   = Ok (accepted (Coupon.CalculateDiscount coupon (ValidateCouponInput.OrderTotal input))))
  /\ ((forall u, In u usages -> active_by_id db (CouponUsage.CouponID u) = Some coupon) ->
      redeem_each usages db
      = (map (fun _ => Ok tt) usages,
         mkDB (coupons db) (coupon_usages db ++ usages) (faults db))).
Proof.
  intros Hh Ht.
  assert (H1 : Coupon.UsageType coupon <> OneTime) by (rewrite Ht; discriminate).
  assert (H2 : Coupon.UsageType coupon <> MultiUse) by (rewrite Ht; discriminate).
  split.
  - intros Hc Hv Ha. rewrite (ValidateCoupon_healthy _ _ Hh), Hc. cbv zeta.
    rewrite Hv, Ha, Ht. reflexivity.
  - intros Hall. apply (redeem_each_unlimited coupon usages H1 H2 db Hh Hall).
Qed.

Lemma time_based_unlimited_witness :
  fst (ValidateCoupon
         (ValidateCouponInput.mk "HAPPYHOUR" [Sample.med_123] 300 Sample.alice 1200)
         busy_store)
  = Ok (accepted 50)
  /\ redeem_each three_more busy_store
     = ([Ok tt; Ok tt; Ok tt],
        mkDB (coupons busy_store) (coupon_usages busy_store ++ three_more) []).
Proof.
  destruct (time_based_unlimited busy_store Sample.HAPPYHOUR
              (ValidateCouponInput.mk "HAPPYHOUR" [Sample.med_123] 300 Sample.alice 1200)
              three_more eq_refl eq_refl) as [Hv Hr].
  split.
  - apply Hv; reflexivity.
  - apply Hr. intros u [<-|[<-|[<-|[]]]]; reflexivity.
Defined.

End Unlimited.

(** ** Listing the applicable coupons *)

Section Listing.
Import Repository.

Lemma GetApplicableCoupons_healthy (now : Time) (cartItems : list Medicine.t)
      (orderTotal : float) (db : DB) :
  healthy db ->
  GetApplicableCoupons now cartItems orderTotal db
  = (Ok (filter (fun c => isApplicableToCoupon c cartItems)
                (filter (candidate now orderTotal) (coupons db))), db).
Proof.
  intros Hh. unfold GetApplicableCoupons, bind.
  rewrite (FindPreloaded_healthy _ _ Hh). reflexivity.
Qed.

(** What the listing holds on a healthy store: the active coupons whose
    expiry date is after [now], whose minimum order value is at most the
    order total and which the matcher accepts; the ledger is not read. *)
Lemma GetApplicableCoupons_listing (now : Time) (cartItems : list Medicine.t)
      (orderTotal : float) (db : DB) :
  healthy db ->
  exists listed,
    fst (GetApplicableCoupons now cartItems orderTotal db) = Ok listed
    /\ (forall c, In c listed <->
                  In c (coupons db)
                  /\ Coupon.IsActive c = true
                  /\ now < Coupon.ExpiryDate c
                  /\ float8_le (Coupon.MinOrderValue c) orderTotal = true
                  /\ isApplicableToCoupon c cartItems = true)
    /\ (forall usages,
           fst (GetApplicableCoupons now cartItems orderTotal
                  (mkDB (coupons db) usages (faults db))) = Ok listed).
Proof.
  intros Hh. eexists. split; [| split].
  - rewrite (GetApplicableCoupons_healthy _ _ _ _ Hh). reflexivity.
  - intros c. rewrite filter_In, filter_In. unfold candidate.
    rewrite !andb_true_iff, Z.ltb_lt. tauto.
  - intros usages. rewrite GetApplicableCoupons_healthy; [reflexivity | exact Hh].
Qed.

(** C8, at a coupon whose expiry date is the very instant of the call:
    the coupon is active, the validity predicate accepts it at that
    instant, its minimum order value is met and the matcher accepts the
    cart, and a validation at that instant accepts it; yet the listing
    omits it, while it lists it one nanosecond earlier. *)
Theorem GetApplicableCoupons_at_expiry_instant :
  let db := mkDB [Sample.ONCE] [] [] in
  let cart := [Sample.med_123] in
  Coupon.ExpiryDate Sample.ONCE = 2000
  /\ Coupon.IsActive Sample.ONCE = true
  /\ Coupon.IsValid Sample.ONCE 700 2000 = true
  /\ float8_le (Coupon.MinOrderValue Sample.ONCE) 700 = true
  /\ isApplicableToCoupon Sample.ONCE cart = true
  /\ fst (Service.ValidateCoupon
            (Service.ValidateCouponInput.mk "ONCE" cart 700 Sample.alice 2000) db)
     = Ok (accepted 50)
  /\ fst (GetApplicableCoupons 2000 cart 700 db) = Ok []
  /\ fst (GetApplicableCoupons 1999 cart 700 db) = Ok [Sample.ONCE].
Proof. repeat split; vm_compute; reflexivity. Qed.

End Listing.

(** ** Redemptions of a one-time coupon, in sequence and interleaved *)

Section Race.
Import Repository.

Lemma usage_count_recorded (db : DB) (usage : CouponUsage.t) :
  usage_count (recorded db usage) (CouponUsage.CouponID usage) (CouponUsage.UserID usage)
  = usage_count db (CouponUsage.CouponID usage) (CouponUsage.UserID usage) + 1.
Proof.
  unfold usage_count, recorded. simpl. rewrite filter_app, length_app. simpl.
  unfold same_pair at 2. rewrite !N.eqb_refl. simpl. lia.
Qed.

Lemma usage_count_nonneg (db : DB) (couponID userID : UUID) :
  0 <= usage_count db couponID userID.
Proof. unfold usage_count. lia. Qed.

(** Once the pair has a record, every later redemption of the one-time
    coupon fails with [AlreadyUsed] and the ledger stays as it is. *)
Lemma redeem_each_used (coupon : Coupon.t) (couponID userID : UUID)
      (usages : list CouponUsage.t) (db : DB) :
  Coupon.UsageType coupon = OneTime ->
  healthy db ->
  active_by_id db couponID = Some coupon ->
  usage_count db couponID userID > 0 ->
  (forall u, In u usages ->
             CouponUsage.CouponID u = couponID /\ CouponUsage.UserID u = userID) ->
  redeem_each usages db = (map (fun _ => Err AlreadyUsed) usages, db).
Proof.
  intros Hone Hh Hc Hn. induction usages as [|u rest IH]; intros Hall; [reflexivity |].
  simpl. destruct (Hall u (or_introl eq_refl)) as [E1 E2].
  rewrite (RecordCouponUsage_healthy _ _ Hh), E1, E2, Hc. cbv zeta. rewrite Hone.
  destruct (Z.gtb_spec (usage_count db couponID userID) 0) as [_|Hle]; [| lia]. simpl.
  rewrite IH; [reflexivity |]. intros u' Hin. apply Hall. right. exact Hin.
Qed.

(** Redemptions of a one-time coupon by one user, made one after the
    other: the first succeeds and each of the others fails with
    [AlreadyUsed]; the ledger gains one record. *)
Lemma redeem_each_one_time (coupon : Coupon.t) (first : CouponUsage.t)
      (others : list CouponUsage.t) (db : DB) :
  Coupon.UsageType coupon = OneTime ->
  healthy db ->
  active_by_id db (CouponUsage.CouponID first) = Some coupon ->
  usage_count db (CouponUsage.CouponID first) (CouponUsage.UserID first) = 0 ->
  (forall u, In u others ->
             CouponUsage.CouponID u = CouponUsage.CouponID first
             /\ CouponUsage.UserID u = CouponUsage.UserID first) ->
  redeem_each (first :: others) db
  = (Ok tt :: map (fun _ => Err AlreadyUsed) others, recorded db first).
Proof.
  intros Hone Hh Hc Hn Hall. simpl.
  rewrite (RecordCouponUsage_healthy _ _ Hh), Hc. cbv zeta.
  rewrite Hn, (one_time_not_multi_use _ Hone), Hone. simpl.
  rewrite (redeem_each_used coupon (CouponUsage.CouponID first) (CouponUsage.UserID first));
    try assumption; try reflexivity.
  rewrite usage_count_recorded, Hn. lia.
Qed.

(** A call that runs alone, from BEGIN to COMMIT, does what
    [RecordCouponUsage] does on a healthy store. *)
Lemma alone_agrees (usage : CouponUsage.t) (db : DB) :
  healthy db ->
  Interleaving.run (Interleaving.alone 0)
    (Interleaving.start (coupons db) (coupon_usages db) [usage])
  = Interleaving.mkSystem
      (coupons db)
      (coupon_usages (snd (RecordCouponUsage usage db)))
      [Interleaving.mkCall usage
         (Interleaving.Returned (fst (RecordCouponUsage usage db)))].
Proof.
  intros Hh. rewrite (RecordCouponUsage_healthy _ _ Hh).
  unfold active_by_id, usage_count.
  destruct db as [cs us fs]. unfold healthy in Hh. simpl in Hh. subst fs.
  cbn -[least_id filter String.eqb Z.gtb Z.geb].
  destruct (least_id _) as [coupon|]; cbn -[least_id filter String.eqb Z.gtb Z.geb].
  2: reflexivity.
  unfold Interleaving.from_one_time_test, Interleaving.from_multi_use_test.
  destruct (String.eqb_spec (Coupon.UsageType coupon) OneTime) as [E|E].
  - rewrite (one_time_not_multi_use _ E).
    cbn -[least_id filter String.eqb Z.gtb Z.geb].
    unfold Interleaving.count_pair.
    destruct (_ >? 0); cbn -[least_id filter String.eqb Z.gtb Z.geb]; [reflexivity |].
    unfold Interleaving.from_multi_use_test.
    rewrite (one_time_not_multi_use _ E). reflexivity.
  - cbn -[least_id filter String.eqb Z.gtb Z.geb].
    destruct (String.eqb (Coupon.UsageType coupon) MultiUse);
      cbn -[least_id filter String.eqb Z.gtb Z.geb]; [| reflexivity].
    unfold Interleaving.count_pair.
    destruct (_ >=? _); reflexivity.
Qed.

End Race.

Section Rounds.
Import Repository Interleaving.

Lemma step_nth_middle (k : list Coupon.t) (rows : list CouponUsage.t)
      (pre : list call) (c : call) (rest : list call) :
  step_nth k rows (pre ++ c :: rest) (List.length pre)
  = (pre ++ fst (step k rows c) :: rest, snd (step k rows c)).
Proof.
  induction pre as [|p pre IH]; simpl.
  - destruct (step k rows c); reflexivity.
  - rewrite IH. reflexivity.
Qed.

Lemma run_round_from (k : list Coupon.t) (cs : list call) :
  forall (pre : list call) (rows : list CouponUsage.t),
    run (seq (List.length pre) (List.length cs)) (mkSystem k rows (pre ++ cs))
    = mkSystem k (snd (step_all k rows cs)) (pre ++ fst (step_all k rows cs)).
Proof.
  induction cs as [|c rest IH]; intros pre rows; [reflexivity |].
  cbn [List.length seq run coupons committed calls step_all].
  rewrite step_nth_middle.
  destruct (step k rows c) as [c' rows1] eqn:E. cbn [fst snd].
  specialize (IH (pre ++ [c']) rows1).
  rewrite length_app, Nat.add_1_r, <- app_assoc in IH. cbn [app] in IH.
  rewrite IH. destruct (step_all k rows1 rest) as [rest' rows2]. cbn [fst snd].
  rewrite <- app_assoc. reflexivity.
Qed.

(** A round of the schedule is a round of round trips. *)
Lemma run_round (k : list Coupon.t) (rows : list CouponUsage.t) (cs : list call) :
  run (seq 0 (List.length cs)) (mkSystem k rows cs)
  = mkSystem k (snd (step_all k rows cs)) (fst (step_all k rows cs)).
Proof. exact (run_round_from k cs [] rows). Qed.

Lemma run_round_map (k : list Coupon.t) (rows : list CouponUsage.t) (p : pc)
      (usages : list CouponUsage.t) :
  let cs := map (fun u => mkCall u p) usages in
  run (seq 0 (List.length usages)) (mkSystem k rows cs)
  = mkSystem k (snd (step_all k rows cs)) (fst (step_all k rows cs)).
Proof.
  intros cs. rewrite <- (length_map (fun u => mkCall u p) usages). apply run_round.
Qed.

Lemma run_app (s1 s2 : schedule) (sys : system) :
  run (s1 ++ s2) sys = run s2 (run s1 sys).
Proof.
  revert sys. induction s1 as [|i s1 IH]; intros sys; [reflexivity |].
  simpl. destruct (step_nth _ _ _ i). apply IH.
Qed.

(** A round in which no call commits: every call moves on and the
    committed rows stay. *)
Lemma step_all_quiet (k : list Coupon.t) (rows : list CouponUsage.t)
      (here there : pc) (usages : list CouponUsage.t) :
  (forall u, In u usages -> step k rows (mkCall u here) = (mkCall u there, rows)) ->
  step_all k rows (map (fun u => mkCall u here) usages)
  = (map (fun u => mkCall u there) usages, rows).
Proof.
  induction usages as [|u rest IH]; intros H; [reflexivity |].
  simpl. rewrite (H u (or_introl eq_refl)), IH; [reflexivity |].
  intros u' Hin. apply H. right. exact Hin.
Qed.

(** The round of the commits: every call returns nil and its row is
    committed. *)
Lemma step_all_commit (k : list Coupon.t) (usages : list CouponUsage.t) :
  forall rows,
    step_all k rows (map (fun u => mkCall u AtCommit) usages)
    = (map (fun u => mkCall u (Returned (Ok tt))) usages, rows ++ usages).
Proof.
  induction usages as [|u rest IH]; intros rows.
  - simpl. rewrite app_nil_r. reflexivity.
  - simpl. rewrite IH, <- app_assoc. reflexivity.
Qed.

(** Any number of simultaneous redemptions of a one-time coupon by one
    user, on a ledger without a record of the pair: when the calls proceed
    round by round, every one of them returns nil and every row is
    committed. *)
Lemma all_attempts_succeed (k : list Coupon.t) (rows : list CouponUsage.t)
      (coupon : Coupon.t) (couponID userID : UUID) (usages : list CouponUsage.t) :
  Coupon.UsageType coupon = OneTime ->
  least_id (filter (fun c => N.eqb (Coupon.ID c) couponID && Coupon.IsActive c) k)
  = Some coupon ->
  Z.of_nat (List.length (filter (same_pair couponID userID) rows)) = 0 ->
  (forall u, In u usages ->
             CouponUsage.CouponID u = couponID /\ CouponUsage.UserID u = userID) ->
  run (round_robin (List.length usages) 5) (start k rows usages)
  = mkSystem k (rows ++ usages) (map (fun u => mkCall u (Returned (Ok tt))) usages).
Proof.
  intros Hone Hc Hn Hall.
  unfold round_robin, start. cbn [repeat List.concat]. rewrite app_nil_r.
  rewrite !run_app.
  rewrite run_round_map, (step_all_quiet k rows AtBegin AtFirst) by reflexivity.
  cbn [fst snd].
  rewrite run_round_map, (step_all_quiet k rows AtFirst (AtCountOneTime coupon)).
  2: { intros u Hin. destruct (Hall u Hin) as [E _].
       unfold step. cbn [usage at_pc]. rewrite E, Hc.
       unfold from_one_time_test. rewrite Hone. reflexivity. }
  cbn [fst snd].
  rewrite run_round_map, (step_all_quiet k rows (AtCountOneTime coupon) AtCreate).
  2: { intros u Hin. destruct (Hall u Hin) as [E1 E2].
       unfold step. cbn [usage at_pc]. unfold count_pair. rewrite E1, E2, Hn.
       unfold from_multi_use_test. rewrite Hone. reflexivity. }
  cbn [fst snd].
  rewrite run_round_map, (step_all_quiet k rows AtCreate AtCommit) by reflexivity.
  cbn [fst snd].
  rewrite run_round_map, step_all_commit. reflexivity.
Qed.

End Rounds.

Section Interleaved.
Import Repository Interleaving.

(** C2, at two simultaneous redemptions of a one-time coupon by one user:
    when their round trips alternate, both calls count zero records
    before either commits, both insert and both return nil, and the
    ledger ends with two records of the pair.  When the second call
    starts after the first has committed, it fails with [AlreadyUsed]. *)
Theorem one_time_coupon_redeemed_twice :
  let raced := run turn_by_turn two_attempts in
  let queued := run (alone 0 ++ alone 1) two_attempts in
  outcomes raced = [Returned (Ok tt); Returned (Ok tt)]
  /\ committed raced = [first_attempt; second_attempt]
  /\ count_pair first_attempt (committed raced) = 2
  /\ outcomes queued = [Returned (Ok tt); Returned (Err AlreadyUsed)]
  /\ committed queued = [first_attempt]
  /\ fst (redeem_each [first_attempt; second_attempt] (mkDB [Sample.ONCE] [] []))
     = [Ok tt; Err AlreadyUsed].
Proof. repeat split; vm_compute; reflexivity. Qed.

(** The same with a multi-use coupon one use short of its limit: both
    calls pass the test and the user ends above [MaxUsagePerUser]. *)
Example multi_use_limit_passed :
  let four := [Sample.redeem 31%N 1%N Sample.bob; Sample.redeem 32%N 1%N Sample.bob;
               Sample.redeem 33%N 1%N Sample.bob; Sample.redeem 34%N 1%N Sample.bob] in
  let sys := start [Sample.SAVE20] four
                   [Sample.redeem 35%N 1%N Sample.bob; Sample.redeem 36%N 1%N Sample.bob] in
  outcomes (run turn_by_turn sys) = [Returned (Ok tt); Returned (Ok tt)]
  /\ count_pair (Sample.redeem 35%N 1%N Sample.bob) (committed (run turn_by_turn sys)) = 6
  /\ Coupon.MaxUsagePerUser Sample.SAVE20 = 5.
Proof. repeat split; vm_compute; reflexivity. Qed.

End Interleaved.

(* ================================================================== *)
(** * Further properties *)

(** ** Answers and failures of the driver *)

Section Faults.
Import Repository Service.

Lemma healed_healed (db : DB) : healed (healed db) = healed db.
Proof. reflexivity. Qed.

Lemma healed_healthy (db : DB) : healthy (healed db).
Proof. reflexivity. Qed.

Lemma healed_same_tables (db : DB) : same_tables (healed db) db.
Proof. split; reflexivity. Qed.

Lemma fault_insensitive_ret {A} (a : A) : fault_insensitive (ret a).
Proof. intros db a' db' H. injection H as <- <-. reflexivity. Qed.

Lemma fault_insensitive_fail {A} (e : error) : fault_insensitive (@fail A e).
Proof. intros db a db' H. discriminate H. Qed.

Lemma fault_insensitive_roundtrip : fault_insensitive roundtrip.
Proof.
  intros [cs us fs] [] db'. unfold roundtrip, healed, with_faults. simpl.
  destruct fs as [|[msg|] rest]; intros H; try discriminate H;
    injection H as <-; reflexivity.
Qed.

Lemma fault_insensitive_bind {A B} (m : M A) (k : A -> M B) :
  fault_insensitive m -> (forall a, fault_insensitive (k a)) ->
  fault_insensitive (bind m k).
Proof.
  intros Hm Hk db b db' H. unfold bind in *.
  destruct (m db) as [[a|e] db1] eqn:E; [| discriminate H].
  rewrite (Hm _ _ _ E). apply Hk. exact H.
Qed.

Lemma fault_insensitive_First (cond : Coupon.t -> bool) : fault_insensitive (First cond).
Proof.
  apply fault_insensitive_bind; [exact fault_insensitive_roundtrip | intros _].
  intros db c db'. unfold healed, with_faults. simpl.
  destruct (least_id _); intros H; [| discriminate H].
  injection H as <- <-. reflexivity.
Qed.

Lemma fault_insensitive_Find (cond : Coupon.t -> bool) : fault_insensitive (Find cond).
Proof.
  apply fault_insensitive_bind; [exact fault_insensitive_roundtrip | intros _].
  intros db l db' H. injection H as <- <-. reflexivity.
Qed.

Lemma fault_insensitive_Count (cond : CouponUsage.t -> bool) : fault_insensitive (Count cond).
Proof.
  apply fault_insensitive_bind; [exact fault_insensitive_roundtrip | intros _].
  intros db n db' H. injection H as <- <-. reflexivity.
Qed.

Lemma fault_insensitive_CreateUsage (usage : CouponUsage.t) :
  fault_insensitive (CreateUsage usage).
Proof.
  apply fault_insensitive_bind; [exact fault_insensitive_roundtrip | intros _].
  intros db u db' H. injection H as <- <-. reflexivity.
Qed.

Lemma fault_insensitive_Preload (related : nat) : fault_insensitive (Preload related).
Proof.
  apply fault_insensitive_bind; [exact fault_insensitive_roundtrip | intros _].
  destruct (related =? 0)%nat;
    [apply fault_insensitive_ret | exact fault_insensitive_roundtrip].
Qed.

Lemma fault_insensitive_Preloads (rows : list Coupon.t) :
  fault_insensitive (Preloads rows).
Proof.
  destruct rows as [|c rows]; [apply fault_insensitive_ret |].
  apply fault_insensitive_bind; [apply fault_insensitive_Preload | intros _].
  apply fault_insensitive_Preload.
Qed.

Lemma fault_insensitive_FirstPreloaded (cond : Coupon.t -> bool) :
  fault_insensitive (FirstPreloaded cond).
Proof.
  apply fault_insensitive_bind; [apply fault_insensitive_First | intros coupon].
  apply fault_insensitive_bind; [apply fault_insensitive_Preloads | intros _].
  apply fault_insensitive_ret.
Qed.

Lemma fault_insensitive_FindPreloaded (cond : Coupon.t -> bool) :
  fault_insensitive (FindPreloaded cond).
Proof.
  apply fault_insensitive_bind; [apply fault_insensitive_Find | intros rows].
  apply fault_insensitive_bind; [apply fault_insensitive_Preloads | intros _].
  apply fault_insensitive_ret.
Qed.

Lemma fault_insensitive_SaveAssociation (related : nat) :
  fault_insensitive (SaveAssociation related).
Proof.
  unfold SaveAssociation.
  destruct (related =? 0)%nat; [apply fault_insensitive_ret |].
  apply fault_insensitive_bind; [exact fault_insensitive_roundtrip | intros _].
  exact fault_insensitive_roundtrip.
Qed.

Lemma fault_insensitive_CreateCoupon (fresh : UUID) (coupon : Coupon.t) :
  fault_insensitive (Repository.CreateCoupon fresh coupon).
Proof.
  unfold Repository.CreateCoupon. cbv zeta.
  apply fault_insensitive_bind; [exact fault_insensitive_roundtrip | intros _].
  apply fault_insensitive_bind; [exact fault_insensitive_roundtrip | intros _].
  apply fault_insensitive_bind; [apply fault_insensitive_SaveAssociation | intros _].
  apply fault_insensitive_bind; [apply fault_insensitive_SaveAssociation | intros _].
  apply fault_insensitive_bind; [exact fault_insensitive_roundtrip | intros _].
  intros db u db' H. inversion H. reflexivity.
Qed.

(** A lookup that finds no row has made one round trip, which succeeded. *)
Lemma FirstPreloaded_not_found (cond : Coupon.t -> bool) (db db' : DB) :
  FirstPreloaded cond db = (Err ErrRecordNotFound, db') ->
  FirstPreloaded cond (healed db) = (Err ErrRecordNotFound, healed db').
Proof.
  unfold FirstPreloaded, First. unfold bind at 1 2 4 5.
  pose proof (roundtrip_script db) as Hs.
  destruct (roundtrip db) as [[[]|e] db1] eqn:R.
  - rewrite (fault_insensitive_roundtrip _ _ _ R).
    pose proof (read_only_roundtrip db) as Hr. rewrite R in Hr. destruct Hr as [Hc _].
    change (coupons (healed db1)) with (coupons db1).
    destruct (least_id _) as [c|].
    + unfold bind. pose proof (driver_errors_only_Preloads [c] db1) as Hp.
      destruct (Preloads [c] db1) as [[[]|e] db2].
      * intros H. discriminate H.
      * destruct Hp as (msg & -> & _). intros H. discriminate H.
    + intros H. inversion H. reflexivity.
  - destruct Hs as (msg & -> & _). intros H. discriminate H.
Qed.

Lemma fault_insensitive_GetByCode (code : string) : fault_insensitive (GetByCode code).
Proof.
  intros db found db' H. unfold GetByCode in *.
  destruct (FirstPreloaded _ db) as [[c|e] db1] eqn:E.
  - inversion H. subst. rewrite (fault_insensitive_FirstPreloaded _ _ _ _ E). reflexivity.
  - destruct e; try discriminate H. inversion H. subst.
    rewrite (FirstPreloaded_not_found _ _ _ E). reflexivity.
Qed.

Lemma fault_insensitive_Transaction (fc : M unit) :
  fault_insensitive fc -> fault_insensitive (Transaction fc).
Proof.
  intros Hfc db [] db' H. unfold Transaction in *.
  destruct (roundtrip db) as [[[]|e] db1] eqn:R1; [| discriminate H].
  rewrite (fault_insensitive_roundtrip _ _ _ R1).
  destruct (fc db1) as [[[]|e] db2] eqn:F; [| discriminate H].
  rewrite (Hfc _ _ _ F).
  destruct (roundtrip db2) as [[[]|e] db3] eqn:R2; [| discriminate H].
  rewrite (fault_insensitive_roundtrip _ _ _ R2).
  injection H as <-. reflexivity.
Qed.

Lemma fault_insensitive_RecordCouponUsage (usage : CouponUsage.t) :
  fault_insensitive (Repository.RecordCouponUsage usage).
Proof.
  unfold Repository.RecordCouponUsage. apply fault_insensitive_Transaction.
  apply fault_insensitive_bind; [apply fault_insensitive_First | intros coupon].
  apply fault_insensitive_bind.
  { destruct (String.eqb _ OneTime); [| apply fault_insensitive_ret].
    apply fault_insensitive_bind; [apply fault_insensitive_Count | intros count].
    destruct (count >? 0); [apply fault_insensitive_fail | apply fault_insensitive_ret]. }
  intros _. apply fault_insensitive_bind.
  { destruct (String.eqb _ MultiUse); [| apply fault_insensitive_ret].
    apply fault_insensitive_bind; [apply fault_insensitive_Count | intros count].
    destruct (count >=? _); [apply fault_insensitive_fail | apply fault_insensitive_ret]. }
  intros _. apply fault_insensitive_CreateUsage.
Qed.

Lemma fault_insensitive_ValidateCoupon (input : ValidateCouponInput.t) :
  fault_insensitive (ValidateCoupon input).
Proof.
  unfold ValidateCoupon.
  apply fault_insensitive_bind; [apply fault_insensitive_GetByCode | intros [coupon|]].
  2: apply fault_insensitive_ret.
  destruct (negb (Coupon.IsValid _ _ _)); [apply fault_insensitive_ret |].
  destruct (negb (isApplicableToCoupon _ _)); [apply fault_insensitive_ret |].
  apply fault_insensitive_bind; [apply fault_insensitive_Count | intros usageCount].
  destruct (_ && _); [apply fault_insensitive_ret |].
  destruct (_ && _); apply fault_insensitive_ret.
Qed.

Lemma fault_insensitive_GetApplicableCoupons (now : Time) (cartItems : list Medicine.t)
      (orderTotal : float) :
  fault_insensitive (Repository.GetApplicableCoupons now cartItems orderTotal).
Proof.
  unfold Repository.GetApplicableCoupons.
  apply fault_insensitive_bind; [apply fault_insensitive_FindPreloaded | intros coupons].
  apply fault_insensitive_ret.
Qed.

(** X1: a failure of the driver can only turn the answer of a call into
    an error, never into another answer: whenever a validation, a
    redemption, a listing or a creation returns without error, it returns
    the value, and leaves the rows, of the same call on the store whose
    round trips all succeed. *)
Theorem answers_survive_faults :
  (forall input, fault_insensitive (ValidateCoupon input))
  /\ (forall usage, fault_insensitive (Repository.RecordCouponUsage usage))
  /\ (forall now cartItems orderTotal,
         fault_insensitive (Service.GetApplicableCoupons now cartItems orderTotal))
  /\ (forall id fresh input, fault_insensitive (Service.CreateCoupon id fresh input))
  /\ (forall couponID userID, fault_insensitive (GetUserCouponUsage couponID userID)).
Proof.
  split; [exact fault_insensitive_ValidateCoupon |].
  split; [exact fault_insensitive_RecordCouponUsage |].
  split; [exact fault_insensitive_GetApplicableCoupons |].
  split.
  - intros id fresh input. apply fault_insensitive_CreateCoupon.
  - intros couponID userID. apply fault_insensitive_Count.
Qed.

End Faults.

(** ** What a lookup and a validation return *)

Section Answers.
Import Repository Service.

Lemma least_id_In (rows : list Coupon.t) (c : Coupon.t) :
  least_id rows = Some c -> In c rows.
Proof.
  revert c. induction rows as [|r rows IH]; intros c H; [discriminate H |].
  simpl in H. destruct (least_id rows) as [d|].
  - destruct (Coupon.ID d <? Coupon.ID r)%N; injection H as <-.
    + right. apply IH. reflexivity.
    + left. reflexivity.
  - injection H as <-. left. reflexivity.
Qed.

Lemma least_id_least (rows : list Coupon.t) (c : Coupon.t) :
  least_id rows = Some c -> forall d, In d rows -> (Coupon.ID c <= Coupon.ID d)%N.
Proof.
  revert c. induction rows as [|r rows IH]; intros c H d Hin; [destruct Hin |].
  simpl in H. destruct (least_id rows) as [m|] eqn:E.
  - specialize (IH m eq_refl).
    destruct (N.ltb_spec (Coupon.ID m) (Coupon.ID r)) as [Hlt|Hge]; injection H as <-.
    + destruct Hin as [<-|Hin]; [lia | apply IH; exact Hin].
    + destruct Hin as [<-|Hin]; [lia |]. specialize (IH d Hin). lia.
  - injection H as <-. destruct Hin as [<-|Hin]; [lia |].
    destruct rows as [|x xs]; [destruct Hin |].
    simpl in E. destruct (least_id xs) as [y|]; [destruct (_ <? _)%N |]; discriminate E.
Qed.

Lemma least_id_None (rows : list Coupon.t) : least_id rows = None -> rows = [].
Proof.
  destruct rows as [|r rows]; [reflexivity |]. simpl.
  destruct (least_id rows) as [d|]; [destruct (_ <? _)%N |]; discriminate.
Qed.

Lemma least_id_Some (rows : list Coupon.t) :
  rows <> [] -> exists c, least_id rows = Some c.
Proof.
  intros H. destruct (least_id rows) as [c|] eqn:E; [exists c; reflexivity |].
  apply least_id_None in E. contradiction.
Qed.

(** The answer of a lookup under any script. *)
Lemma GetByCode_answer (code : string) (db : DB) (found : option Coupon.t) :
  fst (GetByCode code db) = Ok found -> found = active_by_code db code.
Proof.
  intros H. destruct (GetByCode code db) as [r db'] eqn:E. simpl in H. subst r.
  apply fault_insensitive_GetByCode in E.
  rewrite (GetByCode_healthy _ _ (healed_healthy db)) in E.
  injection E as E _. symmetry. exact E.
Qed.

(** X2: [GetByCode] reports a code without active coupon as "no coupon"
    and never as an error; its only errors are those of the driver.  The
    coupon it returns is a row of the table that is active and carries
    exactly the code asked for, the one with the least identifier among
    such rows; it returns none only when every row with the code is
    inactive, and, on a healthy store, it finds a coupon whenever an active
    row carries the code. *)
Theorem GetByCode_lookup (code : string) (db : DB) :
  (forall e, fst (GetByCode code db) = Err e -> scripted db e)
  /\ (forall c, fst (GetByCode code db) = Ok (Some c) ->
                In c (coupons db) /\ Coupon.Code c = code /\ Coupon.IsActive c = true
                /\ forall d, In d (coupons db) -> Coupon.Code d = code ->
                             Coupon.IsActive d = true -> (Coupon.ID c <= Coupon.ID d)%N)
  /\ (fst (GetByCode code db) = Ok None ->
      forall d, In d (coupons db) -> Coupon.Code d = code -> Coupon.IsActive d = false)
  /\ (healthy db ->
      forall d, In d (coupons db) -> Coupon.Code d = code -> Coupon.IsActive d = true ->
                exists c, fst (GetByCode code db) = Ok (Some c)).
Proof.
  split; [| split; [| split]].
  - intros e He. pose proof (driver_errors_only_GetByCode code db) as H.
    destruct (GetByCode code db) as [[f|e'] db']; simpl in He; [discriminate He |].
    injection He as ->. exact H.
  - intros c Hc. apply GetByCode_answer in Hc. symmetry in Hc. unfold active_by_code in Hc.
    pose proof (least_id_In _ _ Hc) as Hin. apply filter_In in Hin.
    destruct Hin as [Hin Hm]. apply andb_true_iff in Hm. destruct Hm as [Hcode Hact].
    apply String.eqb_eq in Hcode.
    split; [exact Hin | split; [exact Hcode | split; [exact Hact |]]].
    intros d Hd Hdc Hda. apply (least_id_least _ _ Hc). apply filter_In.
    split; [exact Hd |]. rewrite Hda, andb_true_r. apply String.eqb_eq. exact Hdc.
  - intros Hn d Hd Hdc. apply GetByCode_answer in Hn. symmetry in Hn.
    unfold active_by_code in Hn. apply least_id_None in Hn.
    destruct (Coupon.IsActive d) eqn:Hda; [| reflexivity].
    assert (Hin : In d (filter (fun c => String.eqb (Coupon.Code c) code && Coupon.IsActive c)
                               (coupons db))).
    { apply filter_In. split; [exact Hd |]. rewrite Hda, andb_true_r.
      apply String.eqb_eq. exact Hdc. }
    rewrite Hn in Hin. destruct Hin.
  - intros Hh d Hd Hdc Hda. rewrite (GetByCode_healthy _ _ Hh). simpl.
    unfold active_by_code.
    destruct (least_id_Some
                (filter (fun c => String.eqb (Coupon.Code c) code && Coupon.IsActive c)
                        (coupons db))) as [c Hc].
    + intros E.
      assert (Hin : In d (filter (fun c => String.eqb (Coupon.Code c) code && Coupon.IsActive c)
                                 (coupons db))).
      { apply filter_In. split; [exact Hd |]. rewrite Hda, andb_true_r.
        apply String.eqb_eq. exact Hdc. }
      rewrite E in Hin. destruct Hin.
    + exists c. rewrite Hc. reflexivity.
Qed.

(** The answer of a validation under any script is its answer on the
    healed store. *)
Lemma ValidateCoupon_answer (input : ValidateCouponInput.t) (db : DB)
      (out : ValidateCouponOutput.t) :
  fst (ValidateCoupon input db) = Ok out ->
  fst (ValidateCoupon input (healed db)) = Ok out.
Proof.
  intros H. destruct (ValidateCoupon input db) as [r db'] eqn:E. simpl in H. subst r.
  rewrite (fault_insensitive_ValidateCoupon _ _ _ _ E). reflexivity.
Qed.

(** What an output of [ValidateCoupon] tells about the store, under any
    script. *)
Lemma ValidateCoupon_output (input : ValidateCouponInput.t) (db : DB)
        (out : ValidateCouponOutput.t) :
  fst (ValidateCoupon input db) = Ok out ->
  ValidateCouponOutput.ChargesDiscount out = 0%float
  /\ (ValidateCouponOutput.IsValid out = false ->
      ValidateCouponOutput.ItemsDiscount out = 0%float)
  /\ (ValidateCouponOutput.IsValid out = true ->
      exists c,
        In c (coupons db)
        /\ Coupon.Code c = ValidateCouponInput.Code input
        /\ Coupon.IsActive c = true
        /\ Coupon.IsValid c (ValidateCouponInput.OrderTotal input)
                          (ValidateCouponInput.Timestamp input) = true
        /\ isApplicableToCoupon c (ValidateCouponInput.CartItems input) = true
        /\ (Coupon.UsageType c = OneTime ->
            usage_count db (Coupon.ID c) (ValidateCouponInput.UserID input) = 0)
        /\ (Coupon.UsageType c = MultiUse ->
            usage_count db (Coupon.ID c) (ValidateCouponInput.UserID input)
            < Coupon.MaxUsagePerUser c)
        /\ ValidateCouponOutput.ItemsDiscount out
           = Coupon.CalculateDiscount c (ValidateCouponInput.OrderTotal input)
        /\ ValidateCouponOutput.Message out = "coupon applied successfully").
Proof.
  intros H. apply ValidateCoupon_answer in H.
  rewrite (ValidateCoupon_healthy _ _ (healed_healthy db)) in H. simpl in H.
  injection H as <-.
  change (active_by_code (healed db) (ValidateCouponInput.Code input))
    with (active_by_code db (ValidateCouponInput.Code input)).
  destruct (active_by_code db (ValidateCouponInput.Code input)) as [c|] eqn:Hc.
  2: { repeat split; try reflexivity. discriminate. }
  cbv zeta.
  change (usage_count (healed db) (Coupon.ID c) (ValidateCouponInput.UserID input))
    with (usage_count db (Coupon.ID c) (ValidateCouponInput.UserID input)).
  set (n := usage_count db (Coupon.ID c) (ValidateCouponInput.UserID input)).
  pose proof (usage_count_nonneg db (Coupon.ID c) (ValidateCouponInput.UserID input)) as Hn0.
  fold n in Hn0.
  destruct (Coupon.IsValid c _ _) eqn:Hv; simpl.
  2: { repeat split; try reflexivity. discriminate. }
  destruct (isApplicableToCoupon c _) eqn:Ha; simpl.
  2: { repeat split; try reflexivity. discriminate. }
  destruct (String.eqb_spec (Coupon.UsageType c) OneTime) as [E1|E1]; simpl.
  - destruct (Z.gtb_spec n 0) as [Hn|Hn]; simpl.
    { repeat split; try reflexivity. discriminate. }
    rewrite (one_time_not_multi_use _ E1). simpl.
    split; [reflexivity | split; [discriminate |]]. intros _. exists c.
    unfold active_by_code in Hc. pose proof (least_id_In _ _ Hc) as Hin.
    apply filter_In in Hin. destruct Hin as [Hin Hm].
    apply andb_true_iff in Hm. destruct Hm as [Hcode Hact]. apply String.eqb_eq in Hcode.
    repeat split; try assumption; try reflexivity; try lia.
    rewrite E1. discriminate.
  - destruct (String.eqb_spec (Coupon.UsageType c) MultiUse) as [E2|E2]; simpl.
    + destruct (Z.geb_spec n (Coupon.MaxUsagePerUser c)) as [Hn|Hn]; simpl.
      { repeat split; try reflexivity. discriminate. }
      split; [reflexivity | split; [discriminate |]]. intros _. exists c.
      unfold active_by_code in Hc. pose proof (least_id_In _ _ Hc) as Hin.
      apply filter_In in Hin. destruct Hin as [Hin Hm].
      apply andb_true_iff in Hm. destruct Hm as [Hcode Hact]. apply String.eqb_eq in Hcode.
      repeat split; try assumption; try reflexivity; try lia; try contradiction.
    + split; [reflexivity | split; [discriminate |]]. intros _. exists c.
      unfold active_by_code in Hc. pose proof (least_id_In _ _ Hc) as Hin.
      apply filter_In in Hin. destruct Hin as [Hin Hm].
      apply andb_true_iff in Hm. destruct Hm as [Hcode Hact]. apply String.eqb_eq in Hcode.
      repeat split; try assumption; try reflexivity; try contradiction.
Qed.

(** X3: whatever the script, an output of [ValidateCoupon] has a zero
    charges discount; a declined output has a zero items discount; an
    accepted output is earned: the table holds an active coupon with the
    code asked for that is valid for the order total at the timestamp,
    applicable to the cart and not exhausted by the user, and the items
    discount is the discount of that coupon on the order total. *)
Theorem accepted_is_earned (input : ValidateCouponInput.t) (db : DB)
        (out : ValidateCouponOutput.t) :
  fst (ValidateCoupon input db) = Ok out ->
  ValidateCouponOutput.ChargesDiscount out = 0%float
  /\ (ValidateCouponOutput.IsValid out = false ->
      ValidateCouponOutput.ItemsDiscount out = 0%float)
  /\ (ValidateCouponOutput.IsValid out = true ->
      exists c,
        In c (coupons db)
        /\ Coupon.Code c = ValidateCouponInput.Code input
        /\ Coupon.IsActive c = true
        /\ Coupon.IsValid c (ValidateCouponInput.OrderTotal input)
                          (ValidateCouponInput.Timestamp input) = true
        /\ isApplicableToCoupon c (ValidateCouponInput.CartItems input) = true
        /\ (Coupon.UsageType c = OneTime ->
            usage_count db (Coupon.ID c) (ValidateCouponInput.UserID input) = 0)
        /\ (Coupon.UsageType c = MultiUse ->
            usage_count db (Coupon.ID c) (ValidateCouponInput.UserID input)
            < Coupon.MaxUsagePerUser c)
        /\ ValidateCouponOutput.ItemsDiscount out
           = Coupon.CalculateDiscount c (ValidateCouponInput.OrderTotal input)
        /\ ValidateCouponOutput.Message out = "coupon applied successfully").
Proof.
  intros Hout. apply ValidateCoupon_output. exact Hout.
Qed.

Lemma accepted_is_earned_witness :
  exists c,
    In c [Sample.SAVE20; Sample.ONCE; Sample.HAPPYHOUR]
    /\ Coupon.Code c = "SAVE20"
    /\ Coupon.CalculateDiscount c 700 = 140%float.
Proof.
  destruct (accepted_is_earned
              (ValidateCouponInput.mk "SAVE20" [Sample.med_123] 700 Sample.alice 1200)
              (mkDB [Sample.SAVE20; Sample.ONCE; Sample.HAPPYHOUR] [] [None; None; None; None; Some "late"])
              (accepted 140) eq_refl) as (_ & _ & H).
  destruct (H eq_refl) as (c & Hin & Hcode & _ & _ & _ & _ & _ & Hd & _).
  exists c. split; [exact Hin | split; [exact Hcode |]]. symmetry. exact Hd.
Defined.

End Answers.

(** ** The ledger under sequences of redemptions *)

Section Limits.
Import Repository.

(** A redemption that returns nil under some script passed the tests it
    passes on the healed store. *)
Lemma RecordCouponUsage_passed (usage : CouponUsage.t) (db : DB) :
  fst (RecordCouponUsage usage db) = Ok tt ->
  exists coupon,
    active_by_id db (CouponUsage.CouponID usage) = Some coupon
    /\ (Coupon.UsageType coupon = OneTime ->
        usage_count db (CouponUsage.CouponID usage) (CouponUsage.UserID usage) = 0)
    /\ (Coupon.UsageType coupon = MultiUse ->
        usage_count db (CouponUsage.CouponID usage) (CouponUsage.UserID usage)
        < Coupon.MaxUsagePerUser coupon).
Proof.
  intros H. destruct (RecordCouponUsage usage db) as [r db'] eqn:E. simpl in H. subst r.
  apply fault_insensitive_RecordCouponUsage in E.
  rewrite (RecordCouponUsage_healthy _ _ (healed_healthy db)) in E.
  change (active_by_id (healed db) (CouponUsage.CouponID usage))
    with (active_by_id db (CouponUsage.CouponID usage)) in E.
  destruct (active_by_id db (CouponUsage.CouponID usage)) as [coupon|]; [| discriminate E].
  exists coupon. split; [reflexivity |]. cbv zeta in E.
  change (usage_count (healed db) (CouponUsage.CouponID usage) (CouponUsage.UserID usage))
    with (usage_count db (CouponUsage.CouponID usage) (CouponUsage.UserID usage)) in E.
  pose proof (usage_count_nonneg db (CouponUsage.CouponID usage) (CouponUsage.UserID usage)).
  split.
  - intros Hone. rewrite Hone in E. simpl in E.
    destruct (Z.gtb_spec (usage_count db (CouponUsage.CouponID usage)
                                      (CouponUsage.UserID usage)) 0);
      [discriminate E | lia].
  - intros Hmulti. rewrite (multi_use_not_one_time _ Hmulti), Hmulti in E. simpl in E.
    destruct (Z.geb_spec (usage_count db (CouponUsage.CouponID usage)
                                      (CouponUsage.UserID usage))
                         (Coupon.MaxUsagePerUser coupon));
      [discriminate E | lia].
Qed.

Lemma usage_count_app (cs : list Coupon.t) (us : list CouponUsage.t) (fs : list (option string))
      (usage : CouponUsage.t) (couponID userID : UUID) :
  usage_count (mkDB cs (us ++ [usage]) fs) couponID userID
  = usage_count (mkDB cs us fs) couponID userID
    + (if same_pair couponID userID usage then 1 else 0).
Proof.
  unfold usage_count. simpl. rewrite filter_app, length_app. simpl.
  destruct (same_pair couponID userID usage); simpl; lia.
Qed.

Lemma usage_count_tables (a b : DB) (couponID userID : UUID) :
  coupon_usages a = coupon_usages b ->
  usage_count a couponID userID = usage_count b couponID userID.
Proof. unfold usage_count. intros ->. reflexivity. Qed.

(** X4: whatever the script, a redemption that returns nil raises the
    count of its own (coupon, user) pair by one and leaves the count of
    every other pair as it was; a redemption that returns an error leaves
    every count as it was.  On a healthy store [GetUserCouponUsage] then
    reports the count of the ledger. *)
Theorem redemption_counts (usage : CouponUsage.t) (db : DB) (couponID userID : UUID) :
  let r := fst (RecordCouponUsage usage db) in
  let db' := snd (RecordCouponUsage usage db) in
  (r = Ok tt ->
   usage_count db' couponID userID
   = usage_count db couponID userID
     + (if N.eqb (CouponUsage.CouponID usage) couponID
           && N.eqb (CouponUsage.UserID usage) userID then 1 else 0))
  /\ (forall e, r = Err e -> usage_count db' couponID userID = usage_count db couponID userID)
  /\ (healthy db' ->
      fst (GetUserCouponUsage couponID userID db') = Ok (usage_count db' couponID userID)).
Proof.
  intros r db'. subst r db'.
  pose proof (RecordCouponUsage_appends usage db) as H.
  destruct (RecordCouponUsage usage db) as [[[]|e] d]; simpl.
  - destruct H as [Hc Hu]. split; [| split].
    + intros _. destruct d as [cs us fs], db as [cs0 us0 fs0]. simpl in Hc, Hu. subst cs us.
      rewrite usage_count_app. rewrite (usage_count_tables (mkDB cs0 us0 fs) (mkDB cs0 us0 fs0));
        reflexivity.
    + intros e He. discriminate He.
    + intros Hh. unfold GetUserCouponUsage. rewrite (Count_healthy _ _ Hh). reflexivity.
  - destruct H as [_ Hu]. split; [| split].
    + intros He. discriminate He.
    + intros _ _. apply usage_count_tables. exact Hu.
    + intros Hh. unfold GetUserCouponUsage. rewrite (Count_healthy _ _ Hh). reflexivity.
Qed.

Lemma unique_ids_same (db : DB) (a b : Coupon.t) :
  unique_ids db -> In a (coupons db) -> In b (coupons db) ->
  Coupon.ID a = Coupon.ID b -> a = b.
Proof.
  unfold unique_ids. induction (coupons db) as [|c cs IH]; intros Hnd Ha Hb E; [destruct Ha |].
  simpl in Hnd. inversion Hnd as [|x xs Hnotin Hnd']. subst.
  destruct Ha as [<-|Ha], Hb as [<-|Hb].
  - reflexivity.
  - exfalso. apply Hnotin. rewrite E. apply in_map. exact Hb.
  - exfalso. apply Hnotin. rewrite <- E. apply in_map. exact Ha.
  - apply IH; assumption.
Qed.

Lemma active_by_id_row (db : DB) (id : UUID) (c : Coupon.t) :
  active_by_id db id = Some c ->
  In c (coupons db) /\ Coupon.ID c = id /\ Coupon.IsActive c = true.
Proof.
  intros H. unfold active_by_id in H. apply least_id_In in H. apply filter_In in H.
  destruct H as [Hin Hm]. apply andb_true_iff in Hm. destruct Hm as [Hid Ha].
  apply N.eqb_eq in Hid. split; [exact Hin | split; assumption].
Qed.

(** One redemption keeps the ledger within the limits. *)
Lemma RecordCouponUsage_within_limits (usage : CouponUsage.t) (db : DB) :
  unique_ids db -> within_limits db ->
  within_limits (snd (RecordCouponUsage usage db))
  /\ coupons (snd (RecordCouponUsage usage db)) = coupons db.
Proof.
  intros Hu Hw.
  pose proof (RecordCouponUsage_appends usage db) as Happ.
  pose proof (RecordCouponUsage_passed usage db) as Hpass.
  destruct (RecordCouponUsage usage db) as [[[]|e] d]; simpl in *.
  - destruct Happ as [Hc Hl]. split; [| exact Hc].
    destruct (Hpass eq_refl) as (coupon & Hfound & Hone & Hmulti).
    apply active_by_id_row in Hfound. destruct Hfound as (Hin & Hid & _).
    intros c userID bound Hcin Hb. rewrite Hc in Hcin.
    specialize (Hw c userID bound Hcin Hb).
    destruct d as [cs us fs], db as [cs0 us0 fs0]. simpl in Hc, Hl. subst cs us.
    rewrite usage_count_app.
    rewrite (usage_count_tables (mkDB cs0 us0 fs) (mkDB cs0 us0 fs0)) by reflexivity.
    unfold same_pair.
    destruct (N.eqb_spec (CouponUsage.CouponID usage) (Coupon.ID c)) as [E1|E1]; simpl;
      [| lia].
    destruct (N.eqb_spec (CouponUsage.UserID usage) userID) as [E2|E2]; simpl; [| lia].
    assert (c = coupon).
    { apply (unique_ids_same (mkDB cs0 us0 fs0)); try assumption. congruence. }
    subst c. subst userID. rewrite <- E1.
    unfold usage_bound in Hb.
    destruct (String.eqb_spec (Coupon.UsageType coupon) OneTime) as [T1|T1].
    + injection Hb as <-. rewrite (Hone T1). lia.
    + destruct (String.eqb_spec (Coupon.UsageType coupon) MultiUse) as [T2|T2];
        [| discriminate Hb].
      injection Hb as <-. specialize (Hmulti T2). lia.
  - destruct Happ as [Hc Hl]. split; [| exact Hc].
    intros c userID bound Hcin Hb. rewrite Hc in Hcin.
    rewrite (usage_count_tables d db) by exact Hl. apply (Hw c userID bound Hcin Hb).
Qed.

(** X5: redemptions made one after the other never take a (coupon, user)
    pair above the limit of its coupon, whatever the script and whatever
    the redemptions ask for: one record for a one-time coupon,
    [MaxUsagePerUser] records for a multi-use coupon.  (The identifiers of
    the coupons are a primary key; the ledger starts within the limits.) *)
Theorem redemptions_respect_limits (usages : list CouponUsage.t) (db : DB) :
  unique_ids db -> within_limits db ->
  within_limits (snd (redeem_each usages db))
  /\ coupons (snd (redeem_each usages db)) = coupons db.
Proof.
  revert db. induction usages as [|u rest IH]; intros db Hu Hw.
  - split; [exact Hw | reflexivity].
  - simpl. destruct (RecordCouponUsage_within_limits u db Hu Hw) as [Hw1 Hc1].
    destruct (RecordCouponUsage u db) as [r db1]. simpl in Hw1, Hc1.
    assert (Hu1 : unique_ids db1) by (unfold unique_ids; rewrite Hc1; exact Hu).
    destruct (IH db1 Hu1 Hw1) as [Hw2 Hc2].
    destruct (redeem_each rest db1) as [rs db2]. simpl in *.
    split; [exact Hw2 | congruence].
Qed.

Lemma empty_ledger_within_limits (cs : list Coupon.t) (fs : list (option string)) :
  within_limits (mkDB cs [] fs).
Proof.
  intros c userID bound _ Hb. unfold usage_count. simpl.
  unfold usage_bound in Hb.
  destruct (String.eqb _ OneTime); [injection Hb as <-; lia |].
  destruct (String.eqb _ MultiUse); [injection Hb as <-; lia | discriminate Hb].
Qed.

Lemma redemptions_respect_limits_witness :
  within_limits
    (snd (redeem_each
            [Sample.redeem 41%N 2%N Sample.alice; Sample.redeem 42%N 2%N Sample.alice;
             Sample.redeem 43%N 1%N Sample.bob]
            (mkDB [Sample.SAVE20; Sample.ONCE; Sample.HAPPYHOUR] [] [None; Some "reset"])))
  /\ coupons
       (snd (redeem_each
               [Sample.redeem 41%N 2%N Sample.alice; Sample.redeem 42%N 2%N Sample.alice;
                Sample.redeem 43%N 1%N Sample.bob]
               (mkDB [Sample.SAVE20; Sample.ONCE; Sample.HAPPYHOUR] [] [None; Some "reset"])))
     = [Sample.SAVE20; Sample.ONCE; Sample.HAPPYHOUR].
Proof.
  apply redemptions_respect_limits.
  - unfold unique_ids. simpl.
    repeat constructor; simpl; intuition discriminate.
  - apply empty_ledger_within_limits.
Defined.

End Limits.

(** ** Redemptions by one user, one after the other *)

Section Sequential.
Import Repository Service.

(** One redemption of a limited coupon for a pair: it succeeds while the
    pair is below the limit. *)
Lemma RecordCouponUsage_limited (coupon : Coupon.t) (limit : Z) (err : error)
      (usage : CouponUsage.t) (db : DB) :
  healthy db ->
  active_by_id db (CouponUsage.CouponID usage) = Some coupon ->
  (Coupon.UsageType coupon = OneTime /\ limit = 1 /\ err = AlreadyUsed)
  \/ (Coupon.UsageType coupon = MultiUse /\ limit = Coupon.MaxUsagePerUser coupon
      /\ err = LimitExceeded) ->
  Repository.RecordCouponUsage usage db
  = if usage_count db (CouponUsage.CouponID usage) (CouponUsage.UserID usage) <? limit
    then (Ok tt, recorded db usage)
    else (Err err, db).
Proof.
  intros Hh Hc Hk. rewrite (RecordCouponUsage_healthy _ _ Hh), Hc. cbv zeta.
  set (n := usage_count db _ _).
  destruct Hk as [(Ht & -> & ->)|(Ht & -> & ->)].
  - rewrite (one_time_not_multi_use _ Ht), Ht. simpl.
    destruct (Z.gtb_spec n 0), (Z.ltb_spec n 1); try lia; reflexivity.
  - rewrite (multi_use_not_one_time _ Ht), Ht. simpl.
    destruct (Z.geb_spec n (Coupon.MaxUsagePerUser coupon)),
             (Z.ltb_spec n (Coupon.MaxUsagePerUser coupon)); try lia; reflexivity.
Qed.

Lemma sequential_redemptions_aux (coupon : Coupon.t) (limit : Z) (err : error)
      (couponID userID : UUID) (usages : list CouponUsage.t) :
  (Coupon.UsageType coupon = OneTime /\ limit = 1 /\ err = AlreadyUsed)
  \/ (Coupon.UsageType coupon = MultiUse /\ limit = Coupon.MaxUsagePerUser coupon
      /\ err = LimitExceeded) ->
  (forall u, In u usages ->
             CouponUsage.CouponID u = couponID /\ CouponUsage.UserID u = userID) ->
  forall db,
    healthy db ->
    active_by_id db couponID = Some coupon ->
    let room := Z.to_nat (limit - usage_count db couponID userID) in
    redeem_each usages db
    = (repeat (Ok tt) (Nat.min (List.length usages) room)
       ++ repeat (Err err) (List.length usages - room),
       mkDB (coupons db) (coupon_usages db ++ firstn room usages) (faults db)).
Proof.
  intros Hk. induction usages as [|u rest IH]; intros Hall db Hh Hc room.
  - simpl. rewrite firstn_nil, app_nil_r. destruct db; reflexivity.
  - destruct (Hall u (or_introl eq_refl)) as [E1 E2].
    assert (Hrest : forall u', In u' rest ->
                      CouponUsage.CouponID u' = couponID /\ CouponUsage.UserID u' = userID)
      by (intros u' Hin; apply Hall; right; exact Hin).
    cbn [redeem_each].
    rewrite (RecordCouponUsage_limited coupon limit err u db Hh) by (rewrite ?E1; assumption).
    rewrite E1, E2.
    destruct (Z.ltb_spec (usage_count db couponID userID) limit) as [Hlt|Hge].
    + assert (Hc1 : active_by_id (recorded db u) couponID = Some coupon) by exact Hc.
      specialize (IH Hrest (recorded db u) (recorded_healthy _ _ Hh) Hc1).
      cbv zeta in IH. rewrite IH.
      assert (Hn : usage_count (recorded db u) couponID userID
                   = usage_count db couponID userID + 1).
      { rewrite <- E1, <- E2. apply usage_count_recorded. }
      rewrite Hn.
      assert (Hroom : room = S (Z.to_nat (limit - (usage_count db couponID userID + 1))))
        by (unfold room; lia).
      rewrite Hroom. cbn [List.length Nat.min Nat.sub firstn repeat app recorded coupons
                            coupon_usages faults].
      rewrite <- app_assoc. reflexivity.
    + specialize (IH Hrest db Hh Hc). cbv zeta in IH. rewrite IH.
      assert (Hroom : room = 0%nat) by (unfold room; lia).
      fold room. rewrite Hroom.
      rewrite !Nat.min_0_r, Nat.sub_0_r. cbn [List.length Nat.sub firstn repeat app].
      reflexivity.
Qed.

(** X6: redemptions of one limited coupon by one user, made one after the
    other on a healthy store: with a limit of 1 for a one-time coupon and
    of [MaxUsagePerUser] for a multi-use coupon, and [n] records of the
    pair in the ledger, the first [limit - n] calls return nil and are the
    records added, and every later call fails, with [AlreadyUsed] for the
    one-time coupon and [LimitExceeded] for the multi-use coupon. *)
Theorem sequential_redemptions (coupon : Coupon.t) (limit : Z) (err : error)
        (couponID userID : UUID) (usages : list CouponUsage.t) (db : DB) :
  healthy db ->
  active_by_id db couponID = Some coupon ->
  (Coupon.UsageType coupon = OneTime /\ limit = 1 /\ err = AlreadyUsed)
  \/ (Coupon.UsageType coupon = MultiUse /\ limit = Coupon.MaxUsagePerUser coupon
      /\ err = LimitExceeded) ->
  (forall u, In u usages ->
             CouponUsage.CouponID u = couponID /\ CouponUsage.UserID u = userID) ->
  let room := Z.to_nat (limit - usage_count db couponID userID) in
  redeem_each usages db
  = (repeat (Ok tt) (Nat.min (List.length usages) room)
     ++ repeat (Err err) (List.length usages - room),
     mkDB (coupons db) (coupon_usages db ++ firstn room usages) (faults db)).
Proof.
  intros Hh Hc Hk Hall.
  exact (sequential_redemptions_aux coupon limit err couponID userID usages Hk Hall db Hh Hc).
Qed.

Lemma sequential_redemptions_witness :
  redeem_each
    [Sample.redeem 61%N 1%N Sample.bob; Sample.redeem 62%N 1%N Sample.bob;
     Sample.redeem 63%N 1%N Sample.bob]
    (mkDB [Sample.SAVE20]
          [Sample.redeem 51%N 1%N Sample.bob; Sample.redeem 52%N 1%N Sample.bob;
           Sample.redeem 53%N 1%N Sample.bob] [])
  = ([Ok tt; Ok tt; Err LimitExceeded],
     mkDB [Sample.SAVE20]
          [Sample.redeem 51%N 1%N Sample.bob; Sample.redeem 52%N 1%N Sample.bob;
           Sample.redeem 53%N 1%N Sample.bob;
           Sample.redeem 61%N 1%N Sample.bob; Sample.redeem 62%N 1%N Sample.bob] []).
Proof.
  apply (sequential_redemptions Sample.SAVE20 5 LimitExceeded 1%N Sample.bob).
  - reflexivity.
  - reflexivity.
  - right. repeat split; reflexivity.
  - intros u [<-|[<-|[<-|[]]]]; split; reflexivity.
Defined.

Lemma active_by_id_unique (db : DB) (c : Coupon.t) :
  unique_ids db -> In c (coupons db) -> Coupon.IsActive c = true ->
  active_by_id db (Coupon.ID c) = Some c.
Proof.
  intros Hu Hin Ha. unfold active_by_id.
  set (rows := filter _ (coupons db)).
  assert (Hc : In c rows).
  { apply filter_In. split; [exact Hin |]. rewrite N.eqb_refl, Ha. reflexivity. }
  destruct (least_id rows) as [d|] eqn:E.
  - f_equal. apply least_id_In in E. apply filter_In in E. destruct E as [Hd Hm].
    apply andb_true_iff in Hm. destruct Hm as [Hid _]. apply N.eqb_eq in Hid.
    apply (unique_ids_same db); assumption.
  - apply least_id_None in E. rewrite E in Hc. destruct Hc.
Qed.

Lemma active_by_code_row (db : DB) (code : string) (c : Coupon.t) :
  active_by_code db code = Some c ->
  In c (coupons db) /\ Coupon.Code c = code /\ Coupon.IsActive c = true.
Proof.
  intros H. unfold active_by_code in H. apply least_id_In in H. apply filter_In in H.
  destruct H as [Hin Hm]. apply andb_true_iff in Hm. destruct Hm as [Hcode Ha].
  apply String.eqb_eq in Hcode. split; [exact Hin | split; assumption].
Qed.

(** X7: on a healthy store whose coupon identifiers are a primary key, the
    usage verdict of a validation is the verdict of the redemption of the
    coupon it found by the same user: after "one-time coupon already used"
    the redemption fails with [AlreadyUsed], after "coupon usage limit
    exceeded" it fails with [LimitExceeded], and after an accepted
    validation it returns nil. *)
Theorem validation_predicts_redemption (input : ValidateCouponInput.t) (db : DB)
        (coupon : Coupon.t) (usage : CouponUsage.t) :
  healthy db -> unique_ids db ->
  active_by_code db (ValidateCouponInput.Code input) = Some coupon ->
  CouponUsage.CouponID usage = Coupon.ID coupon ->
  CouponUsage.UserID usage = ValidateCouponInput.UserID input ->
  let v := fst (ValidateCoupon input db) in
  let r := fst (Repository.RecordCouponUsage usage db) in
  (v = Ok already_used -> r = Err AlreadyUsed)
  /\ (v = Ok limit_exceeded -> r = Err LimitExceeded)
  /\ (forall discount, v = Ok (accepted discount) -> r = Ok tt).
Proof.
  intros Hh Hu Hc E1 E2 v r. subst v r.
  destruct (active_by_code_row _ _ _ Hc) as (Hin & _ & Ha).
  rewrite (ValidateCoupon_healthy _ _ Hh), Hc.
  rewrite (RecordCouponUsage_healthy _ _ Hh), E1, E2, (active_by_id_unique _ _ Hu Hin Ha).
  cbv zeta. simpl.
  set (n := usage_count db (Coupon.ID coupon) (ValidateCouponInput.UserID input)).
  destruct (negb (Coupon.IsValid _ _ _)).
  { repeat split; intros; discriminate. }
  destruct (negb (isApplicableToCoupon _ _)).
  { repeat split; intros; discriminate. }
  destruct (String.eqb (Coupon.UsageType coupon) OneTime && (n >? 0)).
  { repeat split; intros; try reflexivity; discriminate. }
  destruct (String.eqb (Coupon.UsageType coupon) MultiUse
            && (n >=? Coupon.MaxUsagePerUser coupon)).
  { repeat split; intros; try reflexivity; discriminate. }
  repeat split; intros; try reflexivity; discriminate.
Qed.

Lemma validation_predicts_redemption_witness :
  fst (Repository.RecordCouponUsage (Sample.redeem 42%N 2%N Sample.alice)
         (mkDB [Sample.SAVE20; Sample.ONCE] [Sample.redeem 41%N 2%N Sample.alice] []))
  = Err AlreadyUsed.
Proof.
  destruct (validation_predicts_redemption
              (ValidateCouponInput.mk "ONCE" [] 700 Sample.alice 1200)
              (mkDB [Sample.SAVE20; Sample.ONCE] [Sample.redeem 41%N 2%N Sample.alice] [])
              Sample.ONCE (Sample.redeem 42%N 2%N Sample.alice)) as (H & _ & _).
  - reflexivity.
  - unfold unique_ids. simpl. repeat constructor; simpl; intuition discriminate.
  - reflexivity.
  - reflexivity.
  - reflexivity.
  - apply H. reflexivity.
Defined.

End Sequential.

(** ** Validation after a redemption *)

Section Lifecycle.
Import Repository Service.

Lemma usage_count_recorded_other (db : DB) (usage : CouponUsage.t) (couponID userID : UUID) :
  CouponUsage.UserID usage <> userID ->
  usage_count (recorded db usage) couponID userID = usage_count db couponID userID.
Proof.
  intros Hne. destruct db as [cs us fs]. unfold recorded. simpl.
  rewrite usage_count_app. unfold same_pair.
  destruct (N.eqb_spec (CouponUsage.UserID usage) userID) as [E|_]; [contradiction |].
  rewrite andb_false_r. lia.
Qed.

(** X8: on a healthy store whose coupon identifiers are a primary key,
    once a user has redeemed a one-time coupon that a validation accepts,
    the same validation is declined with "one-time coupon already used",
    and the validations of every other user return what they returned
    before the redemption. *)
Theorem redeemed_one_time_is_declined (input : ValidateCouponInput.t) (db : DB)
        (coupon : Coupon.t) (usage : CouponUsage.t) :
  healthy db -> unique_ids db ->
  active_by_code db (ValidateCouponInput.Code input) = Some coupon ->
  Coupon.UsageType coupon = OneTime ->
  CouponUsage.CouponID usage = Coupon.ID coupon ->
  CouponUsage.UserID usage = ValidateCouponInput.UserID input ->
  (exists discount, fst (ValidateCoupon input db) = Ok (accepted discount)) ->
  let db' := snd (Repository.RecordCouponUsage usage db) in
  fst (Repository.RecordCouponUsage usage db) = Ok tt
  /\ fst (ValidateCoupon input db') = Ok already_used
  /\ (forall other, ValidateCouponInput.UserID other <> CouponUsage.UserID usage ->
                    fst (ValidateCoupon other db') = fst (ValidateCoupon other db)).
Proof.
  intros Hh Hu Hc Hone E1 E2 [discount Hv] db'. subst db'.
  destruct (active_by_code_row _ _ _ Hc) as (Hin & _ & Ha).
  pose proof (active_by_id_unique _ _ Hu Hin Ha) as Hid.
  rewrite (ValidateCoupon_healthy _ _ Hh), Hc in Hv. cbv zeta in Hv. simpl in Hv.
  destruct (Coupon.IsValid coupon _ _) eqn:Hval; simpl in Hv; [| discriminate Hv].
  destruct (isApplicableToCoupon coupon _) eqn:Happ; simpl in Hv; [| discriminate Hv].
  rewrite Hone in Hv. simpl in Hv.
  destruct (Z.gtb_spec (usage_count db (Coupon.ID coupon) (ValidateCouponInput.UserID input)) 0)
    as [Hn|Hn]; [discriminate Hv |].
  pose proof (usage_count_nonneg db (Coupon.ID coupon) (ValidateCouponInput.UserID input)) as H0.
  rewrite (RecordCouponUsage_limited coupon 1 AlreadyUsed usage db Hh)
    by (first [rewrite E1; exact Hid | left; repeat split; assumption]).
  rewrite E1, E2.
  destruct (Z.ltb_spec (usage_count db (Coupon.ID coupon) (ValidateCouponInput.UserID input)) 1)
    as [_|Hge]; [| lia].
  simpl. split; [reflexivity | split].
  - rewrite (ValidateCoupon_healthy _ _ (recorded_healthy _ _ Hh)).
    change (active_by_code (recorded db usage) (ValidateCouponInput.Code input))
      with (active_by_code db (ValidateCouponInput.Code input)).
    rewrite Hc. cbv zeta. simpl. rewrite Hval, Happ, Hone. simpl.
    rewrite <- E1, <- E2, usage_count_recorded.
    destruct (Z.gtb_spec (usage_count db (CouponUsage.CouponID usage)
                                      (CouponUsage.UserID usage) + 1) 0) as [_|Hle].
    + reflexivity.
    + rewrite E1, E2 in Hle. lia.
  - intros other Hne.
    rewrite (ValidateCoupon_healthy _ _ (recorded_healthy _ _ Hh)),
            (ValidateCoupon_healthy _ _ Hh).
    change (active_by_code (recorded db usage) (ValidateCouponInput.Code other))
      with (active_by_code db (ValidateCouponInput.Code other)).
    destruct (active_by_code db (ValidateCouponInput.Code other)) as [c2|]; [| reflexivity].
    cbv zeta. rewrite usage_count_recorded_other by (intros E; apply Hne; rewrite <- E2; symmetry; exact E).
    reflexivity.
Qed.

Lemma redeemed_one_time_is_declined_witness :
  fst (ValidateCoupon (ValidateCouponInput.mk "ONCE" [] 700 Sample.alice 1200)
         (snd (Repository.RecordCouponUsage (Sample.redeem 41%N 2%N Sample.alice)
                 (mkDB [Sample.SAVE20; Sample.ONCE] [] []))))
  = Ok already_used.
Proof.
  destruct (redeemed_one_time_is_declined
              (ValidateCouponInput.mk "ONCE" [] 700 Sample.alice 1200)
              (mkDB [Sample.SAVE20; Sample.ONCE] [] [])
              Sample.ONCE (Sample.redeem 41%N 2%N Sample.alice)) as (_ & H & _).
  - reflexivity.
  - unfold unique_ids. simpl. repeat constructor; simpl; intuition discriminate.
  - reflexivity.
  - reflexivity.
  - reflexivity.
  - reflexivity.
  - exists 50%float. reflexivity.
  - exact H.
Defined.

End Lifecycle.

(** ** The listing and the validation *)

Section ListingAndValidation.
Import Repository Service.

(** Selecting rows keeps the identifiers distinct. *)
Lemma selected_ids_distinct (keep : Coupon.t -> bool) (rows : list Coupon.t) :
  NoDup (map Coupon.ID rows) -> NoDup (map Coupon.ID (filter keep rows)).
Proof.
  intros Hrows. induction rows as [|row rows IH]; [exact Hrows |].
  apply NoDup_cons_iff in Hrows. destruct Hrows as [Hfresh Hrest].
  cbn [filter]. destruct (keep row); [| exact (IH Hrest)].
  cbn [map]. apply NoDup_cons_iff. split; [| exact (IH Hrest)].
  intros Hin. apply Hfresh. apply in_map_iff in Hin.
  destruct Hin as (other & Hid & Hother). apply filter_In in Hother.
  rewrite <- Hid. apply in_map. exact (proj1 Hother).
Qed.

Lemma GetApplicableCoupons_answer (now : Time) (cartItems : list Medicine.t)
      (orderTotal : float) (db : DB) (listed : list Coupon.t) :
  fst (Repository.GetApplicableCoupons now cartItems orderTotal db) = Ok listed ->
  listed = filter (fun c => Repository.isApplicableToCoupon c cartItems)
                  (filter (candidate now orderTotal) (coupons db)).
Proof.
  intros H.
  destruct (Repository.GetApplicableCoupons now cartItems orderTotal db) as [r db'] eqn:E.
  simpl in H. subst r. apply fault_insensitive_GetApplicableCoupons in E.
  rewrite (GetApplicableCoupons_healthy _ _ _ _ (healed_healthy db)) in E.
  injection E as E _. symmetry. exact E.
Qed.

(** X9: whatever the script, a listing that returns without error holds
    exactly the rows of the coupons table that are active, expire after
    the instant of the call, ask for a minimum order value within the order
    total and are accepted by the matcher; it holds no coupon twice when
    the identifiers are a primary key, and the call leaves both tables as
    they were. *)
Theorem listing_under_any_script (now : Time) (cartItems : list Medicine.t)
        (orderTotal : float) (db : DB) (listed : list Coupon.t) :
  fst (Service.GetApplicableCoupons now cartItems orderTotal db) = Ok listed ->
  (forall c, In c listed <->
             In c (coupons db)
             /\ Coupon.IsActive c = true
             /\ now < Coupon.ExpiryDate c
             /\ float8_le (Coupon.MinOrderValue c) orderTotal = true
             /\ Repository.isApplicableToCoupon c cartItems = true)
  /\ (unique_ids db -> NoDup (map Coupon.ID listed))
  /\ same_tables (snd (Service.GetApplicableCoupons now cartItems orderTotal db)) db.
Proof.
  unfold Service.GetApplicableCoupons. intros H.
  apply GetApplicableCoupons_answer in H. subst listed.
  split; [| split].
  - intros c. rewrite filter_In, filter_In. unfold candidate.
    rewrite !andb_true_iff, Z.ltb_lt. tauto.
  - intros Hu. apply selected_ids_distinct, selected_ids_distinct. exact Hu.
  - unfold Repository.GetApplicableCoupons.
    apply read_only_bind; [apply read_only_FindPreloaded | intros cs; apply read_only_ret].
Qed.

Lemma listing_under_any_script_witness :
  (In Sample.HAPPYHOUR [Sample.SAVE20; Sample.ONCE] <->
   In Sample.HAPPYHOUR (coupons (mkDB [Sample.SAVE20; Sample.ONCE; Sample.HAPPYHOUR] [] [None]))
   /\ Coupon.IsActive Sample.HAPPYHOUR = true
   /\ 1200 < Coupon.ExpiryDate Sample.HAPPYHOUR
   /\ float8_le (Coupon.MinOrderValue Sample.HAPPYHOUR) 700 = true
   /\ Repository.isApplicableToCoupon Sample.HAPPYHOUR [Sample.med_456] = true)
  /\ same_tables
       (snd (Service.GetApplicableCoupons 1200 [Sample.med_456] 700
               (mkDB [Sample.SAVE20; Sample.ONCE; Sample.HAPPYHOUR] [] [None])))
       (mkDB [Sample.SAVE20; Sample.ONCE; Sample.HAPPYHOUR] [] [None]).
Proof.
  destruct (listing_under_any_script 1200 [Sample.med_456] 700
              (mkDB [Sample.SAVE20; Sample.ONCE; Sample.HAPPYHOUR] [] [None])
              [Sample.SAVE20; Sample.ONCE] eq_refl) as (H1 & _ & H3).
  split; [apply H1 | exact H3].
Defined.

(** X10: the listing does not look at the time window.  On a healthy
    store, a coupon that passes the tests of the listing while the instant
    of the call is outside its window is listed, although [IsValid] rejects
    it at that instant for every order total and a validation of its code
    at that instant is declined as not valid. *)
Theorem listing_ignores_time_window (now : Time) (cartItems : list Medicine.t)
        (orderTotal : float) (db : DB) (c : Coupon.t) (w : TimeWindow.t) :
  healthy db ->
  In c (coupons db) ->
  candidate now orderTotal c = true ->
  Repository.isApplicableToCoupon c cartItems = true ->
  Coupon.ValidTimeWindow c = Some w ->
  now < TimeWindow.StartTime w \/ TimeWindow.EndTime w < now ->
  (exists listed,
      fst (Service.GetApplicableCoupons now cartItems orderTotal db) = Ok listed
      /\ In c listed)
  /\ (forall total, Coupon.IsValid c total now = false)
  /\ (active_by_code db (Coupon.Code c) = Some c ->
      forall userID,
        fst (ValidateCoupon
               (ValidateCouponInput.mk (Coupon.Code c) cartItems orderTotal userID now) db)
        = Ok invalid).
Proof.
  intros Hh Hin Hcand Happ Hw Hout.
  assert (Hinv : forall total, Coupon.IsValid c total now = false).
  { intros total. destruct (Coupon.IsValid c total now) eqn:E; [| reflexivity].
    apply IsValid_tested in E. destruct E as (_ & _ & _ & Hwin).
    specialize (Hwin w Hw). lia. }
  split; [| split].
  - eexists. split.
    + unfold Service.GetApplicableCoupons.
      rewrite (GetApplicableCoupons_healthy _ _ _ _ Hh). reflexivity.
    + apply filter_In. split; [| exact Happ]. apply filter_In. split; assumption.
  - exact Hinv.
  - intros Hc userID. rewrite (ValidateCoupon_healthy _ _ Hh). simpl. rewrite Hc.
    cbv zeta. rewrite Hinv. reflexivity.
Qed.

Lemma listing_ignores_time_window_witness :
  (exists listed,
      fst (Service.GetApplicableCoupons 1600 [Sample.med_123] 300 Sample.store) = Ok listed
      /\ In Sample.HAPPYHOUR listed)
  /\ fst (ValidateCoupon
            (ValidateCouponInput.mk "HAPPYHOUR" [Sample.med_123] 300 Sample.alice 1600)
            Sample.store)
     = Ok invalid.
Proof.
  destruct (listing_ignores_time_window 1600 [Sample.med_123] 300 Sample.store
              Sample.HAPPYHOUR (TimeWindow.mk 1000 1500)) as (H1 & _ & H3).
  - reflexivity.
  - right. right. left. reflexivity.
  - reflexivity.
  - reflexivity.
  - reflexivity.
  - right. simpl. lia.
  - split; [exact H1 | apply (H3 eq_refl Sample.alice)].
Defined.

(** X11: a coupon that a validation accepts is in the listing made at the
    same instant for the same cart and order total, unless that instant is
    the very expiry instant of the coupon.  (Healthy store; neither the
    order total nor a minimum order value is NaN.) *)
Theorem accepted_is_listed (input : ValidateCouponInput.t) (db : DB)
        (out : ValidateCouponOutput.t) :
  healthy db ->
  fst (ValidateCoupon input db) = Ok out ->
  ValidateCouponOutput.IsValid out = true ->
  is_nan (ValidateCouponInput.OrderTotal input) = false ->
  (forall c, In c (coupons db) ->
             is_nan (Coupon.MinOrderValue c) = false
             /\ Coupon.ExpiryDate c <> ValidateCouponInput.Timestamp input) ->
  exists listed c,
    fst (Service.GetApplicableCoupons (ValidateCouponInput.Timestamp input)
           (ValidateCouponInput.CartItems input)
           (ValidateCouponInput.OrderTotal input) db) = Ok listed
    /\ In c listed
    /\ Coupon.Code c = ValidateCouponInput.Code input
    /\ ValidateCouponOutput.ItemsDiscount out
       = Coupon.CalculateDiscount c (ValidateCouponInput.OrderTotal input).
Proof.
  intros Hh Hout Hacc Hnan Hrows.
  destruct (ValidateCoupon_output input db out Hout) as (_ & _ & H).
  destruct (H Hacc) as (c & Hin & Hcode & Hact & Hval & Happ & _ & _ & Hd & _).
  destruct (Hrows c Hin) as [Hmin Hexp].
  apply IsValid_tested in Hval. destruct Hval as (_ & Hle & Hlt & _).
  eexists. exists c. split; [| split; [| split; [exact Hcode | exact Hd]]].
  - unfold Service.GetApplicableCoupons.
    rewrite (GetApplicableCoupons_healthy _ _ _ _ Hh). reflexivity.
  - apply filter_In. split; [| rewrite isApplicableToCoupon_copies; exact Happ].
    apply filter_In. split; [exact Hin |]. unfold candidate.
    rewrite Hact. simpl. apply andb_true_iff. split.
    + apply Z.ltb_lt. lia.
    + unfold float8_le. rewrite Hmin, Hnan.
      rewrite (ltb_negb_leb _ _ Hnan Hmin) in Hlt.
      destruct (Coupon.MinOrderValue c <=? ValidateCouponInput.OrderTotal input)%float;
        [reflexivity | discriminate Hlt].
Qed.

Lemma accepted_is_listed_witness :
  exists listed c,
    fst (Service.GetApplicableCoupons 1200 [Sample.med_123] 700 Sample.store) = Ok listed
    /\ In c listed
    /\ Coupon.Code c = "SAVE20"
    /\ 140%float = Coupon.CalculateDiscount c 700.
Proof.
  apply (accepted_is_listed
           (ValidateCouponInput.mk "SAVE20" [Sample.med_123] 700 Sample.alice 1200)
           Sample.store (accepted 140)).
  - reflexivity.
  - reflexivity.
  - reflexivity.
  - reflexivity.
  - intros c [<-|[<-|[<-|[]]]]; split; (reflexivity || (simpl; lia)).
Defined.

End ListingAndValidation.

(** ** Creating a coupon *)

Section Creation.
Import Repository Service.


Lemma read_only_SaveAssociation (related : nat) : read_only (SaveAssociation related).
Proof.
  unfold SaveAssociation. destruct (related =? 0)%nat; [apply read_only_ret |].
  apply read_only_bind; [exact read_only_roundtrip | intros _; exact read_only_roundtrip].
Qed.

Lemma driver_errors_only_SaveAssociation (related : nat) :
  driver_errors_only (SaveAssociation related).
Proof.
  unfold SaveAssociation. destruct (related =? 0)%nat; [apply driver_errors_only_ret |].
  apply driver_errors_only_bind; [exact roundtrip_script | intros _; exact roundtrip_script].
Qed.


Lemma stores_bind {A} (c : Coupon.t) (m : M A) (k : A -> M Coupon.t) :
  read_only m -> driver_errors_only m -> (forall a, stores c (k a)) ->
  stores c (bind m k).
Proof.
  intros Hr He Hk db. unfold bind. specialize (Hr db). specialize (He db).
  destruct (m db) as [[a|e] db1]; simpl in Hr; [| split; assumption].
  destruct He as [skipped E]. destruct Hr as [Hc Hu]. specialize (Hk a db1).
  destruct (k a db1) as [[c'|e] db2].
  - destruct Hk as (Hret & Hc2 & Hu2). rewrite Hc in Hc2. rewrite Hu in Hu2.
    split; [exact Hret | split; [exact Hc2 | exact Hu2]].
  - destruct Hk as [[Hc2 Hu2] Hs]. split.
    + split; [rewrite Hc2; exact Hc | rewrite Hu2; exact Hu].
    + exact (scripted_later _ _ _ _ E Hs).
Qed.

(** What [db.Create] does to the tables, under any script. *)
Lemma stores_CreateCoupon (fresh : UUID) (coupon : Coupon.t) :
  stores (with_defaults (Coupon.BeforeCreate fresh coupon))
         (Repository.CreateCoupon fresh coupon).
Proof.
  unfold Repository.CreateCoupon. cbv zeta.
  apply stores_bind; [exact read_only_roundtrip | exact roundtrip_script | intros _].
  apply stores_bind; [exact read_only_roundtrip | exact roundtrip_script | intros _].
  apply stores_bind;
    [apply read_only_SaveAssociation | apply driver_errors_only_SaveAssociation | intros _].
  apply stores_bind;
    [apply read_only_SaveAssociation | apply driver_errors_only_SaveAssociation | intros _].
  apply stores_bind; [exact read_only_roundtrip | exact roundtrip_script | intros _].
  intros db. split; [reflexivity | split; reflexivity].
Qed.


(** The coupon the service builds and hands to [Create]. *)
Lemma CreateCoupon_struct (id fresh : UUID) (input : CreateCouponInput.t) (db : DB)
      (coupon : Coupon.t) :
  fst (CreateCoupon id fresh input db) = Ok coupon ->
  Coupon.IsActive coupon = true
  /\ Coupon.Code coupon = CreateCouponInput.Code input
  /\ Coupon.ID coupon = (if N.eqb id 0 then fresh else id)
  /\ Coupon.UsageType coupon = CreateCouponInput.UsageType input
  /\ Coupon.DiscountType coupon = CreateCouponInput.DiscountType input
  /\ Coupon.DiscountValue coupon = CreateCouponInput.DiscountValue input
  /\ Coupon.MinOrderValue coupon = CreateCouponInput.MinOrderValue input
  /\ Coupon.MaxUsagePerUser coupon = CreateCouponInput.MaxUsagePerUser input
  /\ Coupon.ApplicableMedicines coupon = CreateCouponInput.ApplicableMedicines input
  /\ Coupon.ApplicableCategories coupon = CreateCouponInput.ApplicableCategories input.
Proof.
  unfold CreateCoupon, Repository.Create.
  match goal with
  | |- context [Repository.CreateCoupon fresh ?c db] =>
      pose proof (stores_CreateCoupon fresh c db) as H;
      destruct (Repository.CreateCoupon fresh c db) as [[c'|e] d]
  end; [| discriminate].
  destruct H as (-> & _). intros E. simpl in E. injection E as <-.
  unfold with_defaults, Coupon.BeforeCreate. simpl.
  destruct (N.eqb id 0); simpl; repeat split; reflexivity.
Qed.

(** Creating a coupon never touches the ledger and adds at most one row,
    the row made of the coupon returned. *)
Lemma CreateCoupon_effect (id fresh : UUID) (input : CreateCouponInput.t) (db : DB) :
  match CreateCoupon id fresh input db with
  | (Ok coupon, db') =>
      coupons db' = coupons db ++ [stored_row (coupons db) coupon]
      /\ coupon_usages db' = coupon_usages db
      /\ Coupon.IsActive coupon = true
      /\ Coupon.Code coupon = CreateCouponInput.Code input
  | (Err e, db') => same_tables db' db /\ scripted db e
  end.
Proof.
  pose proof (CreateCoupon_struct id fresh input db) as Hs.
  unfold CreateCoupon, Repository.Create in *.
  match goal with
  | |- context [Repository.CreateCoupon fresh ?c db] =>
      pose proof (stores_CreateCoupon fresh c db) as H;
      destruct (Repository.CreateCoupon fresh c db) as [[c'|e] d]
  end; [| exact H].
  destruct (Hs c' eq_refl) as (Ha & Hc & _).
  destruct H as (E & Hrows & Hu). rewrite <- E in Hrows.
  split; [exact Hrows | split; [exact Hu | split; [exact Ha | exact Hc]]].
Qed.

Section Relations.
Context {X : Type} (id : X -> UUID).






End Relations.




(** The row read back need not be the coupon returned: the medicine stored
    under an identifier of the request stays as it was, and the expiry
    date is cut to the microsecond. *)
Example created_coupon_read_back :
  let created := CreateCoupon 0%N 9%N relabelled_input pharmacy in
  option_map Coupon.ApplicableMedicines
    (match fst created with Ok c => Some c | Err _ => None end)
  = Some [Medicine.mk 123%N "Aspirin" "painkiller" 4%float]
  /\ option_map Coupon.ExpiryDate
       (match fst created with Ok c => Some c | Err _ => None end)
     = Some 2500
  /\ (match fst (GetByCode "FLU10" (snd created)) with
      | Ok (Some row) => Some (Coupon.ApplicableMedicines row, Coupon.ExpiryDate row)
      | _ => None
      end)
     = Some ([Medicine.mk 123%N "Paracetamol" "fever" 2%float], 2000).
Proof. repeat split; vm_compute; reflexivity. Qed.

(** The matcher does not depend on the order of the relations. *)
Lemma existsb_order {A} (p : A -> bool) (l l' : list A) :
  Permutation l l' -> existsb p l = existsb p l'.
Proof.
  induction 1; simpl; [reflexivity | congruence | | congruence].
  destruct (p x), (p y); reflexivity.
Qed.

Lemma isApplicableToCoupon_order (c c' : Coupon.t) (cartItems : list Medicine.t) :
  Permutation (Coupon.ApplicableMedicines c) (Coupon.ApplicableMedicines c') ->
  Permutation (Coupon.ApplicableCategories c) (Coupon.ApplicableCategories c') ->
  isApplicableToCoupon c cartItems = isApplicableToCoupon c' cartItems.
Proof.
  intros Hm Hc. unfold isApplicableToCoupon.
  rewrite (Permutation_length Hm), (Permutation_length Hc).
  destruct (_ && _); [reflexivity |].
  induction cartItems as [|item rest IH]; [reflexivity |]. simpl.
  rewrite IH, (existsb_order _ _ _ Hm), (existsb_order _ _ _ Hc). reflexivity.
Qed.

End Creation.

(** ** The matcher and the cart; the validity predicate and time *)

Section CartAndTime.
Import Service.

Lemma applicable_app (coupon : Coupon.t) (xs ys : list Medicine.t) :
  isApplicableToCoupon coupon (xs ++ ys)
  = isApplicableToCoupon coupon xs || isApplicableToCoupon coupon ys.
Proof.
  unfold isApplicableToCoupon.
  destruct (_ && _); [reflexivity |]. apply existsb_app.
Qed.

(** X13: the matcher looks at the items of the cart one by one.  A cart
    made of two carts is accepted exactly when one of the two is; a cart
    that contains every item of an accepted cart is accepted; and an
    accepted cart of a restricted coupon contains an item that is accepted
    alone. *)
Theorem matcher_on_carts (coupon : Coupon.t) (xs ys : list Medicine.t) :
  isApplicableToCoupon coupon (xs ++ ys)
  = isApplicableToCoupon coupon xs || isApplicableToCoupon coupon ys
  /\ ((forall item, In item xs -> In item ys) ->
      isApplicableToCoupon coupon xs = true -> isApplicableToCoupon coupon ys = true)
  /\ (isApplicableToCoupon coupon xs = true ->
      unrestricted coupon
      \/ exists item, In item xs /\ isApplicableToCoupon coupon [item] = true).
Proof.
  split; [apply applicable_app | split].
  - intros Hincl.
    destruct (Coupon.ApplicableMedicines coupon) as [|m ms] eqn:Em;
      [destruct (Coupon.ApplicableCategories coupon) as [|k ks] eqn:Ek |].
    + intros _. apply unrestricted_applicable. split; assumption.
    + assert (Hr : ~ unrestricted coupon) by (intros [_ H]; congruence).
      rewrite !(restricted_applicable_iff _ _ Hr).
      intros (item & Hin & H). exists item. split; [apply Hincl; exact Hin | exact H].
    + assert (Hr : ~ unrestricted coupon) by (intros [H _]; congruence).
      rewrite !(restricted_applicable_iff _ _ Hr).
      intros (item & Hin & H). exists item. split; [apply Hincl; exact Hin | exact H].
  - intros Ha.
    destruct (Coupon.ApplicableMedicines coupon) as [|m ms] eqn:Em;
      [destruct (Coupon.ApplicableCategories coupon) as [|k ks] eqn:Ek |].
    + left. split; assumption.
    + right. assert (Hr : ~ unrestricted coupon) by (intros [_ H]; congruence).
      apply (restricted_applicable_iff _ _ Hr) in Ha. destruct Ha as (item & Hin & H).
      exists item. split; [exact Hin |]. apply (restricted_applicable_iff _ _ Hr).
      exists item. split; [left; reflexivity | exact H].
    + right. assert (Hr : ~ unrestricted coupon) by (intros [H _]; congruence).
      apply (restricted_applicable_iff _ _ Hr) in Ha. destruct Ha as (item & Hin & H).
      exists item. split; [exact Hin |]. apply (restricted_applicable_iff _ _ Hr).
      exists item. split; [left; reflexivity | exact H].
Qed.

(** X14: for a coupon and an order total, the instants at which [IsValid]
    holds form an interval: valid at two instants, the coupon is valid at
    every instant between them.  A coupon whose window ends before it
    starts, or starts after the expiry date, is valid at no instant and for
    no order total. *)
Theorem IsValid_in_time (c : Coupon.t) (orderTotal : float) (t1 t2 t3 : Time) :
  (Coupon.IsValid c orderTotal t1 = true -> Coupon.IsValid c orderTotal t3 = true ->
   t1 <= t2 <= t3 -> Coupon.IsValid c orderTotal t2 = true)
  /\ (forall w, Coupon.ValidTimeWindow c = Some w ->
                TimeWindow.EndTime w < TimeWindow.StartTime w
                \/ Coupon.ExpiryDate c < TimeWindow.StartTime w ->
                forall total now, Coupon.IsValid c total now = false).
Proof.
  split.
  - rewrite !IsValid_tested. unfold valid_as_tested, within_window.
    intros (Ha & He1 & Hm & Hw1) (_ & He3 & _ & Hw3) Hb.
    split; [exact Ha | split; [lia | split; [exact Hm |]]].
    intros w Hw. specialize (Hw1 w Hw). specialize (Hw3 w Hw). lia.
  - intros w Hw Hbad total now.
    destruct (Coupon.IsValid c total now) eqn:E; [| reflexivity].
    apply IsValid_tested in E. destruct E as (_ & He & _ & Hwin).
    specialize (Hwin w Hw). lia.
Qed.

End CartAndTime.

(** ** The handlers and the routes *)

Section Handlers.
Import Repository.

Lemma read_only_GetApplicableCoupons (now : Time) (cartItems : list Medicine.t)
      (orderTotal : float) :
  read_only (Repository.GetApplicableCoupons now cartItems orderTotal).
Proof.
  unfold Repository.GetApplicableCoupons.
  apply read_only_bind; [apply read_only_FindPreloaded | intros cs; apply read_only_ret].
Qed.

Lemma driver_errors_only_GetApplicableCoupons (now : Time) (cartItems : list Medicine.t)
      (orderTotal : float) :
  driver_errors_only (Repository.GetApplicableCoupons now cartItems orderTotal).
Proof.
  unfold Repository.GetApplicableCoupons.
  apply driver_errors_only_bind;
    [apply driver_errors_only_FindPreloaded | intros cs; apply driver_errors_only_ret].
Qed.

(** X15: the handler of a validation.  A body that does not bind is
    answered 400, a request without [user_id] in its context 401, both
    without a round trip to the store; a [user_id] that is not a UUID makes
    the handler panic.  With a UUID, every output of the service, declined
    or accepted, is answered 200 with that output; only an error of the
    driver is answered 500, with its message; so a healthy store always
    answers 200.  The tables are never changed. *)
Theorem ValidateCoupon_handler (keys : Api.Keys) (now : Time)
        (bind : Api.bound Api.ValidateCouponRequest.t) (db : DB) :
  let o := fst (Api.ValidateCoupon keys now bind db) in
  let db' := snd (Api.ValidateCoupon keys now bind db) in
  same_tables db' db
  /\ (forall msg, bind = Api.BindError msg ->
        o = Api.Wrote (Api.mkResponse 400 (Api.ErrorResponse msg)) /\ db' = db)
  /\ (forall req, bind = Api.Bound req -> keys "user_id" = None ->
        o = Api.Wrote (Api.mkResponse 401 (Api.ErrorResponse "user not authenticated"))
        /\ db' = db)
  /\ (forall req s, bind = Api.Bound req -> keys "user_id" = Some (Api.AnyOther s) ->
        o = Api.Panicked /\ db' = db)
  /\ (forall req userID,
        bind = Api.Bound req -> keys "user_id" = Some (Api.AnyUUID userID) ->
        let answer := fst (Service.ValidateCoupon (validation_of req userID now) db) in
        (forall out, answer = Ok out ->
                     o = Api.Wrote (Api.mkResponse 200 (Api.ValidateBody out)))
        /\ (forall e, answer = Err e ->
                      exists msg, o = Api.Wrote (Api.mkResponse 500 (Api.ErrorResponse msg))
                                  /\ In (Some msg) (faults db))
        /\ (healthy db ->
            exists out, o = Api.Wrote (Api.mkResponse 200 (Api.ValidateBody out)))).
Proof.
  intros o db'. subst o db'. unfold Api.ValidateCoupon.
  split; [| split; [| split; [| split]]].
  - destruct bind as [msg|req]; [apply same_tables_refl |].
    destruct (keys "user_id") as [[u|s]|]; try apply same_tables_refl.
    pose proof (read_only_ValidateCoupon
                  (Service.ValidateCouponInput.mk
                     (Api.ValidateCouponRequest.CouponCode req)
                     (Api.ValidateCouponRequest.CartItems req)
                     (Api.ValidateCouponRequest.OrderTotal req) u now) db) as H.
    destruct (Service.ValidateCoupon _ db) as [[out|e] d]; exact H.
  - intros msg ->. split; reflexivity.
  - intros req -> ->. split; reflexivity.
  - intros req s -> ->. split; reflexivity.
  - intros req userID -> ->. unfold validation_of.
    pose proof (driver_errors_only_ValidateCoupon
                  (Service.ValidateCouponInput.mk
                     (Api.ValidateCouponRequest.CouponCode req)
                     (Api.ValidateCouponRequest.CartItems req)
                     (Api.ValidateCouponRequest.OrderTotal req) userID now) db) as Herr.
    pose proof (ValidateCoupon_healthy
                  (Service.ValidateCouponInput.mk
                     (Api.ValidateCouponRequest.CouponCode req)
                     (Api.ValidateCouponRequest.CartItems req)
                     (Api.ValidateCouponRequest.OrderTotal req) userID now) db) as Hok.
    destruct (Service.ValidateCoupon _ db) as [[out|e] d]; simpl.
    + split; [| split].
      * intros out' E. injection E as <-. reflexivity.
      * intros e E. discriminate E.
      * intros _. exists out. reflexivity.
    + split; [| split].
      * intros out E. discriminate E.
      * intros e' E. injection E as <-. destruct Herr as (msg & -> & Hin).
        exists msg. split; [reflexivity | exact Hin].
      * intros Hh. specialize (Hok Hh). discriminate Hok.
Qed.

(** X16: the handlers of a creation and of a listing.  A body that does
    not bind is answered 400 without a round trip to the store.  Otherwise
    a creation is answered 201 with the coupon the service built, which is
    active and has the code of the request, and the coupons table gains
    one row, active and with the identifier and the code of that coupon;
    or it is answered 500 with the message of the driver and no row is
    added.  A listing is answered 200 with the coupons the repository
    lists, or 500 with the message of the driver, and changes no table.
    Neither handler panics, neither touches the ledger. *)
Theorem create_and_listing_handlers (id fresh : UUID) (now : Time)
        (create : Api.bound Api.CreateCouponRequest.t)
        (listing : Api.bound Api.GetApplicableCouponsRequest.t) (db : DB) :
  let created := Api.CreateCoupon id fresh create db in
  let listed := Api.GetApplicableCoupons now listing db in
  (forall msg, create = Api.BindError msg ->
     created = (Api.Wrote (Api.mkResponse 400 (Api.ErrorResponse msg)), db))
  /\ (forall req, create = Api.Bound req ->
        (exists coupon row,
            fst created = Api.Wrote (Api.mkResponse 201 (Api.CouponBody coupon))
            /\ Coupon.IsActive coupon = true
            /\ Coupon.Code coupon = Api.CreateCouponRequest.Code req
            /\ coupons (snd created) = coupons db ++ [row]
            /\ Coupon.ID row = Coupon.ID coupon
            /\ Coupon.Code row = Coupon.Code coupon
            /\ Coupon.IsActive row = true)
        \/ (exists msg,
               fst created = Api.Wrote (Api.mkResponse 500 (Api.ErrorResponse msg))
               /\ In (Some msg) (faults db)
               /\ coupons (snd created) = coupons db))
  /\ coupon_usages (snd created) = coupon_usages db
  /\ (forall msg, listing = Api.BindError msg ->
        listed = (Api.Wrote (Api.mkResponse 400 (Api.ErrorResponse msg)), db))
  /\ (forall req, listing = Api.Bound req ->
        (exists coupons,
            fst listed = Api.Wrote (Api.mkResponse 200 (Api.ApplicableCoupons coupons))
            /\ fst (Repository.GetApplicableCoupons now
                      (Api.GetApplicableCouponsRequest.CartItems req)
                      (Api.GetApplicableCouponsRequest.OrderTotal req) db) = Ok coupons)
        \/ (exists msg,
               fst listed = Api.Wrote (Api.mkResponse 500 (Api.ErrorResponse msg))
               /\ In (Some msg) (faults db)))
  /\ same_tables (snd listed) db.
Proof.
  intros created listed. subst created listed.
  unfold Api.CreateCoupon, Api.GetApplicableCoupons, Service.GetApplicableCoupons.
  split; [| split; [| split; [| split; [| split]]]].
  - intros msg ->. reflexivity.
  - intros req ->.
    match goal with
    | |- context [Service.CreateCoupon id fresh ?i db] =>
        pose proof (CreateCoupon_effect id fresh i db) as H;
        destruct (Service.CreateCoupon id fresh i db) as [[coupon|e] d]
    end; simpl.
    + left. destruct H as (Hc & _ & Ha & Hcode).
      exists coupon, (stored_row (coupons db) coupon).
      split; [reflexivity | split; [exact Ha | split; [exact Hcode | split; [exact Hc |]]]].
      split; [reflexivity | split; [reflexivity | exact Ha]].
    + right. destruct H as ([Hc _] & msg & -> & Hin). exists msg.
      split; [reflexivity | split; [exact Hin | exact Hc]].
  - destruct create as [msg|req]; [reflexivity |].
    match goal with
    | |- context [Service.CreateCoupon id fresh ?i db] =>
        pose proof (CreateCoupon_effect id fresh i db) as H;
        destruct (Service.CreateCoupon id fresh i db) as [[coupon|e] d]
    end; simpl.
    + destruct H as (_ & Hu & _). exact Hu.
    + destruct H as ([_ Hu] & _). exact Hu.
  - intros msg ->. reflexivity.
  - intros req ->.
    destruct (Repository.GetApplicableCoupons now _ _ db) as [[cs|e] d] eqn:E; simpl.
    + left. exists cs. split; reflexivity.
    + right.
      pose proof (driver_errors_only_GetApplicableCoupons now
                    (Api.GetApplicableCouponsRequest.CartItems req)
                    (Api.GetApplicableCouponsRequest.OrderTotal req) db) as Hs.
      rewrite E in Hs. destruct Hs as (msg & -> & Hin). exists msg.
      split; [reflexivity | exact Hin].
  - destruct listing as [msg|req]; [apply same_tables_refl |].
    pose proof (read_only_GetApplicableCoupons now
                  (Api.GetApplicableCouponsRequest.CartItems req)
                  (Api.GetApplicableCouponsRequest.OrderTotal req) db) as H.
    change (same_tables
              (snd (Repository.GetApplicableCoupons now
                      (Api.GetApplicableCouponsRequest.CartItems req)
                      (Api.GetApplicableCouponsRequest.OrderTotal req) db)) db) in H.
    destruct (Repository.GetApplicableCoupons now _ _ db) as [[cs|e] d]; exact H.
Qed.

End Handlers.

Section Routes.
Import Repository.

Lemma setupRouter_routes (method path : string) (ep : Main.endpoint) :
  Main.setupRouter method path = Some ep <->
  (method = "POST" /\ path = "/admin/coupons" /\ ep = Main.AdminCreateCoupon)
  \/ (method = "GET" /\ path = "/coupons/applicable" /\ ep = Main.CouponsApplicable)
  \/ (method = "POST" /\ path = "/coupons/validate" /\ ep = Main.CouponsValidate).
Proof.
  unfold Main.setupRouter. split.
  - destruct (String.eqb_spec method "POST") as [Em|Em];
      destruct (String.eqb_spec path "/admin/coupons") as [Ep|Ep]; simpl.
    + intros H. injection H as <-. left. repeat split; assumption.
    + destruct (String.eqb_spec method "GET") as [Eg|Eg]; [congruence |]. simpl.
      destruct (String.eqb_spec path "/coupons/validate") as [Ev|Ev]; [| discriminate].
      intros H. injection H as <-. right. right. repeat split; assumption.
    + destruct (String.eqb_spec method "GET") as [Eg|Eg]; simpl; [| discriminate].
      rewrite Ep. simpl. discriminate.
    + destruct (String.eqb_spec method "GET") as [Eg|Eg]; simpl; [| discriminate].
      destruct (String.eqb_spec path "/coupons/applicable") as [Ea|Ea]; [| discriminate].
      intros H. injection H as <-. right. left. repeat split; assumption.
  - intros [(-> & -> & ->)|[(-> & -> & ->)|(-> & -> & ->)]]; reflexivity.
Qed.

(** X17: the route of a validation, as [setupRouter] installs it, accepts
    no request: no middleware of the router stores [user_id], so a body
    that binds is answered 401 "user not authenticated" and a body that
    does not bind 400; the service is not called and the store is not
    contacted, whatever the body, the store and the script. *)
Theorem validate_route_is_closed (rt : Main.runtime) (body : string) (db : DB) :
  Main.setupRouter "POST" "/coupons/validate" = Some Main.CouponsValidate
  /\ Main.serve rt (Main.mkRequest "POST" "/coupons/validate" body) db
     = match Main.bindValidate rt body with
       | Api.BindError msg =>
           (Some (Api.Wrote (Api.mkResponse 400 (Api.ErrorResponse msg))), db)
       | Api.Bound _ =>
           (Some (Api.Wrote (Api.mkResponse 401
                               (Api.ErrorResponse "user not authenticated"))), db)
       end.
Proof.
  split; [reflexivity |].
  unfold Main.serve. cbn [Main.method Main.path Main.payload].
  change (Main.setupRouter "POST" "/coupons/validate") with (Some Main.CouponsValidate).
  cbv iota beta zeta. unfold Main.Recovery, Api.ValidateCoupon, Main.no_keys.
  destruct (Main.bindValidate rt body); reflexivity.
Qed.

(** X18: no route writes the usage ledger.  Whatever the request, the
    runtime, the store and the script, serving a request leaves
    [coupon_usages] as it was; it changes the coupons table only on
    [POST /admin/coupons], by adding at most one row; no request ends in a
    panic; and for a method and path outside the three routes no handler
    runs and the store is not contacted. *)
Theorem routes_never_write_the_ledger (rt : Main.runtime) (req : Main.request) (db : DB) :
  let served := Main.serve rt req db in
  coupon_usages (snd served) = coupon_usages db
  /\ (exists added, coupons (snd served) = coupons db ++ added
                    /\ (List.length added <= 1)%nat
                    /\ (Main.setupRouter (Main.method req) (Main.path req)
                        <> Some Main.AdminCreateCoupon -> added = []))
  /\ fst served <> Some Api.Panicked
  /\ (Main.setupRouter (Main.method req) (Main.path req) = None ->
      served = (None, db)).
Proof.
  intros served. subst served. unfold Main.serve.
  destruct (Main.setupRouter (Main.method req) (Main.path req)) as [[| |]|] eqn:Er.
  - unfold Main.Recovery, Api.CreateCoupon.
    destruct (Main.bindCreate rt (Main.payload req)) as [msg|r]; simpl.
    { split; [reflexivity | split; [| split; [discriminate | discriminate]]].
      exists []. rewrite app_nil_r. split; [reflexivity | split; [simpl; lia |]].
      intros _. reflexivity. }
    match goal with
    | |- context [Service.CreateCoupon ?i ?f ?inp db] =>
        pose proof (CreateCoupon_effect i f inp db) as H;
        destruct (Service.CreateCoupon i f inp db) as [[coupon|e] d]
    end; simpl.
    + destruct H as (Hc & Hu & _).
      split; [exact Hu | split; [| split; [discriminate | discriminate]]].
      exists [stored_row (coupons db) coupon]. split; [exact Hc | split; [simpl; lia |]].
      intros Hne. exfalso. apply Hne. reflexivity.
    + destruct H as ([Hc Hu] & _).
      split; [exact Hu | split; [| split; [discriminate | discriminate]]].
      exists []. rewrite app_nil_r. split; [exact Hc | split; [simpl; lia |]].
      intros _. reflexivity.
  - unfold Main.Recovery, Api.GetApplicableCoupons, Service.GetApplicableCoupons.
    destruct (Main.bindApplicable rt (Main.payload req)) as [msg|r]; simpl.
    { split; [reflexivity | split; [| split; [discriminate | discriminate]]].
      exists []. rewrite app_nil_r. split; [reflexivity | split; [simpl; lia |]].
      intros _. reflexivity. }
    pose proof (read_only_GetApplicableCoupons (Main.now rt)
                  (Api.GetApplicableCouponsRequest.CartItems r)
                  (Api.GetApplicableCouponsRequest.OrderTotal r) db) as H.
    change (same_tables
              (snd (Repository.GetApplicableCoupons (Main.now rt)
                      (Api.GetApplicableCouponsRequest.CartItems r)
                      (Api.GetApplicableCouponsRequest.OrderTotal r) db)) db) in H.
    destruct (Repository.GetApplicableCoupons (Main.now rt) _ _ db) as [[cs|e] d];
      simpl in *; destruct H as [Hc Hu];
      (split; [exact Hu | split; [| split; [discriminate | discriminate]]];
       exists []; rewrite app_nil_r; split; [exact Hc | split; [simpl; lia |]];
       intros _; reflexivity).
  - unfold Main.Recovery, Api.ValidateCoupon, Main.no_keys.
    destruct (Main.bindValidate rt (Main.payload req)) as [msg|r]; simpl;
      (split; [reflexivity | split; [| split; [discriminate | discriminate]]];
       exists []; rewrite app_nil_r; split; [reflexivity | split; [simpl; lia |]];
       intros _; reflexivity).
  - simpl. split; [reflexivity | split; [| split; [discriminate | reflexivity]]].
    exists []. rewrite app_nil_r. split; [reflexivity | split; [simpl; lia |]].
    intros _. reflexivity.
Qed.

End Routes.

(** ** Any number of simultaneous redemptions *)

Section Simultaneous.
Import Repository Interleaving.

Lemma filter_all {A} (p : A -> bool) (l : list A) :
  (forall a, In a l -> p a = true) -> filter p l = l.
Proof.
  induction l as [|a l IH]; intros H; [reflexivity |]. simpl.
  rewrite (H a (or_introl eq_refl)), IH; [reflexivity |].
  intros b Hb. apply H. right. exact Hb.
Qed.

(** X19: any number of simultaneous redemptions of a one-time coupon by
    one user, on a ledger without a record of the pair.  When the calls
    proceed round by round (all begin, all look the coupon up, all count,
    all insert, all commit), every call returns nil, every record is
    committed, and the pair ends with as many records as there were
    calls. *)
Theorem simultaneous_redemptions_all_succeed
        (k : list Coupon.t) (rows : list CouponUsage.t) (coupon : Coupon.t)
        (couponID userID : UUID) (usages : list CouponUsage.t) :
  Coupon.UsageType coupon = OneTime ->
  least_id (filter (fun c => N.eqb (Coupon.ID c) couponID && Coupon.IsActive c) k)
  = Some coupon ->
  Z.of_nat (List.length (filter (same_pair couponID userID) rows)) = 0 ->
  (forall u, In u usages ->
             CouponUsage.CouponID u = couponID /\ CouponUsage.UserID u = userID) ->
  let final := run (round_robin (List.length usages) 5) (start k rows usages) in
  outcomes final = map (fun _ => Returned (Ok tt)) usages
  /\ committed final = rows ++ usages
  /\ List.length (filter (same_pair couponID userID) (committed final))
     = List.length usages.
Proof.
  intros Hone Hc Hn Hall final. subst final.
  rewrite (all_attempts_succeed k rows coupon couponID userID usages Hone Hc Hn Hall).
  unfold outcomes. cbn [calls committed]. rewrite map_map. cbn [at_pc].
  split; [reflexivity | split; [reflexivity |]].
  rewrite filter_app, length_app.
  assert (H0 : List.length (filter (same_pair couponID userID) rows) = 0%nat) by lia.
  rewrite H0. simpl. f_equal. apply filter_all.
  intros u Hu. destruct (Hall u Hu) as [E1 E2]. unfold same_pair.
  rewrite E1, E2, !N.eqb_refl. reflexivity.
Qed.

Lemma simultaneous_redemptions_all_succeed_witness :
  outcomes (run (round_robin 3 5)
              (start [Sample.ONCE] []
                     [Sample.redeem 41%N 2%N Sample.alice; Sample.redeem 42%N 2%N Sample.alice;
                      Sample.redeem 43%N 2%N Sample.alice]))
  = [Returned (Ok tt); Returned (Ok tt); Returned (Ok tt)]
  /\ List.length
       (filter (same_pair 2%N Sample.alice)
          (committed (run (round_robin 3 5)
                        (start [Sample.ONCE] []
                               [Sample.redeem 41%N 2%N Sample.alice;
                                Sample.redeem 42%N 2%N Sample.alice;
                                Sample.redeem 43%N 2%N Sample.alice]))))
     = 3%nat.
Proof.
  destruct (simultaneous_redemptions_all_succeed
              [Sample.ONCE] [] Sample.ONCE 2%N Sample.alice
              [Sample.redeem 41%N 2%N Sample.alice; Sample.redeem 42%N 2%N Sample.alice;
               Sample.redeem 43%N 2%N Sample.alice]) as (H1 & _ & H3).
  - reflexivity.
  - reflexivity.
  - reflexivity.
  - intros u [<-|[<-|[<-|[]]]]; split; reflexivity.
  - split; [exact H1 | exact H3].
Defined.

End Simultaneous.

(** ** Redemption without validation *)

Section Unvalidated.
Import Repository Service.

(** X20: a redemption does not validate.  On a healthy store whose coupon
    identifiers are a primary key, take the active coupon of a code when
    [IsValid] rejects it for the order (expired, outside its window, below
    the minimum order value) or the matcher rejects the cart: the
    validation is declined, as not valid or as not applicable, and yet
    [RecordCouponUsage] redeems the coupon for the same user, as long as
    the user is below the usage limit; the record is added to the ledger. *)
Theorem declined_coupon_can_be_redeemed (input : ValidateCouponInput.t) (db : DB)
        (coupon : Coupon.t) (usage : CouponUsage.t) :
  healthy db -> unique_ids db ->
  active_by_code db (ValidateCouponInput.Code input) = Some coupon ->
  CouponUsage.CouponID usage = Coupon.ID coupon ->
  CouponUsage.UserID usage = ValidateCouponInput.UserID input ->
  Coupon.IsValid coupon (ValidateCouponInput.OrderTotal input)
                 (ValidateCouponInput.Timestamp input) = false
  \/ isApplicableToCoupon coupon (ValidateCouponInput.CartItems input) = false ->
  (Coupon.UsageType coupon = OneTime ->
   usage_count db (Coupon.ID coupon) (ValidateCouponInput.UserID input) = 0) ->
  (Coupon.UsageType coupon = MultiUse ->
   usage_count db (Coupon.ID coupon) (ValidateCouponInput.UserID input)
   < Coupon.MaxUsagePerUser coupon) ->
  (fst (ValidateCoupon input db) = Ok invalid
   \/ fst (ValidateCoupon input db) = Ok inapplicable)
  /\ Repository.RecordCouponUsage usage db = (Ok tt, recorded db usage).
Proof.
  intros Hh Hu Hc E1 E2 Hrej Hone Hmulti.
  destruct (active_by_code_row _ _ _ Hc) as (Hin & _ & Ha).
  split.
  - rewrite (ValidateCoupon_healthy _ _ Hh), Hc. cbv zeta. simpl.
    destruct (Coupon.IsValid coupon _ _); simpl; [| left; reflexivity].
    destruct Hrej as [Hv|Happ]; [discriminate Hv |]. rewrite Happ. simpl.
    right. reflexivity.
  - rewrite (RecordCouponUsage_healthy _ _ Hh), E1, E2, (active_by_id_unique _ _ Hu Hin Ha).
    cbv zeta.
    destruct (String.eqb_spec (Coupon.UsageType coupon) OneTime) as [T1|T1]; simpl.
    + rewrite (Hone T1), (one_time_not_multi_use _ T1). reflexivity.
    + destruct (String.eqb_spec (Coupon.UsageType coupon) MultiUse) as [T2|T2]; simpl;
        [| reflexivity].
      specialize (Hmulti T2).
      destruct (Z.geb_spec (usage_count db (Coupon.ID coupon)
                                        (ValidateCouponInput.UserID input))
                           (Coupon.MaxUsagePerUser coupon)); [lia | reflexivity].
Qed.

Lemma declined_coupon_can_be_redeemed_witness :
  (fst (ValidateCoupon (ValidateCouponInput.mk "ONCE" [] 700 Sample.alice 2500)
          (mkDB [Sample.SAVE20; Sample.ONCE] [] []))
   = Ok invalid
   \/ fst (ValidateCoupon (ValidateCouponInput.mk "ONCE" [] 700 Sample.alice 2500)
             (mkDB [Sample.SAVE20; Sample.ONCE] [] []))
      = Ok inapplicable)
  /\ Repository.RecordCouponUsage (Sample.redeem 41%N 2%N Sample.alice)
       (mkDB [Sample.SAVE20; Sample.ONCE] [] [])
     = (Ok tt, recorded (mkDB [Sample.SAVE20; Sample.ONCE] [] [])
                        (Sample.redeem 41%N 2%N Sample.alice)).
Proof.
  apply (declined_coupon_can_be_redeemed
           (ValidateCouponInput.mk "ONCE" [] 700 Sample.alice 2500)
           (mkDB [Sample.SAVE20; Sample.ONCE] [] []) Sample.ONCE).
  - reflexivity.
  - unfold unique_ids. simpl. repeat constructor; simpl; intuition discriminate.
  - reflexivity.
  - reflexivity.
  - reflexivity.
  - left. reflexivity.
  - intros _. reflexivity.
  - intros H. discriminate H.
Defined.

End Unvalidated.
